(** * The Prophet forecasting model of the BI predictive-analytics platform

    A shallow embedding of [ProphetForecastingModel] (prophet-model.py):
    data preparation, regressor discovery, fit, predict, training metrics,
    cross-validation and saving.

    Conventions of the embedding.
    - A Python method is a computation in the monad [M]: it reads and
      writes the world (the instance [self], the log, the disk) and either
      returns or raises.  State written before a [raise] stays written,
      as in Python.
    - Only subclasses of [Exception] are modelled; [except Exception]
      catches every one of them.
    - float64 numbers are exact rationals; rounding and overflow are left
      out.  Input cells are finite or missing; the derived forecast fields
      live in [Np.fval], which adds the IEEE infinities and not-a-number.
    - pandas, Prophet, scikit-learn, numpy and joblib are collaborators.
      The pandas operations used by the code are written out; the
      numerical engine and the I/O layer are the fields of [Lib.t]. *)

From Stdlib Require Import ZArith QArith Qabs Qround String Ascii List Bool.
From Stdlib Require Import Lia Lqa DecimalString Permutation Sorted.
Import ListNotations.

Set Implicit Arguments.

(** ** Python exceptions and outcomes *)

Module Py.

(** Modelled from the spec: src/utils/exceptions.py, which declares
    ModelTrainingException and PredictionException, is not part of the
    sources.  They are taken to be ordinary exception classes (the
    training-error and prediction-error kinds of the specification): a
    message and nothing else, derived from [Exception], so that
    [except Exception] catches them like the built-in classes. *)
Inductive ExnClass :=
| ModelTrainingException
| PredictionException
| PyException            (* the built-in [Exception] itself *)
| ValueError
| KeyError
| TypeError
| AttributeError
| OSError
| MemoryError.

Record Exn := mkExn { exn_class : ExnClass; str : string }.

Inductive Outcome (A : Type) :=
| Return (a : A)
| Raise (e : Exn).
Arguments Return {A} a.
Arguments Raise {A} e.

Definition bind_outcome {A B} (o : Outcome A) (k : A -> Outcome B) : Outcome B :=
  match o with
  | Return a => k a
  | Raise e => Raise e
  end.

(** [str(n)] for a non-negative integer. *)
Definition str_of_nat (n : nat) : string :=
  NilEmpty.string_of_uint (Nat.to_uint n).

End Py.

(** ** numpy float64, without rounding *)

Module Np.

Inductive fval :=
| Fin (q : Q)
| PInf
| NInf
| FNaN.

Definition fabs (a : fval) : fval :=
  match a with
  | Fin q => Fin (Qabs q)
  | PInf | NInf => PInf
  | FNaN => FNaN
  end.

Definition fneg (a : fval) : fval :=
  match a with
  | Fin q => Fin (- q)
  | PInf => NInf
  | NInf => PInf
  | FNaN => FNaN
  end.

Definition fadd (a b : fval) : fval :=
  match a, b with
  | FNaN, _ | _, FNaN => FNaN
  | Fin x, Fin y => Fin (x + y)
  | PInf, NInf | NInf, PInf => FNaN
  | PInf, _ | _, PInf => PInf
  | NInf, _ | _, NInf => NInf
  end.

Definition fsub (a b : fval) : fval := fadd a (fneg b).

(** The infinity with the sign of [q], not-a-number for zero. *)
Definition sign_inf (q : Q) : fval :=
  match q ?= 0 with
  | Gt => PInf
  | Lt => NInf
  | Eq => FNaN
  end.

Definition fmul (a b : fval) : fval :=
  match a, b with
  | FNaN, _ | _, FNaN => FNaN
  | Fin x, Fin y => Fin (x * y)
  | Fin x, PInf | PInf, Fin x => sign_inf x
  | Fin x, NInf | NInf, Fin x => fneg (sign_inf x)
  | PInf, PInf | NInf, NInf => PInf
  | PInf, NInf | NInf, PInf => NInf
  end.

(** IEEE division.  The model has one zero, the positive one (every
    divisor in this program is an absolute value): a non-zero number
    over zero is the infinity of its sign, zero over zero is
    not-a-number, and no case raises. *)
Definition fdiv (a b : fval) : fval :=
  match a, b with
  | FNaN, _ | _, FNaN => FNaN
  | Fin x, Fin y => if Qeq_bool y 0 then sign_inf x else Fin (x / y)
  | Fin _, (PInf | NInf) => Fin 0
  | PInf, Fin y => if Qle_bool 0 y then PInf else NInf
  | NInf, Fin y => if Qle_bool 0 y then NInf else PInf
  | (PInf | NInf), (PInf | NInf) => FNaN
  end.

(** [a <= b] on floats: false as soon as one side is not-a-number. *)
Definition fle (a b : fval) : Prop :=
  match a, b with
  | FNaN, _ | _, FNaN => False
  | NInf, _ => True
  | _, PInf => True
  | Fin x, Fin y => x <= y
  | _, _ => False
  end.


Definition is_nan (a : fval) : bool :=
  match a with FNaN => true | _ => false end.

(** [a - b] on two series with the same index. *)
Definition series_sub (a b : list fval) : list fval :=
  map (fun p => fsub (fst p) (snd p)) (combine a b).

(** [np.mean] of a pandas series: the mean of its non-missing entries. *)
Definition mean (l : list fval) : fval :=
  let xs := filter (fun x => negb (is_nan x)) l in
  fdiv (fold_right fadd (Fin 0) xs) (Fin (inject_Z (Z.of_nat (length xs)))).

End Np.

(** ** pandas frames and the operations [prepare_data] and [predict] use *)

Module Pandas.
Import Py.

(** A cell holds a number, a text, or is missing (NaN, None, NaT).  A
    timestamp is the number of its instant; the column's dtype says
    how to read it. *)
Inductive Cell :=
| Num (q : Q)
| NaN
| Text (s : string).

Inductive DType :=
| float64 | int64 | float32 | int32
| float16 | int16 | int8
| uint8 | uint16 | uint32 | uint64
| bool_ | datetime64 | object_.

Definition dtype_eqb (a b : DType) : bool :=
  match a, b with
  | float64, float64 | int64, int64 | float32, float32 | int32, int32
  | float16, float16 | int16, int16 | int8, int8
  | uint8, uint8 | uint16, uint16 | uint32, uint32 | uint64, uint64
  | bool_, bool_ | datetime64, datetime64 | object_, object_ => true
  | _, _ => false
  end.

(** Rows in index order, each row aligned with [columns]. *)
Record DataFrame := mkFrame {
  columns : list (string * DType);
  rows : list (list Cell)
}.

(** [len(df)] *)
Definition len (df : DataFrame) : nat := length (rows df).

Definition labels (df : DataFrame) : list string := map fst (columns df).

(** [df.rename(columns={old: new})]: labels not present are ignored. *)
Definition rename (old new : string) (df : DataFrame) : DataFrame :=
  mkFrame
    (map (fun c => if String.eqb (fst c) old then (new, snd c) else c) (columns df))
    (rows df).

Fixpoint positions_from (i : nat) (label : string) (cols : list (string * DType))
  : list nat :=
  match cols with
  | [] => []
  | c :: rest =>
      if String.eqb (fst c) label
      then i :: positions_from (S i) label rest
      else positions_from (S i) label rest
  end.

(** Position of the one column called [label].  [df[label]] raises
    KeyError when there is none.  With a repeated label pandas hands
    back a sub-frame rather than a column: [to_datetime] rejects it with
    ValueError, and the scalar pipeline on the value column is not
    modelled for it, so the model stops there as well. *)
Definition locate (label : string) (df : DataFrame) : Outcome nat :=
  match positions_from 0 label (columns df) with
  | [] => Raise (mkExn KeyError ("'" ++ label ++ "'"))
  | [i] => Return i
  | _ => Raise (mkExn ValueError ("cannot assemble with duplicate keys"))
  end.

(** A row shorter than the header reads as missing in the columns it
    does not reach. *)
Definition cell_at (i : nat) (row : list Cell) : Cell := nth i row NaN.

(** The cells of column [i], top to bottom. *)
Definition column (i : nat) (df : DataFrame) : list Cell :=
  map (cell_at i) (rows df).

Fixpoint set_nth {A} (i : nat) (x : A) (l : list A) : list A :=
  match l, i with
  | [], _ => []
  | _ :: t, O => x :: t
  | h :: t, S j => h :: set_nth j x t
  end.

(** Writing cell [i] of a row, the row growing by missing cells when it
    does not reach column [i]. *)
Fixpoint set_cell (i : nat) (x : Cell) (row : list Cell) : list Cell :=
  match i, row with
  | O, [] => [x]
  | O, _ :: t => x :: t
  | S j, [] => NaN :: set_cell j x []
  | S j, h :: t => h :: set_cell j x t
  end.

Fixpoint set_cells (i : nat) (vals : list Cell) (rs : list (list Cell))
  : list (list Cell) :=
  match rs, vals with
  | r :: rs', v :: vals' => set_cell i v r :: set_cells i vals' rs'
  | _, _ => rs
  end.

Definition set_dtype (i : nat) (d : DType) (cols : list (string * DType)) :=
  match nth_error cols i with
  | Some c => set_nth i (fst c, d) cols
  | None => cols
  end.

(** [df[label] = vals] for the existing column at position [i], the
    dtype staying as it is. *)
Definition set_column (i : nat) (vals : list Cell) (df : DataFrame) : DataFrame :=
  mkFrame (columns df) (set_cells i vals (rows df)).

(** The same when the new values have dtype [d]. *)
Definition assign (i : nat) (d : DType) (vals : list Cell) (df : DataFrame)
  : DataFrame :=
  mkFrame (set_dtype i d (columns df)) (set_cells i vals (rows df)).

Definition dtype_at (i : nat) (df : DataFrame) : DType :=
  match nth_error (columns df) i with
  | Some c => snd c
  | None => object_
  end.

Definition is_datetime (d : DType) : bool := dtype_eqb d datetime64.

(** [df[label].dtype]; a repeated label selects a sub-frame, which has
    no attribute [dtype]. *)
Definition dtype_of (label : string) (df : DataFrame) : Outcome DType :=
  match positions_from 0 label (columns df) with
  | [] => Raise (mkExn KeyError ("'" ++ label ++ "'"))
  | [i] => Return (dtype_at i df)
  | _ => Raise (mkExn AttributeError "'DataFrame' object has no attribute 'dtype'")
  end.

(** [pd.to_datetime] on one cell, given the text parser. *)
Definition to_datetime_cell (parse : string -> option Z) (c : Cell) : Outcome Cell :=
  match c with
  | Num q => Return (Num q)
  | NaN => Return NaN
  | Text s =>
      match parse s with
      | Some t => Return (Num (inject_Z t))
      | None =>
          Raise (mkExn ValueError
                   ("Unknown datetime string format, unable to parse: " ++ s))
      end
  end.

Fixpoint to_datetime (parse : string -> option Z) (cs : list Cell)
  : Outcome (list Cell) :=
  match cs with
  | [] => Return []
  | c :: rest =>
      bind_outcome (to_datetime_cell parse c) (fun c' =>
      bind_outcome (to_datetime parse rest) (fun rest' =>
      Return (c' :: rest')))
  end.

(** Order of sort keys: numbers ascending, missing keys last
    ([na_position='last']); a text key cannot remain after
    [to_datetime] and sorts with the missing ones. *)
Definition key_leb (a b : Cell) : bool :=
  match a, b with
  | Num x, Num y => Qle_bool x y
  | Num _, _ => true
  | _, Num _ => false
  | _, _ => true
  end.

Fixpoint insert_row (i : nat) (r : list Cell) (sorted : list (list Cell))
  : list (list Cell) :=
  match sorted with
  | [] => [r]
  | r' :: rest =>
      if key_leb (cell_at i r') (cell_at i r)
      then r' :: insert_row i r rest
      else r :: r' :: rest
  end.

(** [df.sort_values(label).reset_index(drop=True)], written as an
    insertion of each row after the rows whose key is not larger. *)
Definition sort_values (i : nat) (df : DataFrame) : DataFrame :=
  mkFrame (columns df)
          (fold_left (fun acc r => insert_row i r acc) (rows df) []).

(** [fillna(method="ffill")] *)
Fixpoint ffill_from (last : Cell) (cs : list Cell) : list Cell :=
  match cs with
  | [] => []
  | NaN :: rest => last :: ffill_from last rest
  | c :: rest => c :: ffill_from c rest
  end.

Definition ffill (cs : list Cell) : list Cell := ffill_from NaN cs.

(** [fillna(method="bfill")] *)
Definition bfill (cs : list Cell) : list Cell := rev (ffill (rev cs)).

(** The numbers among the cells. *)
Definition nums (cs : list Cell) : list Q :=
  flat_map (fun c => match c with Num q => [q] | _ => [] end) cs.

(** The numbers of a column, missing cells dropped; arithmetic on a
    text raises TypeError. *)
Fixpoint numeric_values (cs : list Cell) : Outcome (list Q) :=
  match cs with
  | [] => Return []
  | Num q :: rest => bind_outcome (numeric_values rest) (fun qs => Return (q :: qs))
  | NaN :: rest => numeric_values rest
  | Text s :: rest =>
      Raise (mkExn TypeError "unsupported operand type(s) for -: 'str' and 'str'")
  end.

Fixpoint insert_q (x : Q) (sorted : list Q) : list Q :=
  match sorted with
  | [] => [x]
  | y :: rest => if Qle_bool x y then x :: y :: rest else y :: insert_q x rest
  end.

Fixpoint sort_q (l : list Q) : list Q :=
  match l with
  | [] => []
  | x :: rest => insert_q x (sort_q rest)
  end.

(** Linear interpolation in the sorted values [s] at the fractional
    position [pos]: between the value at the floor of [pos] and its
    right neighbour (the last value has itself as neighbour). *)
Definition interpolate (s : list Q) (pos : Q) : Q :=
  let lo := Z.to_nat (Qfloor pos) in
  let frac := pos - inject_Z (Qfloor pos) in
  let a := nth lo s 0 in
  let b := nth (Nat.min (S lo) (length s - 1)) s 0 in
  a + (b - a) * frac.

(** [Series.quantile(q)] with the default linear interpolation, on the
    non-missing numbers [vals]: position [(n-1)*q] in the sorted
    values.  [None] is the NaN pandas returns when there is no number. *)
Definition quantile (vals : list Q) (q : Q) : option Q :=
  match sort_q vals with
  | [] => None
  | s => Some (interpolate s (inject_Z (Z.of_nat (length s - 1)) * q))
  end.

(** NaN-propagating arithmetic on scalars that may be NaN. *)
Definition nsub (a b : option Q) : option Q :=
  match a, b with Some x, Some y => Some (x - y) | _, _ => None end.
Definition nadd (a b : option Q) : option Q :=
  match a, b with Some x, Some y => Some (x + y) | _, _ => None end.
Definition nscale (k : Q) (a : option Q) : option Q :=
  match a with Some x => Some (k * x) | None => None end.

(** [Series.clip(lower, upper)] on one cell: a NaN threshold does not
    clip, a missing cell stays missing; both tests look at the
    original value, the upper one first. *)
Definition clip_cell (lower upper : option Q) (c : Cell) : Cell :=
  match c with
  | Num v =>
      let r := match upper with
               | Some hi => if Qle_bool v hi then v else hi
               | None => v
               end in
      Num (match lower with
           | Some lo => if Qle_bool lo v then r else lo
           | None => r
           end)
  | _ => c
  end.

(** Two scalar thresholds given in the wrong order are exchanged. *)
Definition clip_bounds (lower upper : option Q) : option Q * option Q :=
  match lower, upper with
  | Some lo, Some hi => if Qle_bool lo hi then (lower, upper) else (upper, lower)
  | _, _ => (lower, upper)
  end.

Definition clip (lower upper : option Q) (cs : list Cell) : list Cell :=
  map (clip_cell (fst (clip_bounds lower upper)) (snd (clip_bounds lower upper))) cs.

(** [label in df.columns] *)
Definition has_column (label : string) (df : DataFrame) : bool :=
  existsb (String.eqb label) (labels df).

(** Equality of merge keys; missing keys match each other. *)
Definition cell_eqb (a b : Cell) : bool :=
  match a, b with
  | Num x, Num y => Qeq_bool x y
  | Text s, Text t => String.eqb s t
  | NaN, NaN => true
  | _, _ => false
  end.

(** [left.merge(right[['ds', col]], on='ds', how='left')] where [left]
    has no column [col]: every left row, in order, once per right row
    with the same key, or once with a missing value when there is
    none.  [kl], [kr], [vr] are the positions of the key in both
    frames and of [col] in [right]; the new column takes position [n],
    after the columns of [left]. *)
Definition merge_row (n kl kr vr : nat) (right : list (list Cell)) (l : list Cell)
  : list (list Cell) :=
  match filter (fun r => cell_eqb (cell_at kl l) (cell_at kr r)) right with
  | [] => [set_cell n NaN l]
  | ms => map (fun r => set_cell n (cell_at vr r) l) ms
  end.

Definition merge_left (kl kr vr : nat) (col : string * DType)
           (left right : DataFrame) : DataFrame :=
  mkFrame (columns left ++ [col])
          (flat_map (merge_row (length (columns left)) kl kr vr (rows right))
                    (rows left)).

End Pandas.

(** ** The Prophet object, as far as this module touches it *)

Module Prophet.
Import Py Np Pandas.

Record Seasonality := mkSeasonality {
  s_name : string;
  period : Q;
  fourier_order : Z
}.

(** What [Prophet.fit] leaves on the object. *)
Record Fit := mkFit {
  history : DataFrame;
  params : list (string * list Q)
}.

Record t := mk {
  seasonality_mode : string;
  changepoint_prior_scale : Q;
  seasonality_prior_scale : Q;
  holidays_prior_scale : Q;
  mcmc_samples : Z;
  interval_width : Q;
  uncertainty_samples : Z;
  daily_seasonality : bool;
  weekly_seasonality : bool;
  yearly_seasonality : bool;
  seasonalities : list Seasonality;
  extra_regressors : list string;
  country_holidays : option string;
  fitted : option Fit
}.

(** [model.add_seasonality(name, period, fourier_order)] on a model that
    has not been fitted, with a fresh name. *)
Definition add_seasonality (s : Seasonality) (m : t) : t :=
  mk (seasonality_mode m) (changepoint_prior_scale m) (seasonality_prior_scale m)
     (holidays_prior_scale m) (mcmc_samples m) (interval_width m)
     (uncertainty_samples m) (daily_seasonality m) (weekly_seasonality m)
     (yearly_seasonality m) (seasonalities m ++ [s]) (extra_regressors m)
     (country_holidays m) (fitted m).

(** [model.add_regressor(name)] once the name has been accepted. *)
Definition add_regressor (name : string) (m : t) : t :=
  mk (seasonality_mode m) (changepoint_prior_scale m) (seasonality_prior_scale m)
     (holidays_prior_scale m) (mcmc_samples m) (interval_width m)
     (uncertainty_samples m) (daily_seasonality m) (weekly_seasonality m)
     (yearly_seasonality m) (seasonalities m) (extra_regressors m ++ [name])
     (country_holidays m) (fitted m).

(** [model.add_country_holidays(country_name)] *)
Definition add_country_holidays (country : string) (m : t) : t :=
  mk (seasonality_mode m) (changepoint_prior_scale m) (seasonality_prior_scale m)
     (holidays_prior_scale m) (mcmc_samples m) (interval_width m)
     (uncertainty_samples m) (daily_seasonality m) (weekly_seasonality m)
     (yearly_seasonality m) (seasonalities m) (extra_regressors m)
     (Some country) (fitted m).

Definition set_fitted (f : Fit) (m : t) : t :=
  mk (seasonality_mode m) (changepoint_prior_scale m) (seasonality_prior_scale m)
     (holidays_prior_scale m) (mcmc_samples m) (interval_width m)
     (uncertainty_samples m) (daily_seasonality m) (weekly_seasonality m)
     (yearly_seasonality m) (seasonalities m) (extra_regressors m)
     (country_holidays m) (Some f).

(** One row of the frame [Prophet.predict] returns. *)
Record Row := mkRow {
  ds : Cell;
  yhat : fval;
  yhat_lower : fval;
  yhat_upper : fval;
  components : list (string * fval)
}.

(** The frame [Prophet.predict] returns.  With [uncertainty_samples = 0]
    Prophet leaves the columns yhat_lower and yhat_upper out:
    [has_intervals] tells whether they are there. *)
Record Forecast := mkForecast {
  has_intervals : bool;
  frows : list Row
}.

End Prophet.

(** ** The instance, the world and the monad of methods *)

Inductive Scalar :=
| SStr (s : string)
| SNum (q : Q).

(** Values of the [metadata] dictionary. *)
Inductive MetaValue :=
| MInt (z : Z)
| MStr (s : string)
| MIsoTime (t : Z)                 (* [datetime.isoformat()] of the instant *)
| MFeatureColumns                  (* the list object [self.feature_columns] itself *)
| MDict (d : list (string * Scalar)).

(** [ProphetForecastingModel]: the attributes [__init__] sets. *)
Record ProphetForecastingModel := mkSelf {
  name : string;
  seasonality_mode : string;
  changepoint_prior_scale : Q;
  seasonality_prior_scale : Q;
  holidays_prior_scale : Q;
  mcmc_samples : Z;
  interval_width : Q;
  uncertainty_samples : Z;
  model : option Prophet.t;
  feature_columns : list string;
  target_column : string;
  training_metrics : list (string * Np.fval);
  metadata : list (string * MetaValue)
}.

(** The mapping [save_model] hands to [joblib.dump]. *)
Record Bundle := mkBundle {
  b_model : Prophet.t;
  b_feature_columns : list string;
  b_target_column : string;
  b_training_metrics : list (string * Np.fval);
  b_metadata : list (string * MetaValue)
}.

(** A mapping unpickled from a file that was written elsewhere: any of
    the five keys may be missing. *)
Record Mapping := mkMapping {
  m_model : option Prophet.t;
  m_feature_columns : option (list string);
  m_target_column : option string;
  m_training_metrics : option (list (string * Np.fval));
  m_metadata : option (list (string * MetaValue))
}.

(** What a path holds: the bundle of a completed dump, the stump of a
    failed one, or a mapping pickled by another program. *)
Inductive File :=
| Whole (b : Bundle)
| Truncated
| Foreign (m : Mapping).

Inductive DumpResult :=
| Written
| Failed (e : Py.Exn) (left_behind : bool).

Inductive Level := INFO | WARNING.

Record World := mkWorld {
  self : ProphetForecastingModel;
  log : list (Level * string);
  disk : list (string * File);
  clock : Z;                         (* what [datetime.now()] reads *)
  rng : Z                            (* state of numpy's global random stream *)
}.

(** ** The collaborators *)

Module Lib.
Import Py Np Pandas.

Record t := mk {
  (** [pd.to_datetime] on a text. *)
  parse_datetime : string -> option Z;
  (** The checks of the [Prophet(...)] constructor. *)
  validate_inputs : Prophet.t -> option Exn;
  (** The name checks of [Prophet.add_regressor]. *)
  validate_regressor : Prophet.t -> string -> option Exn;
  (** [Prophet.fit]: the optimizer. *)
  engine_fit : Prophet.t -> DataFrame -> Outcome Prophet.Fit;
  (** [Prophet.make_future_dataframe(periods, freq, include_history)] *)
  make_future_dataframe : Prophet.t -> Z -> string -> bool -> Outcome DataFrame;
  (** [Prophet.predict]: the outcome and the state in which it leaves the
      random stream, from the state it found. *)
  engine_predict : Prophet.t -> Z -> DataFrame -> Outcome Prophet.Forecast * Z;
  (** scikit-learn and numpy. *)
  mean_absolute_percentage_error : list fval -> list fval -> Outcome fval;
  mean_squared_error : list fval -> list fval -> Outcome fval;
  sqrt : fval -> fval;
  corrcoef01 : list fval -> list fval -> Outcome fval;
  (** [format(x, '.4f')] *)
  format_4f : fval -> string;
  (** [prophet.diagnostics] *)
  cross_validation :
    Prophet.t -> DataFrame -> string -> string -> string -> option string ->
    Outcome DataFrame;
  performance_metrics : DataFrame -> Outcome DataFrame;
  (** [joblib.dump(bundle, filepath)] *)
  joblib_dump : Bundle -> string -> DumpResult
}.

End Lib.

Module Monad.
Import Py.

Definition M (A : Type) : Type := World -> Outcome A * World.

Definition ret {A} (a : A) : M A := fun w => (Return a, w).

Definition bind {A B} (m : M A) (k : A -> M B) : M B :=
  fun w =>
    match m w with
    | (Return a, w') => k a w'
    | (Raise e, w') => (Raise e, w')
    end.

Definition raise {A} (c : ExnClass) (msg : string) : M A :=
  fun w => (Raise (mkExn c msg), w).

(** [try: body except Exception as e: handler(e)] *)
Definition try_except {A} (body : M A) (handler : Exn -> M A) : M A :=
  fun w =>
    match body w with
    | (Return a, w') => (Return a, w')
    | (Raise e, w') => handler e w'
    end.

Definition lift {A} (o : Outcome A) : M A := fun w => (o, w).

Definition get_self : M ProphetForecastingModel := fun w => (Return (self w), w).

Definition modify_self (f : ProphetForecastingModel -> ProphetForecastingModel)
  : M unit :=
  fun w => (Return tt, mkWorld (f (self w)) (log w) (disk w) (clock w) (rng w)).

Definition logger (lvl : Level) (msg : string) : M unit :=
  fun w => (Return tt,
            mkWorld (self w) (log w ++ [(lvl, msg)]) (disk w) (clock w) (rng w)).

(** [datetime.now()] *)
Definition now : M Z := fun w => (Return (clock w), w).

Fixpoint for_each {A} (l : list A) (body : A -> M unit) : M unit :=
  match l with
  | [] => ret tt
  | x :: rest => bind (body x) (fun _ => for_each rest body)
  end.

Fixpoint fold_m {A S} (l : list A) (body : S -> A -> M S) (s : S) : M S :=
  match l with
  | [] => ret s
  | x :: rest => bind (body s x) (fold_m rest body)
  end.

(** [m] relates the world it finds to the world it leaves by [R],
    whether it returns or raises. *)
Definition preserves {A} (R : World -> World -> Prop) (m : M A) : Prop :=
  forall w o w', m w = (o, w') -> R w w'.

(** The second world holds the same training metrics as the first. *)
Definition same_metrics (w w' : World) : Prop :=
  training_metrics (self w') = training_metrics (self w).

End Monad.

Declare Scope py_scope.
Delimit Scope py_scope with py.
Notation "x <- m ;; k" := (Monad.bind m (fun x => k))
  (at level 61, m at next level, right associativity) : py_scope.
Notation "m ;; k" := (Monad.bind m (fun _ => k))
  (at level 61, right associativity) : py_scope.

(** [d[k] = v] and [d.update(other)] on a dictionary kept in insertion
    order. *)
Fixpoint dict_set {V} (k : string) (v : V) (d : list (string * V)) : list (string * V) :=
  match d with
  | [] => [(k, v)]
  | (k', v') :: rest =>
      if String.eqb k' k then (k', v) :: rest else (k', v') :: dict_set k v rest
  end.

Definition dict_update {V} (d other : list (string * V)) : list (string * V) :=
  fold_left (fun acc kv => dict_set (fst kv) (snd kv) acc) other d.

Fixpoint dict_get {V} (k : string) (d : list (string * V)) : option V :=
  match d with
  | [] => None
  | (k', v) :: rest => if String.eqb k' k then Some v else dict_get k rest
  end.

(** One row of the frame [predict] returns: the engine's columns and the
    four columns [predict] adds. *)
Record ForecastRow := mkForecastRow {
  engine_row : Prophet.Row;
  prediction_date : Z;
  model_name : string;
  confidence_width : Np.fval;
  relative_uncertainty : Np.fval
}.

Definition yhat (r : ForecastRow) : Np.fval := Prophet.yhat (engine_row r).
Definition yhat_lower (r : ForecastRow) : Np.fval := Prophet.yhat_lower (engine_row r).
Definition yhat_upper (r : ForecastRow) : Np.fval := Prophet.yhat_upper (engine_row r).

(** ** The methods of [ProphetForecastingModel] *)

Section Methods.
Import Py Np Pandas Monad.
Local Open Scope py_scope.
Local Open Scope string_scope.

Variable L : Lib.t.

Definition set_model (m : option Prophet.t) (s : ProphetForecastingModel) :=
  mkSelf (name s) (seasonality_mode s) (changepoint_prior_scale s)
         (seasonality_prior_scale s) (holidays_prior_scale s) (mcmc_samples s)
         (interval_width s) (uncertainty_samples s)
         m (feature_columns s) (target_column s) (training_metrics s) (metadata s).

Definition set_feature_columns (cols : list string) (s : ProphetForecastingModel) :=
  mkSelf (name s) (seasonality_mode s) (changepoint_prior_scale s)
         (seasonality_prior_scale s) (holidays_prior_scale s) (mcmc_samples s)
         (interval_width s) (uncertainty_samples s)
         (model s) cols (target_column s) (training_metrics s) (metadata s).

Definition set_target_column (col : string) (s : ProphetForecastingModel) :=
  mkSelf (name s) (seasonality_mode s) (changepoint_prior_scale s)
         (seasonality_prior_scale s) (holidays_prior_scale s) (mcmc_samples s)
         (interval_width s) (uncertainty_samples s)
         (model s) (feature_columns s) col (training_metrics s) (metadata s).

Definition set_training_metrics (tm : list (string * fval))
           (s : ProphetForecastingModel) :=
  mkSelf (name s) (seasonality_mode s) (changepoint_prior_scale s)
         (seasonality_prior_scale s) (holidays_prior_scale s) (mcmc_samples s)
         (interval_width s) (uncertainty_samples s)
         (model s) (feature_columns s) (target_column s) tm (metadata s).

Definition set_metadata (md : list (string * MetaValue))
           (s : ProphetForecastingModel) :=
  mkSelf (name s) (seasonality_mode s) (changepoint_prior_scale s)
         (seasonality_prior_scale s) (holidays_prior_scale s) (mcmc_samples s)
         (interval_width s) (uncertainty_samples s)
         (model s) (feature_columns s) (target_column s) (training_metrics s) md.

(** The Prophet object is one object: the parameter [model] of the
    helper methods and [self.model] are the same reference.  A call
    [model.method(...)] therefore updates the object [self.model] points
    to, also when a later statement raises. *)
Definition on_model (f : Prophet.t -> Outcome Prophet.t) : M unit :=
  fun w =>
    match model (self w) with
    | None =>
        (Raise (mkExn AttributeError "'NoneType' object has no attribute"), w)
    | Some p =>
        match f p with
        | Return p' =>
            (Return tt,
             mkWorld (set_model (Some p') (self w)) (log w) (disk w) (clock w) (rng w))
        | Raise e => (Raise e, w)
        end
    end.

(** [self.model.predict(frame)]: draws from the global random stream. *)
Definition model_predict (frame : DataFrame) : M Prophet.Forecast :=
  fun w =>
    match model (self w) with
    | None =>
        (Raise (mkExn AttributeError "'NoneType' object has no attribute 'predict'"), w)
    | Some p =>
        let (o, r) := Lib.engine_predict L p (rng w) frame in
        (o, mkWorld (self w) (log w) (disk w) (clock w) r)
    end.

(** Lines 70-76 of [prepare_data]: the copy of the input with the
    timestamp column called ds and the value column called y. *)
Definition prophet_format (df : DataFrame) (target_col date_col : string)
  : DataFrame :=
  let data := df in
  let data := if negb (String.eqb date_col "ds")
              then rename date_col "ds" data else data in
  let data := if negb (String.eqb target_col "y")
              then rename target_col "y" data else data in
  data.

Definition prepare_data (df : DataFrame) (target_col date_col : string)
  : M DataFrame :=
  try_except
    (let data := prophet_format df target_col date_col in
     i <- lift (locate "ds" data) ;;
     stamps <- lift (to_datetime (Lib.parse_datetime L) (column i data)) ;;
     let data := assign i datetime64 stamps data in
     let data := sort_values i data in
     j <- lift (locate "y" data) ;;
     let data := set_column j (bfill (ffill (column j data))) data in
     vals <- lift (numeric_values (column j data)) ;;
     let Q1 := quantile vals (1 # 4) in
     let Q3 := quantile vals (3 # 4) in
     let IQR := nsub Q3 Q1 in
     let lower_bound := nsub Q1 (nscale (3 # 2) IQR) in
     let upper_bound := nadd Q3 (nscale (3 # 2) IQR) in
     let data := set_column j (clip lower_bound upper_bound (column j data)) data in
     logger INFO ("Prepared data with " ++ str_of_nat (len data) ++ " records") ;;
     ret data)
    (fun e => raise ModelTrainingException ("Data preparation failed: " ++ str e)).

(** The dtype test of [add_regressors]. *)
Definition regressor_dtype (d : DType) : bool :=
  existsb (dtype_eqb d) [float64; int64; float32; int32].

Definition regressor_columns (data : DataFrame) : list string :=
  filter (fun col => negb (existsb (String.eqb col) ["ds"; "y"])) (labels data).

(** The columns [add_regressors] goes on to register: those of
    [regressor_columns] whose dtype passes the test. *)
Definition registered_columns (data : DataFrame) : list string :=
  filter (fun col => match dtype_of col data with
                     | Return d => regressor_dtype d
                     | Raise _ => false
                     end)
         (regressor_columns data).

(** One turn of the loop of [add_regressors]. *)
Definition consider_regressor (data : DataFrame) (col : string) : M unit :=
  d <- lift (dtype_of col data) ;;
  if regressor_dtype d then
    on_model (fun m =>
      match Lib.validate_regressor L m col with
      | Some e => Raise e
      | None => Return (Prophet.add_regressor col m)
      end) ;;
    modify_self (fun s => set_feature_columns (feature_columns s ++ [col]) s) ;;
    logger INFO ("Added regressor: " ++ col)
  else ret tt.

Definition add_regressors (data : DataFrame) : M unit :=
  for_each (regressor_columns data) (consider_regressor data).

Definition add_custom_seasonalities : M unit :=
  on_model (fun m =>
    Return (Prophet.add_seasonality
              (Prophet.mkSeasonality "quarterly" ((1461 # 4) / 4) 5) m)) ;;
  on_model (fun m =>
    Return (Prophet.add_seasonality
              (Prophet.mkSeasonality "monthly" (61 # 2) 3) m)) ;;
  logger INFO "Added custom seasonalities: quarterly, monthly".

(** [Prophet(seasonality_mode=..., ..., daily_seasonality=False,
    weekly_seasonality=True, yearly_seasonality=True)] *)
Definition new_prophet (s : ProphetForecastingModel) : Outcome Prophet.t :=
  let p := Prophet.mk (seasonality_mode s) (changepoint_prior_scale s)
                      (seasonality_prior_scale s) (holidays_prior_scale s)
                      (mcmc_samples s) (interval_width s) (uncertainty_samples s)
                      false true true [] [] None None in
  match Lib.validate_inputs L p with
  | Some e => Raise e
  | None => Return p
  end.

Definition to_float (c : Cell) : fval :=
  match c with
  | Num q => Fin q
  | _ => FNaN
  end.

(** [data[label]] as a float series. *)
Definition float_column (label : string) (data : DataFrame) : M (list fval) :=
  j <- lift (locate label data) ;;
  ret (map to_float (column j data)).

(** The [try] block of [_calculate_training_metrics]. *)
Definition training_metrics_block (data : DataFrame) : M unit :=
  forecast <- model_predict data ;;
  y <- float_column "y" data ;;
  let yhat := map Prophet.yhat (Prophet.frows forecast) in
  mape <- lift (Lib.mean_absolute_percentage_error L y yhat) ;;
  mse <- lift (Lib.mean_squared_error L y yhat) ;;
  let rmse := Lib.sqrt L mse in
  let mae := mean (map fabs (series_sub y yhat)) in
  r <- lift (Lib.corrcoef01 L y yhat) ;;
  modify_self (set_training_metrics
                 [("mape", mape); ("rmse", rmse); ("mae", mae); ("r2", fmul r r)]) ;;
  logger INFO ("Training metrics - MAPE: " ++ Lib.format_4f L mape
               ++ ", RMSE: " ++ Lib.format_4f L rmse).

Definition _calculate_training_metrics (data : DataFrame) : M unit :=
  try_except
    (training_metrics_block data)
    (fun e => logger WARNING ("Could not calculate training metrics: " ++ str e)).

(** Lines 165-195 of [fit]: from the first log line to
    [self.model.fit(prepared_data)]; hands on the prepared data. *)
Definition fit_core (data : DataFrame) (target_col date_col : string)
  : M DataFrame :=
  logger INFO "Starting Prophet model training..." ;;
  prepared_data <- prepare_data data target_col date_col ;;
  modify_self (set_target_column target_col) ;;
  s <- get_self ;;
  p <- lift (new_prophet s) ;;
  modify_self (set_model (Some p)) ;;
  add_custom_seasonalities ;;
  add_regressors prepared_data ;;
  on_model (fun m => Return (Prophet.add_country_holidays "US" m)) ;;
  on_model (fun m =>
    bind_outcome (Lib.engine_fit L m prepared_data) (fun f =>
    Return (Prophet.set_fitted f m))) ;;
  ret prepared_data.

Definition fit (data : DataFrame) (target_col date_col : string) : M unit :=
  try_except
    (prepared_data <- fit_core data target_col date_col ;;
     _calculate_training_metrics prepared_data ;;
     t <- now ;;
     modify_self (fun s =>
       set_metadata
         (dict_update (metadata s)
            [("training_samples", MInt (Z.of_nat (len prepared_data)));
             ("feature_columns", MFeatureColumns);
             ("target_column", MStr (target_column s));
             ("training_date", MIsoTime t);
             ("model_params",
              MDict [("seasonality_mode", SStr (seasonality_mode s));
                     ("changepoint_prior_scale", SNum (changepoint_prior_scale s));
                     ("seasonality_prior_scale", SNum (seasonality_prior_scale s));
                     ("holidays_prior_scale", SNum (holidays_prior_scale s))])])
         s) ;;
     logger INFO "Prophet model training completed successfully")
    (fun e =>
       raise ModelTrainingException ("Prophet model training failed: " ++ str e)).

(** One turn of the loop over [self.feature_columns] in [predict]. *)
Definition merge_regressor (future_regressors : DataFrame) (future : DataFrame)
           (col : string) : M DataFrame :=
  if has_column col future_regressors then
    kr <- lift (locate "ds" future_regressors) ;;
    vr <- lift (locate col future_regressors) ;;
    kl <- lift (locate "ds" future) ;;
    if negb (Bool.eqb (is_datetime (dtype_at kl future))
                      (is_datetime (dtype_at kr future_regressors)))
    then raise ValueError "You are trying to merge on datetime64[ns] and object columns"
    else if has_column col future
    then (* the merge names the two columns col_x and col_y *)
      raise KeyError ("'" ++ col ++ "'")
    else
      let merged := merge_left kl kr vr (col, dtype_at vr future_regressors)
                               future future_regressors in
      c <- lift (locate col merged) ;;
      ret (set_column c (ffill (column c merged)) merged)
  else ret future.

(** Lines 246-257 of [predict]: the regressor values merged onto the
    future grid, when a frame of them is given and there are feature
    columns. *)
Definition add_future_regressors (feature_columns : list string)
           (future_regressors : option DataFrame) (future : DataFrame)
  : M DataFrame :=
  match future_regressors with
  | Some fr =>
      if (0 <? length feature_columns)%nat
      then fold_m feature_columns (merge_regressor fr) future
      else ret future
  | None => ret future
  end.

Definition add_metrics (t : Z) (model_name : string) (e : Prophet.Row) : ForecastRow :=
  let confidence_width := fsub (Prophet.yhat_upper e) (Prophet.yhat_lower e) in
  mkForecastRow e t model_name confidence_width
                (fdiv confidence_width (fabs (Prophet.yhat e))).

Definition predict (periods : Z) (freq : string) (include_history : bool)
           (future_regressors : option DataFrame) : M (list ForecastRow) :=
  s <- get_self ;;
  match model s with
  | None => raise PredictionException "Model has not been trained yet"
  | Some p =>
      try_except
        (future <- lift (Lib.make_future_dataframe L p periods freq include_history) ;;
         future <- add_future_regressors (feature_columns s) future_regressors future ;;
         forecast <- model_predict future ;;
         t <- now ;;
         (if Prophet.has_intervals forecast then ret tt
          else raise KeyError "'yhat_upper'") ;;
         let rows := map (add_metrics t (name s)) (Prophet.frows forecast) in
         logger INFO ("Generated " ++ str_of_nat (length rows) ++ " predictions") ;;
         ret rows)
        (fun e => raise PredictionException ("Prediction failed: " ++ str e))
  end.

Definition cross_validate (data : DataFrame) (horizon initial period : string)
           (parallel : option string) : M (DataFrame * DataFrame) :=
  s <- get_self ;;
  match model s with
  | None => raise PredictionException "Model has not been trained yet"
  | Some p =>
      try_except
        (prepared_data <- prepare_data data (target_column s) "ds" ;;
         cv_results <-
           lift (Lib.cross_validation L p prepared_data horizon initial period parallel) ;;
         performance <- lift (Lib.performance_metrics L cv_results) ;;
         logger INFO ("Cross-validation completed with "
                      ++ str_of_nat (len cv_results) ++ " splits") ;;
         ret (cv_results, performance))
        (fun e => raise ModelTrainingException ("Cross-validation failed: " ++ str e))
  end.

(** [joblib.dump(model_data, filepath)] *)
Definition dump (model_data : Bundle) (filepath : string) : M unit :=
  fun w =>
    match Lib.joblib_dump L model_data filepath with
    | Written =>
        (Return tt,
         mkWorld (self w) (log w) (dict_set filepath (Whole model_data) (disk w))
                 (clock w) (rng w))
    | Failed e left_behind =>
        (Raise e,
         mkWorld (self w) (log w)
                 (if left_behind then dict_set filepath Truncated (disk w) else disk w)
                 (clock w) (rng w))
    end.

Definition save_model (filepath : string) : M unit :=
  s <- get_self ;;
  match model s with
  | None => raise ValueError "No model to save"
  | Some p =>
      try_except
        (let model_data :=
           mkBundle p (feature_columns s) (target_column s)
                    (training_metrics s) (metadata s) in
         dump model_data filepath ;;
         logger INFO ("Prophet model saved to " ++ filepath))
        (fun e => raise PyException ("Failed to save model: " ++ str e))
  end.

End Methods.

(** ** The vocabulary of the specification *)

Module Spec.
Import Py Np Pandas.

(** The error kinds of the specification.  The two exception classes
    the module raises under its own names carry the kinds of the same
    name; the built-in classes carry none. *)
Inductive ErrorKind :=
| DataValidationError
| ConfigurationError
| TrainingError
| PredictionError
| PersistenceError.

Definition error_kind (e : Exn) : option ErrorKind :=
  match exn_class e with
  | ModelTrainingException => Some TrainingError
  | PredictionException => Some PredictionError
  | _ => None
  end.


(** The periods, in days, of the seasonal components enabled on a
    Prophet object: the built-in daily, weekly and yearly ones and those
    added by name. *)
Definition enabled_periods (m : Prophet.t) : list Q :=
  (if Prophet.daily_seasonality m then [1] else [])
  ++ (if Prophet.weekly_seasonality m then [7] else [])
  ++ (if Prophet.yearly_seasonality m then [1461 # 4] else [])
  ++ map Prophet.period (Prophet.seasonalities m).

Definition shortest_period (m : Prophet.t) : option Q :=
  match enabled_periods m with
  | [] => None
  | x :: rest => Some (fold_left (fun a b => if Qle_bool a b then a else b) rest x)
  end.

(** A daily series of [n] points holds two full cycles of the shortest
    enabled component. *)
Definition two_full_cycles (m : Prophet.t) (n : nat) : bool :=
  match shortest_period m with
  | Some p => Qle_bool (2 * p) (inject_Z (Z.of_nat n))
  | None => true
  end.



(** A forecast row without its generation timestamp. *)
Definition without_date (r : ForecastRow)
  : Prophet.Row * string * fval * fval :=
  (engine_row r, model_name r, confidence_width r, relative_uncertainty r).

End Spec.

(** ** A small library to run the methods against

    [StandIn.lib] is an executable instance of [Lib.t].  It keeps the
    checks the real collaborators are known to make (Prophet refuses a
    frame with fewer than two usable rows, a reserved regressor name, an
    unknown seasonality mode, prediction before fitting) and replaces
    the optimizer by a constant-level model.  The theorems below hold
    for every library; this one is used to run the methods on examples. *)

Module StandIn.
Import Py Np Pandas.
Local Open Scope string_scope.
Local Open Scope Z_scope.

Definition digit (c : ascii) : option Z :=
  let n := Z.of_nat (nat_of_ascii c) in
  if (48 <=? n) && (n <=? 57) then Some (n - 48) else None.

Fixpoint number (cs : list ascii) (acc : Z) : option Z :=
  match cs with
  | [] => Some acc
  | c :: rest =>
      match digit c with
      | Some d => number rest (10 * acc + d)
      | None => None
      end
  end.

Definition is_leap (y : Z) : bool :=
  (y mod 4 =? 0) && (negb (y mod 100 =? 0) || (y mod 400 =? 0)).

Definition days_in_month (y m : Z) : Z :=
  if m =? 2 then (if is_leap y then 29 else 28)
  else if (m =? 4) || (m =? 6) || (m =? 9) || (m =? 11) then 30
  else 31.

(** Days since 1970-01-01 of a proleptic Gregorian date. *)
Definition days_from_civil (y m d : Z) : Z :=
  let y' := if m <=? 2 then y - 1 else y in
  let era := y' / 400 in
  let yoe := y' - era * 400 in
  let mp := if 2 <? m then m - 3 else m + 9 in
  let doy := (153 * mp + 2) / 5 + d - 1 in
  let doe := yoe * 365 + yoe / 4 - yoe / 100 + doy in
  era * 146097 + doe - 719468.

(** Dates written YYYY-MM-DD, as days since the epoch; any other text
    is unparseable here. *)
Definition parse_datetime (s : string) : option Z :=
  match list_ascii_of_string s with
  | [y1; y2; y3; y4; "-"%char; m1; m2; "-"%char; d1; d2] =>
      match number [y1; y2; y3; y4] 0, number [m1; m2] 0, number [d1; d2] 0 with
      | Some y, Some m, Some d =>
          if (1 <=? m) && (m <=? 12) && (1 <=? d) && (d <=? days_in_month y m)
          then Some (days_from_civil y m d)
          else None
      | _, _, _ => None
      end
  | _ => None
  end.

Definition validate_inputs (p : Prophet.t) : option Exn :=
  if existsb (String.eqb (Prophet.seasonality_mode p)) ["additive"; "multiplicative"]
  then None
  else Some (mkExn ValueError "seasonality_mode must be additive or multiplicative").

Definition reserved_names : list string :=
  ["trend"; "additive_terms"; "daily"; "weekly"; "yearly"; "holidays"; "zeros";
   "extra_regressors_additive"; "yhat"; "extra_regressors_multiplicative";
   "multiplicative_terms"; "yhat_lower"; "yhat_upper"; "trend_lower"; "trend_upper";
   "ds"; "y"; "cap"; "floor"; "y_scaled"; "cap_scaled"].

Definition validate_regressor (p : Prophet.t) (col : string) : option Exn :=
  if existsb (String.eqb col) reserved_names
  then Some (mkExn ValueError ("Name " ++ col ++ " is reserved."))
  else if existsb (String.eqb col) (map Prophet.s_name (Prophet.seasonalities p))
  then Some (mkExn ValueError ("Name " ++ col ++ " already used for a seasonality."))
  else None.

Definition is_num (c : Cell) : bool :=
  match c with Num _ => true | _ => false end.

Fixpoint qsum (l : list Q) : Q :=
  match l with
  | [] => 0%Q
  | x :: rest => (x + qsum rest)%Q
  end.

Definition qmean (l : list Q) : Q :=
  Qred (qsum l / inject_Z (Z.of_nat (length l))).

(** The stand-in optimizer: refuses a history with fewer than two rows
    that have both a timestamp and a value, or without a registered
    regressor; learns the mean level of the values. *)
Definition engine_fit (p : Prophet.t) (df : DataFrame) : Outcome Prophet.Fit :=
  bind_outcome (locate "ds" df) (fun i =>
  bind_outcome (locate "y" df) (fun j =>
  let usable := filter (fun r => is_num (cell_at i r) && is_num (cell_at j r)) (rows df) in
  if (length usable <? 2)%nat
  then Raise (mkExn ValueError "Dataframe has less than 2 non-NaN rows.")
  else
    match filter (fun c => negb (has_column c df)) (Prophet.extra_regressors p) with
    | c :: _ => Raise (mkExn ValueError ("Regressor " ++ c ++ " missing from dataframe"))
    | [] =>
        Return (Prophet.mkFit (mkFrame (columns df) usable)
                              [("level", [qmean (nums (map (cell_at j) usable))])])
    end)).

Definition qmax_list (l : list Q) : Q :=
  fold_right (fun x acc => if Qle_bool acc x then x else acc) 0%Q l.

Definition make_future_dataframe (p : Prophet.t) (periods : Z) (freq : string)
           (include_history : bool) : Outcome DataFrame :=
  match Prophet.fitted p with
  | None => Raise (mkExn PyException "Model has not been fit.")
  | Some f =>
      bind_outcome (locate "ds" (Prophet.history f)) (fun i =>
      let past := column i (Prophet.history f) in
      let last := qmax_list (nums past) in
      let grid (step : Z) :=
        map (fun k => Num (last + inject_Z (step * Z.of_nat k))%Q)
            (seq 1 (Z.to_nat periods)) in
      let frame (cells : list Cell) :=
        mkFrame [("ds", datetime64)] (map (fun c => [c]) cells) in
      if String.eqb freq "D"
      then Return (frame ((if include_history then past else []) ++ grid 1)%list)
      else if String.eqb freq "W"
      then Return (frame ((if include_history then past else []) ++ grid 7)%list)
      else Raise (mkExn ValueError ("Invalid frequency: " ++ freq)))
  end.

Definition level (f : Prophet.Fit) : Q :=
  match Prophet.params f with
  | (_, [l]) :: _ => l
  | _ => 0%Q
  end.

(** The stand-in forecast: the learned level, within a band whose
    half-width is drawn from the random stream. *)
Definition engine_predict (p : Prophet.t) (state : Z) (df : DataFrame)
  : Outcome Prophet.Forecast * Z :=
  match Prophet.fitted p with
  | None => (Raise (mkExn PyException "Model has not been fit."), state)
  | Some f =>
      match locate "ds" df with
      | Raise e => (Raise e, state)
      | Return i =>
          match filter (fun c => negb (has_column c df)) (Prophet.extra_regressors p) with
          | c :: _ =>
              (Raise (mkExn ValueError ("Regressor " ++ c ++ " missing from dataframe")),
               state)
          | [] =>
              let sampling := 0 <? Prophet.uncertainty_samples p in
              let half := inject_Z (1 + state mod 3) in
              let row (r : list Cell) :=
                Prophet.mkRow (cell_at i r) (Fin (level f))
                              (Fin (level f - half)%Q) (Fin (level f + half)%Q)
                              [("trend", Fin (level f))] in
              (Return (Prophet.mkForecast sampling (map row (rows df))),
               if sampling then (state * 1103515245 + 12345) mod 2147483648 else state)
          end
      end
  end.

Fixpoint all_fin (l : list fval) : option (list Q) :=
  match l with
  | [] => Some []
  | Fin q :: rest =>
      match all_fin rest with
      | Some qs => Some (q :: qs)
      | None => None
      end
  | _ => None
  end.

(** scikit-learn's input checks, then [f] on the two series. *)
Definition checked (f : list Q -> list Q -> fval) (y_true y_pred : list fval)
  : Outcome fval :=
  match all_fin y_true, all_fin y_pred with
  | Some a, Some b =>
      if negb (length a =? length b)%nat
      then Raise (mkExn ValueError
                    "Found input variables with inconsistent numbers of samples")
      else if (length a =? 0)%nat
      then Raise (mkExn ValueError "Found array with 0 sample(s)")
      else Return (f a b)
  | _, _ => Raise (mkExn ValueError "Input contains NaN.")
  end.

Definition eps : Q := (1 # 4503599627370496)%Q.

Definition mean_absolute_percentage_error : list fval -> list fval -> Outcome fval :=
  checked (fun a b =>
    Fin (qmean (map (fun p => let d := Qabs (fst p - snd p) in
                              let m := Qabs (fst p) in
                              d / (if Qle_bool m eps then eps else m))%Q
                    (combine a b)))).

Definition mean_squared_error : list fval -> list fval -> Outcome fval :=
  checked (fun a b =>
    Fin (qmean (map (fun p => (fst p - snd p) * (fst p - snd p))%Q (combine a b)))).

(** Square root to six decimals, rounded down. *)
Definition qsqrt (q : Q) : Q :=
  Qred (Z.sqrt (Qnum q * 1000000000000 / Z.pos (Qden q)) # 1000000).

Definition sqrt (a : fval) : fval :=
  match a with
  | Fin q => if Qle_bool 0 q then Fin (qsqrt q) else FNaN
  | PInf => PInf
  | _ => FNaN
  end.

(** Pearson correlation; not-a-number when a series is constant. *)
Definition corrcoef01 (a b : list fval) : Outcome fval :=
  match all_fin a, all_fin b with
  | Some x, Some y =>
      if negb (length x =? length y)%nat
      then Raise (mkExn ValueError "all the input array dimensions must match")
      else
        let mx := qmean x in
        let my := qmean y in
        let cov := qsum (map (fun p => (fst p - mx) * (snd p - my))%Q (combine x y)) in
        let vx := qsum (map (fun v => (v - mx) * (v - mx))%Q x) in
        let vy := qsum (map (fun v => (v - my) * (v - my))%Q y) in
        if Qeq_bool (vx * vy) 0 then Return FNaN
        else Return (Fin (Qred (cov / qsqrt (vx * vy))))
  | _, _ => Return FNaN
  end.

Definition str_of_Z (z : Z) : string :=
  NilEmpty.string_of_uint (N.to_uint (Z.to_N z)).

Definition pad4 (s : string) : string :=
  match String.length s with
  | 0%nat => "0000" ++ s
  | 1%nat => "000" ++ s
  | 2%nat => "00" ++ s
  | 3%nat => "0" ++ s
  | _ => s
  end.

(** Four decimals, halves rounded up. *)
Definition format_4f (a : fval) : string :=
  match a with
  | Fin q =>
      let n := (Qnum (Qabs q) * 20000 + Z.pos (Qden q)) / (2 * Z.pos (Qden q)) in
      (if Qle_bool 0 q then "" else "-")
      ++ str_of_Z (n / 10000) ++ "." ++ pad4 (str_of_Z (n mod 10000))
  | PInf => "inf"
  | NInf => "-inf"
  | FNaN => "nan"
  end.

(** A one-fold stand-in for the rolling-origin evaluation: the model
    must have been fitted; the last row of the data is held out and
    predicted by the learned level. *)
Definition cross_validation (p : Prophet.t) (df : DataFrame)
           (horizon initial period : string) (parallel : option string)
  : Outcome DataFrame :=
  match Prophet.fitted p with
  | None =>
      Raise (mkExn PyException
               "Model has not been fit. Fitting the model provides contextual parameters for cross validation.")
  | Some f =>
      bind_outcome (locate "ds" df) (fun i =>
      bind_outcome (locate "y" df) (fun j =>
      match rev (rows df) with
      | held :: prev :: _ =>
          Return (mkFrame [("ds", datetime64); ("yhat", float64);
                           ("y", float64); ("cutoff", datetime64)]
                          [[cell_at i held; Num (level f); cell_at j held;
                            cell_at i prev]])
      | _ =>
          Raise (mkExn ValueError
                   "Less data than horizon after initial window.")
      end))
  end.

Definition performance_metrics (cv : DataFrame) : Outcome DataFrame :=
  bind_outcome (locate "yhat" cv) (fun i =>
  bind_outcome (locate "y" cv) (fun j =>
  let errs := flat_map (fun r => match cell_at i r, cell_at j r with
                                 | Num a, Num b => [Qabs (b - a)]
                                 | _, _ => []
                                 end) (rows cv) in
  Return (mkFrame [("mae", float64)] [[Num (qmean errs)]]))).

(** Writing fails when no path is given. *)
Definition joblib_dump (b : Bundle) (filepath : string) : DumpResult :=
  if String.eqb filepath ""
  then Failed (mkExn OSError "[Errno 2] No such file or directory: ''") false
  else Written.

Definition lib : Lib.t :=
  Lib.mk parse_datetime validate_inputs validate_regressor engine_fit
         make_future_dataframe engine_predict
         mean_absolute_percentage_error mean_squared_error sqrt corrcoef01
         format_4f cross_validation performance_metrics joblib_dump.

(** The same library on a machine where the metric routines cannot
    allocate. *)
Definition out_of_memory (l : Lib.t) : Lib.t :=
  Lib.mk (Lib.parse_datetime l) (Lib.validate_inputs l) (Lib.validate_regressor l)
         (Lib.engine_fit l) (Lib.make_future_dataframe l) (Lib.engine_predict l)
         (fun _ _ => Raise (mkExn MemoryError "Unable to allocate array"))
         (Lib.mean_squared_error l) (Lib.sqrt l) (Lib.corrcoef01 l)
         (Lib.format_4f l) (Lib.cross_validation l) (Lib.performance_metrics l)
         (Lib.joblib_dump l).

End StandIn.

(** ** Example data *)

Module Examples.
Import Py Np Pandas.
Local Open Scope string_scope.

(** Modelled from the spec: [BaseModel.__init__] (src/models/base_model.py
    is not part of the sources) keeps the name and starts with an empty
    metadata mapping; the other attributes are the defaults of
    [ProphetForecastingModel.__init__]. *)
Definition new_model : ProphetForecastingModel :=
  mkSelf "prophet_forecasting" "multiplicative" (5 # 100) 10 10 0 (95 # 100) 1000
         None [] "" [] [].

Definition world0 : World := mkWorld new_model [] [] 0 42.

(** Four daily sales figures with a spike, a promo flag stored as
    int16 and a float64 price. *)
Definition sales : DataFrame :=
  mkFrame [("date", object_); ("sales", float64); ("promo", int16);
           ("price", float64); ("region", object_)]
          [[Text "2024-01-02"; Num 12; Num 0; Num (5 # 2); Text "north"];
           [Text "2024-01-01"; Num 10; Num 1; Num (5 # 2); Text "north"];
           [Text "2024-01-04"; Num 500; Num 0; Num 3; Text "south"];
           [Text "2024-01-03"; Num 11; Num 1; Num 3; Text "south"]].

(** A second batch whose first value is missing. *)
Definition sales_gap : DataFrame :=
  mkFrame [("date", object_); ("sales", float64); ("price", float64)]
          [[Text "2024-02-01"; NaN; Num 2];
           [Text "2024-02-02"; Num 7; Num 2];
           [Text "2024-02-03"; Num 9; Num 2]].

(** One timestamp cannot be read. *)
Definition bad_dates : DataFrame :=
  mkFrame [("date", object_); ("sales", float64)]
          [[Text "2024-01-01"; Num 10];
           [Text "yesterday"; Num 12]].

(** Every value is missing. *)
Definition all_missing : DataFrame :=
  mkFrame [("date", object_); ("sales", float64)]
          [[Text "2024-01-01"; NaN];
           [Text "2024-01-02"; NaN]].

(** A single observation. *)
Definition single : DataFrame :=
  mkFrame [("date", object_); ("sales", float64)]
          [[Text "2024-01-01"; Num 10]].

(** Three days of history in Prophet's own column naming. *)
Definition history : DataFrame :=
  mkFrame [("ds", object_); ("sales", float64)]
          [[Text "2024-03-01"; Num 20];
           [Text "2024-03-02"; Num 22];
           [Text "2024-03-03"; Num 24]].

(** Prices for the two days after [sales]. *)
Definition future_prices : DataFrame :=
  mkFrame [("ds", datetime64); ("price", float64)]
          [[Num 19727; Num 3];
           [Num 19728; Num (7 # 2)]].

(** The instance after a first fit on [sales]. *)
Definition fitted_world : World :=
  snd (fit StandIn.lib sales "sales" "date" world0).

(** The instance after a fit on [single], which the engine refuses. *)
Definition failed_world : World :=
  snd (fit StandIn.lib single "sales" "date" world0).

(** The fitted instance an hour later: only the clock has moved. *)
Definition later_world : World :=
  mkWorld (self fitted_world) (log fitted_world) (disk fitted_world)
          (clock fitted_world + 3600) (rng fitted_world).

(** What [prepare_data] makes of [sales]: sorted by date, the spike of
    500 capped at 318.875. *)
Definition prepared_sales : DataFrame :=
  mkFrame [("ds", datetime64); ("y", float64); ("promo", int16);
           ("price", float64); ("region", object_)]
          [[Num 19723; Num 10; Num 1; Num (5 # 2); Text "north"];
           [Num 19724; Num 12; Num 0; Num (5 # 2); Text "north"];
           [Num 19725; Num 11; Num 1; Num 3; Text "south"];
           [Num 19726; Num (40816 # 128); Num 0; Num 3; Text "south"]].

(** A Prophet object with nothing on it, for the branches that do not
    occur. *)
Definition blank : Prophet.t :=
  Prophet.mk "" 0 0 0 0 0 0 false false false [] [] None None.

Definition engine_of (w : World) : Prophet.t :=
  match model (self w) with
  | Some m => m
  | None => blank
  end.

(** The stages of [fit] on [sales], from the fresh instance. *)
Definition started_world : World :=
  snd (prepare_data StandIn.lib sales "sales" "date"
         (snd (Monad.logger INFO "Starting Prophet model training..." world0))).

Definition constructed_engine : Prophet.t :=
  match new_prophet StandIn.lib (set_target_column "sales" (self started_world)) with
  | Return p => p
  | Raise _ => blank
  end.

Definition constructed_world : World :=
  mkWorld (set_model (Some constructed_engine)
                     (set_target_column "sales" (self started_world)))
          (log started_world) (disk started_world)
          (clock started_world) (rng started_world).

Definition seasonal_world : World := snd (add_custom_seasonalities constructed_world).

Definition configured_world : World :=
  snd (add_regressors StandIn.lib prepared_sales seasonal_world).

Definition learned : Prophet.Fit :=
  match Lib.engine_fit StandIn.lib
          (Prophet.add_country_holidays "US" (engine_of configured_world))
          prepared_sales with
  | Return f => f
  | Raise _ => Prophet.mkFit prepared_sales []
  end.



End Examples.

(** ** Loading and inspection *)

Section Inspection.
Import Py Np Pandas Monad.
Local Open Scope py_scope.
Local Open Scope string_scope.

(** The mapping [save_model] hands to [joblib.dump], as unpickling
    gives it back: all five keys are there. *)
Definition mapping_of (b : Bundle) : Mapping :=
  mkMapping (Some (b_model b)) (Some (b_feature_columns b))
            (Some (b_target_column b)) (Some (b_training_metrics b))
            (Some (b_metadata b)).

(** [joblib.load(filepath)]: the mapping pickled at the path.  A
    missing file raises FileNotFoundError, an OSError; a file cut short
    raises an unpickling error, given here as a plain exception since
    [load_model] keeps only its message. *)
Definition joblib_load (filepath : string) : M Mapping :=
  fun w =>
    match dict_get filepath (disk w) with
    | Some (Whole b) => (Return (mapping_of b), w)
    | Some (Foreign m) => (Return m, w)
    | Some Truncated => (Raise (mkExn PyException "Ran out of input"), w)
    | None =>
        (Raise (mkExn OSError
                  ("[Errno 2] No such file or directory: '" ++ filepath ++ "'")), w)
    end.

(** [model_data[key]]: KeyError when the mapping lacks the key. *)
Definition item {A} (key : string) (value : option A) : M A :=
  match value with
  | Some a => ret a
  | None => raise KeyError ("'" ++ key ++ "'")
  end.

(** The five attributes are assigned one after the other inside the
    [try]: a key that is missing stops the load after the attributes
    before it have been replaced. *)
Definition load_model (filepath : string) : M unit :=
  try_except
    (model_data <- joblib_load filepath ;;
     m <- item "model" (m_model model_data) ;;
     modify_self (set_model (Some m)) ;;
     cols <- item "feature_columns" (m_feature_columns model_data) ;;
     modify_self (set_feature_columns cols) ;;
     col <- item "target_column" (m_target_column model_data) ;;
     modify_self (set_target_column col) ;;
     tm <- item "training_metrics" (m_training_metrics model_data) ;;
     modify_self (set_training_metrics tm) ;;
     md <- item "metadata" (m_metadata model_data) ;;
     modify_self (set_metadata md) ;;
     logger INFO ("Prophet model loaded from " ++ filepath))
    (fun e => raise PyException ("Failed to load model: " ++ str e)).

(** The dictionary [get_model_summary] returns for a trained model. *)
Record ModelSummary := mkSummary {
  sum_model_name : string;
  sum_model_type : string;
  sum_training_metrics : list (string * fval);
  sum_feature_columns : list string;
  sum_target_column : string;
  sum_model_params : list (string * Scalar);
  sum_metadata : list (string * MetaValue)
}.

Inductive Summary :=
| NotTrained                       (* [{"status": "not_trained"}] *)
| Trained (s : ModelSummary).

Definition get_model_summary : M Summary :=
  s <- get_self ;;
  match model s with
  | None => ret NotTrained
  | Some _ =>
      ret (Trained
             (mkSummary (name s) "Prophet Forecasting" (training_metrics s)
                        (feature_columns s) (target_column s)
                        [("seasonality_mode", SStr (seasonality_mode s));
                         ("changepoint_prior_scale", SNum (changepoint_prior_scale s));
                         ("seasonality_prior_scale", SNum (seasonality_prior_scale s));
                         ("holidays_prior_scale", SNum (holidays_prior_scale s))]
                        (metadata s)))
  end.

(** The number the engine keeps under the key coef in the dictionary of
    a regressor, if it keeps one. *)
Variable coef_of : Prophet.t -> string -> option fval.

(** [self.model.extra_regressors[regressor].get('coef', 0)] *)
Definition regressor_coef (m : Prophet.t) (regressor : string) : fval :=
  match coef_of m regressor with
  | Some c => c
  | None => Fin 0
  end.

Definition get_feature_importance : M (list (string * fval)) :=
  s <- get_self ;;
  match model s with
  | None => ret []
  | Some m =>
      try_except
        (ret (fold_left
                (fun importance regressor =>
                   dict_set regressor (fabs (regressor_coef m regressor)) importance)
                (Prophet.extra_regressors m) []))
        (fun e =>
           logger WARNING ("Could not calculate feature importance: " ++ str e) ;;
           ret [])
  end.

End Inspection.

(** ** Observations on frames and instances *)

Module Observe.
Import Py Np Pandas.

(** Two rows agree in every column but [i] and [j]. *)
Definition agree_outside (i j : nat) (r r' : list Cell) : Prop :=
  forall k, k <> i -> k <> j -> cell_at k r' = cell_at k r.

(** Sort keys in ascending order, missing ones last. *)
Definition keys_sorted (cs : list Cell) : Prop :=
  StronglySorted (fun a b => key_leb a b = true) cs.

(** A parsed timestamp: an instant or missing. *)
Definition timestamp (c : Cell) : Prop :=
  c = NaN \/ exists q, c = Num q.

(** What [__init__] fixes and no method changes. *)
Definition hyperparameters (s : ProphetForecastingModel) :=
  (name s, seasonality_mode s, changepoint_prior_scale s, seasonality_prior_scale s,
   holidays_prior_scale s, mcmc_samples s, interval_width s, uncertainty_samples s).

(** What [save_model] writes and [load_model] reads. *)
Definition saved_state (s : ProphetForecastingModel) :=
  (model s, feature_columns s, target_column s, training_metrics s, metadata s).

(** From [w] to [w'] at most the engine object, the feature columns and
    the log have changed. *)
Definition configures (w w' : World) : Prop :=
  hyperparameters (self w') = hyperparameters (self w) /\
  target_column (self w') = target_column (self w) /\
  training_metrics (self w') = training_metrics (self w) /\
  metadata (self w') = metadata (self w) /\
  disk w' = disk w /\ clock w' = clock w /\ rng w' = rng w.

(** The engine object on the instance has not been fitted. *)
Definition unfitted (w : World) : Prop :=
  exists m, model (self w) = Some m /\ Prophet.fitted m = None.

(** The engine configuration every [fit] builds, before the regressors. *)
Definition standard_components (m : Prophet.t) : Prop :=
  Prophet.seasonalities m =
  [Prophet.mkSeasonality "quarterly" ((1461 # 4) / 4) 5;
   Prophet.mkSeasonality "monthly" (61 # 2) 3] /\
  Prophet.daily_seasonality m = false /\
  Prophet.weekly_seasonality m = true /\
  Prophet.yearly_seasonality m = true /\
  Prophet.country_holidays m = Some "US"%string.

(** The engine carries the hyperparameters of the instance. *)
Definition carries_hyperparameters (m : Prophet.t) (s : ProphetForecastingModel) : Prop :=
  Prophet.seasonality_mode m = seasonality_mode s /\
  Prophet.changepoint_prior_scale m = changepoint_prior_scale s /\
  Prophet.seasonality_prior_scale m = seasonality_prior_scale s /\
  Prophet.holidays_prior_scale m = holidays_prior_scale s /\
  Prophet.mcmc_samples m = mcmc_samples s /\
  Prophet.interval_width m = interval_width s /\
  Prophet.uncertainty_samples m = uncertainty_samples s.

End Observe.

(** ** Further example data *)

Module Scenarios.
Import Py Np Pandas Examples.
Local Open Scope string_scope.

(** The instance after a second fit on [sales]. *)
Definition refitted_world : World :=
  snd (fit StandIn.lib sales "sales" "date" fitted_world).


(** The grid of the two days after [sales], bare and with the prices
    merged in. *)
Definition grid : DataFrame :=
  mkFrame [("ds", datetime64)] [[Num 19727]; [Num 19728]].

Definition priced_grid : DataFrame :=
  mkFrame [("ds", datetime64); ("price", float64)]
          [[Num 19727; Num 3]; [Num 19728; Num (7 # 2)]].

(** The fitted instance once saved. *)
Definition saved_world : World :=
  snd (save_model StandIn.lib "model.joblib" fitted_world).

(** An instance with other settings on the machine that holds the
    file, before and after loading it. *)
Definition other_model : ProphetForecastingModel :=
  mkSelf "weekly_sales" "additive" (1 # 10) 5 5 0 (8 # 10) 500 None [] "" [] [].

Definition other_world : World := mkWorld other_model [] (disk saved_world) 0 7.

Definition loaded_world : World := snd (load_model "model.joblib" other_world).

(** A fresh instance of the same name as the saved one, with the clock
    and the random stream as the saving instance left them. *)
Definition twin_world : World :=
  mkWorld new_model [] (disk saved_world) (clock fitted_world) (rng fitted_world).

Definition twin_loaded : World := snd (load_model "model.joblib" twin_world).

(** An engine that keeps a coefficient for price only. *)
Definition price_coef (m : Prophet.t) (regressor : string) : option fval :=
  if String.eqb regressor "price" then Some (Fin (-2)) else None.

(** A machine that holds a file another program pickled: a mapping
    with an engine and nothing else. *)
Definition foreign_world : World :=
  mkWorld new_model []
          [("old.joblib",
            Foreign (mkMapping (Some (engine_of fitted_world)) None None None None))]
          0 42.





(** A value column with gaps. *)
Definition gappy : list Cell := [NaN; Num 7; NaN; NaN; Num 9].

End Scenarios.

(** * Properties *)

Section Facts.
Import Py Np Pandas Monad.
Local Open Scope string_scope.

(** *** Sorted numbers and quantiles *)














Lemma quantile_none (q : Q) : quantile [] q = None.
Proof. reflexivity. Qed.

(** *** Frames *)

Lemma cell_at_set_cell (i j : nat) (x : Cell) (r : list Cell) :
  cell_at j (set_cell i x r) = if Nat.eqb i j then x else cell_at j r.
Proof.
  unfold cell_at. revert j r.
  induction i as [|i IH]; intros j r; destruct r as [|h t], j as [|j]; simpl;
    try reflexivity.
  - destruct j; reflexivity.
  - rewrite IH. destruct (Nat.eqb i j); [reflexivity | now destruct j].
  - apply IH.
Qed.

Lemma set_cells_length (i : nat) (vals : list Cell) (rs : list (list Cell)) :
  length (set_cells i vals rs) = length rs.
Proof.
  revert vals. induction rs as [|r rs IH]; intros [|v vals]; simpl; auto.
Qed.

Lemma column_set_cells_same (i : nat) (vals : list Cell) (rs : list (list Cell)) :
  length vals = length rs -> map (cell_at i) (set_cells i vals rs) = vals.
Proof.
  revert vals. induction rs as [|r rs IH]; intros [|v vals] H; simpl in *;
    try discriminate; [reflexivity|].
  rewrite cell_at_set_cell, Nat.eqb_refl. f_equal. apply IH. lia.
Qed.

Lemma column_set_cells_other (i j : nat) (vals : list Cell) (rs : list (list Cell)) :
  i <> j -> map (cell_at j) (set_cells i vals rs) = map (cell_at j) rs.
Proof.
  intros Hij. revert vals.
  induction rs as [|r rs IH]; intros [|v vals]; simpl; try reflexivity.
  rewrite cell_at_set_cell. apply Nat.eqb_neq in Hij. rewrite Hij.
  f_equal. apply IH.
Qed.

Lemma insert_row_perm (i : nat) (r : list Cell) (l : list (list Cell)) :
  Permutation (r :: l) (insert_row i r l).
Proof.
  induction l as [|r' l IH]; simpl; [reflexivity|].
  destruct (key_leb _ _); [|reflexivity].
  rewrite perm_swap. now constructor.
Qed.

Lemma sort_rows_perm (i : nat) (rs acc : list (list Cell)) :
  Permutation (rs ++ acc) (fold_left (fun a r => insert_row i r a) rs acc).
Proof.
  revert acc. induction rs as [|r rs IH]; intros acc; simpl; [reflexivity|].
  rewrite <- IH. rewrite <- insert_row_perm.
  apply Permutation_middle.
Qed.

Lemma sort_values_perm (i : nat) (df : DataFrame) :
  Permutation (rows df) (rows (sort_values i df)).
Proof.
  unfold sort_values; simpl. rewrite <- sort_rows_perm. now rewrite app_nil_r.
Qed.

Lemma ffill_from_length (c : Cell) (cs : list Cell) :
  length (ffill_from c cs) = length cs.
Proof.
  revert c. induction cs as [|x cs IH]; intros c; simpl; [reflexivity|].
  destruct x; simpl; now rewrite IH.
Qed.

Lemma bfill_ffill_length (cs : list Cell) : length (bfill (ffill cs)) = length cs.
Proof.
  unfold bfill, ffill.
  now rewrite length_rev, ffill_from_length, length_rev, ffill_from_length.
Qed.

Lemma numeric_values_nums (cs : list Cell) (vals : list Q) :
  numeric_values cs = Return vals -> vals = nums cs.
Proof.
  revert vals. induction cs as [|c cs IH]; intros vals H; simpl in *.
  - now injection H as <-.
  - destruct c; try discriminate.
    + destruct (numeric_values cs); simpl in H; [|discriminate].
      injection H as <-. simpl. f_equal. now apply IH.
    + now apply IH.
Qed.


Lemma positions_from_spec (label : string) (cols : list (string * DType)) :
  forall k i, In i (positions_from k label cols) ->
              (k <= i)%nat /\ nth_error (map fst cols) (i - k) = Some label.
Proof.
  induction cols as [|c cols IH]; intros k i H; simpl in *; [contradiction|].
  destruct (String.eqb_spec (fst c) label) as [E|NE].
  - destruct H as [<-|H].
    + rewrite Nat.sub_diag. simpl. split; [lia | now rewrite E].
    + destruct (IH _ _ H) as [Hk Hn]. split; [lia|].
      replace (i - k)%nat with (S (i - S k)) by lia. exact Hn.
  - destruct (IH _ _ H) as [Hk Hn]. split; [lia|].
    replace (i - k)%nat with (S (i - S k)) by lia. exact Hn.
Qed.

Lemma locate_label (label : string) (df : DataFrame) (i : nat) :
  locate label df = Return i -> nth_error (labels df) i = Some label.
Proof.
  unfold locate, labels. intros H.
  destruct (positions_from 0 label (columns df)) as [|k [|k' l]] eqn:E; try discriminate.
  injection H as ->.
  destruct (@positions_from_spec label (columns df) 0 i) as [_ Hn].
  { rewrite E. now left. }
  now rewrite Nat.sub_0_r in Hn.
Qed.

Lemma locate_same_labels (label : string) (df df' : DataFrame) :
  labels df = labels df' -> locate label df = locate label df'.
Proof.
  unfold locate, labels. intros H.
  assert (P : forall (c c' : list (string * DType)) k,
             map fst c = map fst c' ->
             positions_from k label c = positions_from k label c').
  { induction c as [|x c IH]; intros [|x' c'] k Hm; simpl in *; try discriminate;
      [reflexivity|].
    injection Hm as Hx Hm. rewrite Hx, (IH c' (S k) Hm). reflexivity. }
  now rewrite (P _ _ 0%nat H).
Qed.

Lemma set_nth_labels (i : nat) (l : string) (d' : DType) (cols : list (string * DType)) :
  nth_error (map fst cols) i = Some l ->
  map fst (set_nth i (l, d') cols) = map fst cols.
Proof.
  revert i. induction cols as [|c cols IH]; intros [|i] H; simpl in *;
    try reflexivity; try discriminate.
  - injection H as H. now rewrite H.
  - f_equal. now apply IH.
Qed.

Lemma set_dtype_labels (i : nat) (d : DType) (cols : list (string * DType)) :
  map fst (set_dtype i d cols) = map fst cols.
Proof.
  unfold set_dtype. destruct (nth_error cols i) as [c|] eqn:E; [|reflexivity].
  apply set_nth_labels.
  rewrite nth_error_map, E. reflexivity.
Qed.

(** *** Filling *)

Lemma ffill_from_present (last : Cell) (cs : list Cell) :
  last <> NaN -> ~ In NaN (ffill_from last cs).
Proof.
  revert last. induction cs as [|c cs IH]; intros last Hl; simpl; [tauto|].
  destruct c; simpl; intros [E|Hin]; try discriminate; try congruence;
    revert Hin; apply IH; congruence.
Qed.




(** *** [prepare_data], step by step *)

Lemma prophet_format_rows (df : DataFrame) (tc dc : string) :
  rows (prophet_format df tc dc) = rows df.
Proof.
  unfold prophet_format.
  destruct (negb (tc =? "y")), (negb (dc =? "ds")); reflexivity.
Qed.

Lemma prepare_data_steps (L : Lib.t) (df : DataFrame) (tc dc : string)
      (w w' : World) (out : DataFrame) :
  prepare_data L df tc dc w = (Return out, w') ->
  exists i stamps j vals,
    let d0 := prophet_format df tc dc in
    locate "ds" d0 = Return i /\
    to_datetime (Lib.parse_datetime L) (column i d0) = Return stamps /\
    let d1 := sort_values i (assign i datetime64 stamps d0) in
    locate "y" d1 = Return j /\
    let d2 := set_column j (bfill (ffill (column j d1))) d1 in
    numeric_values (column j d2) = Return vals /\
    let Q1 := quantile vals (1 # 4) in
    let Q3 := quantile vals (3 # 4) in
    let lower := nsub Q1 (nscale (3 # 2) (nsub Q3 Q1)) in
    let upper := nadd Q3 (nscale (3 # 2) (nsub Q3 Q1)) in
    out = set_column j (clip lower upper (column j d2)) d2 /\
    w' = mkWorld (self w)
                 (log w ++ [(INFO, "Prepared data with " ++ str_of_nat (len out)
                                   ++ " records")])
                 (disk w) (clock w) (rng w).
Proof.
  unfold prepare_data, try_except, bind, lift, ret, logger, raise.
  intros H.
  destruct (locate "ds" _) as [i|e] eqn:Ei; [|discriminate].
  destruct (to_datetime _ _) as [stamps|e] eqn:Es; [|discriminate].
  destruct (locate "y" _) as [j|e] eqn:Ej; [|discriminate].
  destruct (numeric_values _) as [vals|e] eqn:Ev; [|discriminate].
  injection H as <- <-.
  exists i, stamps, j, vals. repeat split; auto.
Qed.




(** *** Unparseable timestamps and all-missing values *)

Lemma to_datetime_unparseable (parse : string -> option Z) (cs : list Cell) (s : string) :
  In (Text s) cs -> parse s = None -> exists e, to_datetime parse cs = Raise e.
Proof.
  intros Hin Hp. induction cs as [|c cs IH]; [contradiction|].
  simpl. destruct Hin as [->|Hin].
  - simpl. rewrite Hp. simpl. eauto.
  - destruct (to_datetime_cell parse c) as [c'|e]; simpl; [|eauto].
    destruct (IH Hin) as [e ->]. simpl. eauto.
Qed.

Lemma ffill_all_missing (cs : list Cell) :
  Forall (eq NaN) cs -> ffill cs = cs.
Proof.
  unfold ffill. induction 1 as [|c cs <- _ IH]; simpl; [reflexivity | now rewrite IH].
Qed.

Lemma bfill_all_missing (cs : list Cell) :
  Forall (eq NaN) cs -> bfill cs = cs.
Proof.
  intros H. unfold bfill. rewrite ffill_all_missing.
  - apply rev_involutive.
  - now apply Forall_rev.
Qed.

Lemma numeric_values_all_missing (cs : list Cell) :
  Forall (eq NaN) cs -> numeric_values cs = Return [].
Proof. induction 1 as [|c cs <- _ IH]; simpl; auto. Qed.

Lemma clip_all_missing (lo hi : option Q) (cs : list Cell) :
  Forall (eq NaN) cs -> clip lo hi cs = cs.
Proof.
  unfold clip. induction 1 as [|c cs <- _ IH]; simpl; [reflexivity | now rewrite IH].
Qed.

Lemma sorted_column (i j : nat) (stamps : list Cell) (d0 : DataFrame) :
  i <> j ->
  Permutation (column j d0) (column j (sort_values i (assign i datetime64 stamps d0))).
Proof.
  intros Hij. unfold column.
  transitivity (map (cell_at j) (rows (assign i datetime64 stamps d0))).
  - simpl. now rewrite column_set_cells_other by exact Hij.
  - apply Permutation_map. apply (sort_values_perm i).
Qed.

Lemma sorted_labels (i : nat) (stamps : list Cell) (d0 : DataFrame) :
  labels (sort_values i (assign i datetime64 stamps d0)) = labels d0.
Proof. unfold labels; simpl. apply set_dtype_labels. Qed.

Lemma sorted_len (i : nat) (stamps : list Cell) (d0 : DataFrame) :
  length (rows (sort_values i (assign i datetime64 stamps d0))) = length (rows d0).
Proof.
  rewrite <- (Permutation_length (sort_values_perm i (assign i datetime64 stamps d0))).
  simpl. apply set_cells_length.
Qed.

Lemma set_column_len (j : nat) (vals : list Cell) (df : DataFrame) :
  len (set_column j vals df) = len df.
Proof. unfold len, set_column; simpl. apply set_cells_length. Qed.

Lemma locate_distinct (a b : string) (df : DataFrame) (i j : nat) :
  a <> b -> locate a df = Return i -> locate b df = Return j -> i <> j.
Proof.
  intros Hab Hi Hj ->. apply locate_label in Hi, Hj. congruence.
Qed.

(** C3, as the code has it.  A timestamp that cannot be parsed makes
    [prepare_data] raise ModelTrainingException and leave the world as it
    was: nothing is returned or logged.  A value column that is entirely
    missing is not rejected: the frame comes back with as many records,
    its values still missing. *)
Theorem prepare_data_rejects_bad_timestamps_only (L : Lib.t) (df : DataFrame)
        (tc dc : string) (w : World) :
  (forall i s,
      locate "ds" (prophet_format df tc dc) = Return i ->
      In (Text s) (column i df) ->
      Lib.parse_datetime L s = None ->
      exists msg,
        prepare_data L df tc dc w =
        (Raise (mkExn ModelTrainingException ("Data preparation failed: " ++ msg)), w)) /\
  (forall i j stamps,
      locate "ds" (prophet_format df tc dc) = Return i ->
      to_datetime (Lib.parse_datetime L) (column i df) = Return stamps ->
      locate "y" (prophet_format df tc dc) = Return j ->
      Forall (eq NaN) (column j df) ->
      exists out w',
        prepare_data L df tc dc w = (Return out, w') /\
        len out = len df /\
        locate "y" out = Return j /\
        Forall (eq NaN) (column j out)).
Proof.
  assert (C : forall k, column k (prophet_format df tc dc) = column k df).
  { intros k. unfold column. now rewrite prophet_format_rows. }
  split.
  - intros i s Ei Hin Hp.
    unfold prepare_data, try_except, bind, lift, ret, logger, raise.
    rewrite Ei, C.
    destruct (@to_datetime_unparseable (Lib.parse_datetime L) (column i df) s Hin Hp)
      as [e ->].
    eauto.
  - intros i j stamps Ei Es Ej Hall.
    set (d0 := prophet_format df tc dc) in *.
    set (d1 := sort_values i (assign i datetime64 stamps d0)).
    assert (Hij : i <> j) by (eapply locate_distinct; [|exact Ei|exact Ej]; discriminate).
    assert (Ej1 : locate "y" d1 = Return j).
    { rewrite <- Ej. apply locate_same_labels, sorted_labels. }
    assert (H1 : Forall (eq NaN) (column j d1)).
    { eapply Permutation_Forall; [apply (sorted_column stamps d0 Hij)|]. now rewrite C. }
    assert (Hf : bfill (ffill (column j d1)) = column j d1).
    { rewrite (ffill_all_missing H1). now apply bfill_all_missing. }
    assert (Hc : column j (set_column j (column j d1) d1) = column j d1).
    { unfold column at 1, set_column; simpl. apply column_set_cells_same.
      unfold column. now rewrite length_map. }
    unfold prepare_data, try_except, bind, lift, ret, logger, raise.
    fold d0. rewrite Ei. unfold d0 at 1. rewrite C, Es. fold d1. rewrite Ej1, Hf, Hc.
    rewrite (numeric_values_all_missing H1). rewrite (clip_all_missing _ _ H1).
    eexists; eexists. split; [reflexivity|].
    split; [|split].
    + rewrite !set_column_len. unfold len, d1. rewrite sorted_len.
      f_equal. apply prophet_format_rows.
    + rewrite <- Ej1. apply locate_same_labels. reflexivity.
    + unfold column at 1, set_column; simpl. rewrite column_set_cells_same.
      * exact H1.
      * rewrite set_cells_length. unfold column. now rewrite length_map.
Qed.

(** *** [predict] *)

(** A computation that only computes: its outcome does not depend on the
    world and it leaves the world alone. *)
Lemma merge_regressor_pure (fr fut : DataFrame) (col : string) :
  exists o, forall w, merge_regressor fr fut col w = (o, w).
Proof.
  unfold merge_regressor, bind, lift, ret, raise.
  destruct (has_column col fr); [|eauto].
  destruct (locate "ds" fr); [|eauto].
  destruct (locate col fr); [|eauto].
  destruct (locate "ds" fut); [|eauto].
  destruct (negb _); [eauto|].
  destruct (has_column col fut); [eauto|].
  destruct (locate col _); eauto.
Qed.

Lemma fold_merge_pure (fr : DataFrame) (cols : list string) (fut : DataFrame) :
  exists o, forall w, fold_m cols (merge_regressor fr) fut w = (o, w).
Proof.
  revert fut. induction cols as [|c cols IH]; intros fut; simpl.
  - unfold ret. eauto.
  - destruct (merge_regressor_pure fr fut c) as [o Ho].
    unfold bind. destruct o as [fut'|e].
    + destruct (IH fut') as [o' Ho']. exists o'. intros w. now rewrite Ho, Ho'.
    + exists (Raise e). intros w. now rewrite Ho.
Qed.

Lemma add_future_regressors_pure (cols : list string) (fr : option DataFrame)
      (fut : DataFrame) :
  exists o, forall w, add_future_regressors cols fr fut w = (o, w).
Proof.
  unfold add_future_regressors.
  destruct fr as [fr|]; [|unfold ret; eauto].
  destruct (0 <? length cols)%nat; [apply fold_merge_pure | unfold ret; eauto].
Qed.

(** What [predict] does, as a function of the instance, the random
    stream and the clock. *)
Lemma predict_unfold (L : Lib.t) (periods : Z) (freq : string) (ih : bool)
      (fr : option DataFrame) (w w0 : World) :
  predict L periods freq ih fr w =
  match model (self w) with
  | None => (Raise (mkExn PredictionException "Model has not been trained yet"), w)
  | Some p =>
      match Lib.make_future_dataframe L p periods freq ih with
      | Raise e => (Raise (mkExn PredictionException ("Prediction failed: " ++ str e)), w)
      | Return fut0 =>
          match fst (add_future_regressors (feature_columns (self w)) fr fut0 w0) with
          | Raise e =>
              (Raise (mkExn PredictionException ("Prediction failed: " ++ str e)), w)
          | Return fut =>
              let w1 := mkWorld (self w) (log w) (disk w) (clock w)
                                (snd (Lib.engine_predict L p (rng w) fut)) in
              match fst (Lib.engine_predict L p (rng w) fut) with
              | Raise e =>
                  (Raise (mkExn PredictionException ("Prediction failed: " ++ str e)), w1)
              | Return fc =>
                  if Prophet.has_intervals fc
                  then
                    let rows := map (add_metrics (clock w) (name (self w)))
                                    (Prophet.frows fc) in
                    (Return rows,
                     mkWorld (self w)
                             (log w ++ [(INFO, "Generated " ++ str_of_nat (length rows)
                                               ++ " predictions")])
                             (disk w) (clock w)
                             (snd (Lib.engine_predict L p (rng w) fut)))
                  else
                    (Raise (mkExn PredictionException "Prediction failed: 'yhat_upper'"), w1)
              end
          end
      end
  end.
Proof.
  unfold predict, bind at 1, get_self.
  destruct (model (self w)) as [p|] eqn:Em; [|reflexivity].
  unfold try_except, bind, lift.
  destruct (Lib.make_future_dataframe L p periods freq ih) as [fut0|e]; [|reflexivity].
  destruct (add_future_regressors_pure (feature_columns (self w)) fr fut0) as [o Ho].
  rewrite (Ho w), (Ho w0). simpl.
  destruct o as [fut|e]; [|reflexivity].
  unfold model_predict. rewrite Em.
  destruct (Lib.engine_predict L p (rng w) fut) as [[fc|e] r]; simpl; [|reflexivity].
  unfold now, ret, raise, logger; simpl.
  destruct (Prophet.has_intervals fc); reflexivity.
Qed.

(** C2, as the code has it.  Two calls to [predict] with the same
    arguments on the same instance, started from the same state of the
    random stream, fail alike or return rows that agree in every field
    but [prediction_date], which is the reading of the clock at each
    call; with the same reading the results are identical.  The instance
    itself is not modified. *)
Theorem predict_repeatable_up_to_date (L : Lib.t) (periods : Z) (freq : string)
        (ih : bool) (fr : option DataFrame) (w1 w2 : World) :
  self w1 = self w2 -> rng w1 = rng w2 ->
  match fst (predict L periods freq ih fr w1), fst (predict L periods freq ih fr w2) with
  | Return r1, Return r2 =>
      map Spec.without_date r1 = map Spec.without_date r2 /\
      Forall (fun r => prediction_date r = clock w1) r1 /\
      Forall (fun r => prediction_date r = clock w2) r2
  | Raise e1, Raise e2 => e1 = e2
  | _, _ => False
  end /\
  (clock w1 = clock w2 ->
   fst (predict L periods freq ih fr w1) = fst (predict L periods freq ih fr w2)) /\
  self (snd (predict L periods freq ih fr w1)) = self w1.
Proof.
  intros Hs Hr.
  rewrite (predict_unfold L periods freq ih fr w1 w1).
  rewrite (predict_unfold L periods freq ih fr w2 w1).
  rewrite <- Hs, <- Hr.
  destruct (model (self w1)) as [p|]; [|simpl; auto].
  destruct (Lib.make_future_dataframe L p periods freq ih) as [fut0|e]; [|simpl; auto].
  destruct (fst (add_future_regressors _ fr fut0 w1)) as [fut|e]; [|simpl; auto].
  cbv zeta.
  destruct (fst (Lib.engine_predict L p (rng w1) fut)) as [fc|e]; [|simpl; auto].
  destruct (Prophet.has_intervals fc); [|simpl; auto].
  simpl. repeat split.
  - rewrite !map_map. reflexivity.
  - apply Forall_forall. intros r Hr'. apply in_map_iff in Hr'.
    destruct Hr' as (e & <- & _). reflexivity.
  - apply Forall_forall. intros r Hr'. apply in_map_iff in Hr'.
    destruct Hr' as (e & <- & _). reflexivity.
  - intros ->. reflexivity.
Qed.







(** *** The monad *)

Lemma bind_return {A B} (m : M A) (k : A -> M B) (w w' : World) (a : A) :
  m w = (Return a, w') -> bind m k w = k a w'.
Proof. unfold bind. now intros ->. Qed.

Lemma bind_raise {A B} (m : M A) (k : A -> M B) (w w' : World) (e : Exn) :
  m w = (Raise e, w') -> bind m k w = (Raise e, w').
Proof. unfold bind. now intros ->. Qed.

Lemma bind_inv {A B} (m : M A) (k : A -> M B) (w w' : World) (b : B) :
  bind m k w = (Return b, w') ->
  exists a w1, m w = (Return a, w1) /\ k a w1 = (Return b, w').
Proof.
  unfold bind. destruct (m w) as [[a|e] w1]; [eauto | discriminate].
Qed.

Lemma preserves_bind {A B} (R : World -> World -> Prop) (m : M A) (k : A -> M B) :
  (forall x y z, R x y -> R y z -> R x z) ->
  preserves R m -> (forall a, preserves R (k a)) -> preserves R (bind m k).
Proof.
  intros T Hm Hk w o w'. unfold bind.
  destruct (m w) as [[a|e] w1] eqn:E.
  - intros H. eapply T; [eapply Hm, E | eapply Hk, H].
  - intros H. injection H as <- <-. eapply Hm, E.
Qed.

Lemma preserves_try_except {A} (R : World -> World -> Prop) (m : M A) (h : Exn -> M A) :
  (forall x y z, R x y -> R y z -> R x z) ->
  preserves R m -> (forall e, preserves R (h e)) -> preserves R (try_except m h).
Proof.
  intros T Hm Hh w o w'. unfold try_except.
  destruct (m w) as [[a|e] w1] eqn:E.
  - intros H. injection H as <- <-. eapply Hm, E.
  - intros H. eapply T; [eapply Hm, E | eapply Hh, H].
Qed.

Lemma preserves_pure {A} (R : World -> World -> Prop) (m : M A) :
  (forall x, R x x) -> (forall w, snd (m w) = w) -> preserves R m.
Proof.
  intros Rf H w o w' E. specialize (H w). rewrite E in H. simpl in H. now subst.
Qed.

Lemma preserves_for_each {A} (R : World -> World -> Prop) (l : list A)
      (body : A -> M unit) :
  (forall x, R x x) -> (forall x y z, R x y -> R y z -> R x z) ->
  (forall a, preserves R (body a)) -> preserves R (for_each l body).
Proof.
  intros Rf T Hb. induction l as [|a l IH]; simpl.
  - apply preserves_pure; auto.
  - apply preserves_bind; auto.
Qed.

(** *** [cross_validate] *)

(** C10, as the code has it.  On an instance whose [model] attribute is
    unset, [cross_validate] raises PredictionException with the message
    that the model has not been trained, leaving the world untouched
    (nothing prepared, computed or logged), whatever the data and the
    library.  Once the attribute is set, every failure comes out as
    ModelTrainingException. *)
Theorem cross_validate_guard (L : Lib.t) (data : DataFrame)
        (horizon initial period : string) (parallel : option string) (w : World) :
  (model (self w) = None ->
   cross_validate L data horizon initial period parallel w =
   (Raise (mkExn PredictionException "Model has not been trained yet"), w)) /\
  (forall m, model (self w) = Some m ->
     (exists r w', cross_validate L data horizon initial period parallel w
                   = (Return r, w')) \/
     (exists msg w', cross_validate L data horizon initial period parallel w
                     = (Raise (mkExn ModelTrainingException
                                     ("Cross-validation failed: " ++ msg)), w'))).
Proof.
  split.
  - intros E. unfold cross_validate. unfold bind at 1. unfold get_self.
    cbv beta iota. rewrite E. reflexivity.
  - intros m E.
    destruct (cross_validate L data horizon initial period parallel w)
      as [[r|e] w'] eqn:C.
    + left. exists r, w'. reflexivity.
    + right. revert C.
      unfold cross_validate. unfold bind at 1. unfold get_self.
      cbv beta iota. rewrite E. unfold try_except.
      match goal with |- context [?body w] => destruct (body w) as [[r|e0] w1] end.
      * discriminate.
      * unfold raise. intros C. injection C as <- <-.
        exists (str e0), w1. reflexivity.
Qed.

(** *** [save_model] *)

Lemma dict_get_set {V} (k : string) (v : V) (d : list (string * V)) :
  dict_get k (dict_set k v d) = Some v.
Proof.
  induction d as [|[k' v'] d IH]; simpl.
  - now rewrite String.eqb_refl.
  - destruct (String.eqb k' k) eqn:E; simpl; rewrite E; auto.
Qed.

Lemma dict_get_set_other {V} (k k0 : string) (v : V) (d : list (string * V)) :
  k0 <> k -> dict_get k0 (dict_set k v d) = dict_get k0 d.
Proof.
  intros N. induction d as [|[k' v'] d IH]; simpl.
  - destruct (String.eqb_spec k k0); [congruence | reflexivity].
  - destruct (String.eqb_spec k' k) as [->|E]; simpl.
    + destruct (String.eqb_spec k k0); [congruence | reflexivity].
    + destruct (String.eqb k' k0); auto.
Qed.

(** C8, as the code has it.  With the [model] attribute unset,
    [save_model] raises the built-in ValueError (outside the [try]) and
    touches nothing.  With it set, a failing dump comes out as the
    built-in Exception whose message starts "Failed to save model: ",
    and a succeeding dump leaves at the path one bundle holding the
    engine object, the feature columns, the target column, the training
    metrics and the metadata of the instance, every other path and the
    instance itself unchanged. *)
Theorem save_model_outcomes (L : Lib.t) (filepath : string) (w : World) :
  (model (self w) = None ->
   save_model L filepath w = (Raise (mkExn ValueError "No model to save"), w)) /\
  (forall p, model (self w) = Some p ->
     let bundle := mkBundle p (feature_columns (self w)) (target_column (self w))
                            (training_metrics (self w)) (metadata (self w)) in
     match Lib.joblib_dump L bundle filepath with
     | Failed e _ =>
         exists w',
           save_model L filepath w =
           (Raise (mkExn PyException ("Failed to save model: " ++ str e)), w') /\
           self w' = self w
     | Written =>
         exists w',
           save_model L filepath w = (Return tt, w') /\
           dict_get filepath (disk w') = Some (Whole bundle) /\
           (forall other, other <> filepath ->
                          dict_get other (disk w') = dict_get other (disk w)) /\
           self w' = self w
     end).
Proof.
  split.
  - intros E. unfold save_model. unfold bind at 1. unfold get_self. cbv beta iota.
    rewrite E. reflexivity.
  - intros p E. cbv zeta.
    unfold save_model, bind, get_self, try_except, dump, logger, raise.
    cbv beta iota. rewrite E.
    destruct (Lib.joblib_dump L _ filepath) as [|e lb].
    + eexists. split; [reflexivity|]. simpl.
      split; [apply dict_get_set|]. split; [|reflexivity].
      intros other N. now apply dict_get_set_other.
    + eexists. split; reflexivity.
Qed.

(** *** [_calculate_training_metrics] and [fit] *)

(** The world of an outcome, read off the equation that gives it. *)
Ltac world_of_outcome :=
  let H := fresh "H" in
  intros H; injection H as _ <-; simpl; auto.

Ltac through_metrics_block L :=
  unfold training_metrics_block, model_predict, float_column, bind, lift, ret,
    modify_self, logger;
  repeat match goal with
         | |- context [match model (self ?w) with _ => _ end] =>
             destruct (model (self w)) eqn:?
         | |- context [Lib.engine_predict L ?p ?r ?d] =>
             destruct (Lib.engine_predict L p r d) as [[? | ?] ?]
         | |- context [match locate ?l ?d with _ => _ end] =>
             destruct (locate l d)
         | |- context [Lib.mean_absolute_percentage_error L ?y ?z] =>
             destruct (Lib.mean_absolute_percentage_error L y z)
         | |- context [Lib.mean_squared_error L ?y ?z] =>
             destruct (Lib.mean_squared_error L y z)
         | |- context [Lib.corrcoef01 L ?y ?z] =>
             destruct (Lib.corrcoef01 L y z)
         end.

Lemma training_metrics_block_raise (L : Lib.t) (data : DataFrame) (w w' : World)
      (e : Exn) :
  training_metrics_block L data w = (Raise e, w') ->
  self w' = self w /\ log w' = log w.
Proof.
  through_metrics_block L; try discriminate; world_of_outcome.
Qed.

Lemma training_metrics_block_model (L : Lib.t) (data : DataFrame) (w w' : World)
      (o : Outcome unit) :
  training_metrics_block L data w = (o, w') ->
  model (self w') = model (self w) /\ clock w' = clock w.
Proof.
  through_metrics_block L; world_of_outcome.
Qed.

(** The metrics pass never raises; when its block raises, the instance
    is as before and a warning is logged. *)
Lemma calculate_training_metrics_returns (L : Lib.t) (data : DataFrame) (w : World) :
  exists w',
    _calculate_training_metrics L data w = (Return tt, w') /\
    model (self w') = model (self w) /\
    clock w' = clock w /\
    (forall e w2,
        training_metrics_block L data w = (Raise e, w2) ->
        self w' = self w /\
        log w' = (log w ++ [(WARNING, ("Could not calculate training metrics: " ++ str e)%string)])%list).
Proof.
  unfold _calculate_training_metrics, try_except.
  destruct (training_metrics_block L data w) as [[[]|e] w1] eqn:B.
  - exists w1. split; [reflexivity|].
    destruct (@training_metrics_block_model L data w w1 _ B) as [Hm Hc].
    split; [exact Hm|]. split; [exact Hc|].
    intros e w2 H. discriminate.
  - destruct (@training_metrics_block_model L data w w1 _ B) as [Hm Hc].
    destruct (@training_metrics_block_raise L data w w1 e B) as [Hs Hl].
    unfold logger. eexists. split; [reflexivity|]. simpl.
    split; [exact Hm|]. split; [exact Hc|].
    intros e' w2 H. injection H as <- <-.
    split; [exact Hs | now rewrite Hl].
Qed.

(** [fit] in terms of its first part and of the metrics pass. *)
Lemma fit_unfold (L : Lib.t) (data : DataFrame) (tc dc : string) (w : World) :
  fit L data tc dc w =
  match fit_core L data tc dc w with
  | (Raise e, w1) =>
      (Raise (mkExn ModelTrainingException
                    ("Prophet model training failed: " ++ str e)), w1)
  | (Return prepared, w1) =>
      let w2 := snd (_calculate_training_metrics L prepared w1) in
      let s := self w2 in
      (Return tt,
       mkWorld
         (set_metadata
            (dict_update (metadata s)
               [("training_samples", MInt (Z.of_nat (len prepared)));
                ("feature_columns", MFeatureColumns);
                ("target_column", MStr (target_column s));
                ("training_date", MIsoTime (clock w2));
                ("model_params",
                 MDict [("seasonality_mode", SStr (seasonality_mode s));
                        ("changepoint_prior_scale", SNum (changepoint_prior_scale s));
                        ("seasonality_prior_scale", SNum (seasonality_prior_scale s));
                        ("holidays_prior_scale", SNum (holidays_prior_scale s))])])
            s)
         (log w2 ++ [(INFO, "Prophet model training completed successfully")])
         (disk w2) (clock w2) (rng w2))
  end.
Proof.
  unfold fit, try_except. unfold bind at 1.
  destruct (fit_core L data tc dc w) as [[prepared|e] w1]; [|reflexivity].
  destruct (calculate_training_metrics_returns L prepared w1) as (w2 & E & _).
  unfold bind at 1. rewrite E. reflexivity.
Qed.

Lemma prepare_data_self (L : Lib.t) (df : DataFrame) (tc dc : string)
      (w w' : World) (o : Outcome DataFrame) :
  prepare_data L df tc dc w = (o, w') -> self w' = self w.
Proof.
  unfold prepare_data, try_except, bind, lift, ret, logger, raise.
  destruct (locate "ds" _) as [i|e]; [|intros H; now injection H as _ <-].
  destruct (to_datetime _ _) as [stamps|e]; [|intros H; now injection H as _ <-].
  destruct (locate "y" _) as [j|e]; [|intros H; now injection H as _ <-].
  destruct (numeric_values _) as [vals|e]; intros H; now injection H as _ <-.
Qed.

Lemma same_metrics_refl (w : World) : same_metrics w w.
Proof. reflexivity. Qed.

Lemma same_metrics_trans (x y z : World) :
  same_metrics x y -> same_metrics y z -> same_metrics x z.
Proof. unfold same_metrics. congruence. Qed.

Lemma on_model_inv (g : Prophet.t -> Outcome Prophet.t) (w w' : World) :
  on_model g w = (Return tt, w') ->
  exists p p',
    model (self w) = Some p /\ g p = Return p' /\
    w' = mkWorld (set_model (Some p') (self w)) (log w) (disk w) (clock w) (rng w).
Proof.
  unfold on_model. destruct (model (self w)) as [p|]; [|discriminate].
  destruct (g p) as [p'|e] eqn:E; [|discriminate].
  intros H. injection H as <-. eauto.
Qed.

Lemma on_model_keeps_metrics (g : Prophet.t -> Outcome Prophet.t) :
  preserves same_metrics (on_model g).
Proof.
  intros w o w'. unfold on_model, same_metrics.
  destruct (model (self w)) as [p|]; [|world_of_outcome].
  destruct (g p); world_of_outcome.
Qed.

Lemma logger_keeps_metrics (lvl : Level) (msg : string) :
  preserves same_metrics (logger lvl msg).
Proof. intros w o w'. unfold logger, same_metrics. world_of_outcome. Qed.

Lemma modify_self_keeps_metrics (f : ProphetForecastingModel -> ProphetForecastingModel) :
  (forall s, training_metrics (f s) = training_metrics s) ->
  preserves same_metrics (modify_self f).
Proof.
  intros Hf w o w'. unfold modify_self, same_metrics.
  intros H. injection H as _ <-. apply Hf.
Qed.

Lemma lift_keeps_metrics {A} (o : Outcome A) : preserves same_metrics (lift o).
Proof. apply preserves_pure; [exact same_metrics_refl | reflexivity]. Qed.

Lemma ret_keeps_metrics {A} (a : A) : preserves same_metrics (ret a).
Proof. apply preserves_pure; [exact same_metrics_refl | reflexivity]. Qed.

Lemma get_self_keeps_metrics : preserves same_metrics get_self.
Proof. apply preserves_pure; [exact same_metrics_refl | reflexivity]. Qed.

Lemma prepare_data_keeps_metrics (L : Lib.t) (df : DataFrame) (tc dc : string) :
  preserves same_metrics (prepare_data L df tc dc).
Proof.
  intros w o w' H. unfold same_metrics.
  now rewrite (@prepare_data_self L df tc dc w w' o H).
Qed.

Create HintDb keeps.
#[local] Hint Resolve same_metrics_refl same_metrics_trans on_model_keeps_metrics
  logger_keeps_metrics lift_keeps_metrics ret_keeps_metrics get_self_keeps_metrics
  prepare_data_keeps_metrics : keeps.
#[local] Hint Extern 1 (preserves same_metrics (modify_self _)) =>
  apply modify_self_keeps_metrics; reflexivity : keeps.

(** Through the binds of a method, one step at a time. *)
Ltac keeps :=
  repeat (apply preserves_bind; [exact same_metrics_trans | | intro]);
  auto with keeps.

Lemma add_custom_seasonalities_keeps_metrics :
  preserves same_metrics add_custom_seasonalities.
Proof. unfold add_custom_seasonalities. keeps. Qed.

Lemma consider_regressor_keeps_metrics (L : Lib.t) (data : DataFrame) (col : string) :
  preserves same_metrics (consider_regressor L data col).
Proof.
  unfold consider_regressor.
  apply preserves_bind; [exact same_metrics_trans | auto with keeps | intros d].
  destruct (regressor_dtype d); keeps.
Qed.

Lemma add_regressors_keeps_metrics (L : Lib.t) (data : DataFrame) :
  preserves same_metrics (add_regressors L data).
Proof.
  unfold add_regressors.
  apply preserves_for_each;
    [exact same_metrics_refl | exact same_metrics_trans
     | apply consider_regressor_keeps_metrics].
Qed.

#[local] Hint Resolve add_custom_seasonalities_keeps_metrics
  add_regressors_keeps_metrics : keeps.

Lemma fit_core_keeps_metrics (L : Lib.t) (data : DataFrame) (tc dc : string) :
  preserves same_metrics (fit_core L data tc dc).
Proof. unfold fit_core. keeps. Qed.

(** A returning [fit_core] leaves a fitted engine on the instance. *)
Lemma fit_core_fitted (L : Lib.t) (data : DataFrame) (tc dc : string)
      (w w' : World) (prepared : DataFrame) :
  fit_core L data tc dc w = (Return prepared, w') ->
  exists m f, model (self w') = Some m /\ Prophet.fitted m = Some f.
Proof.
  unfold fit_core. intros H.
  do 9 (apply bind_inv in H; destruct H as (? & ? & _ & H)).
  apply bind_inv in H. destruct H as ([] & w9 & Hfit & H).
  unfold ret in H. injection H as _ <-.
  apply on_model_inv in Hfit. destruct Hfit as (p & p' & _ & Hg & ->).
  destruct (Lib.engine_fit L p _) as [f|e]; simpl in Hg; [|discriminate].
  injection Hg as <-. exists (Prophet.set_fitted f p), f. split; reflexivity.
Qed.

(** C1, as the code has it.  [fit] compares the length of the series
    with nothing: it either returns or raises ModelTrainingException, and
    once the data is prepared, the engine object built and the
    regressors registered, its outcome is that of the engine's own fit,
    whatever the number of points: the fitted engine is kept when the
    engine returns, and the engine's failure is wrapped in
    ModelTrainingException when it raises. *)
Theorem fit_has_no_length_guard (L : Lib.t) (data : DataFrame) (tc dc : string)
        (w : World) :
  ((exists w', fit L data tc dc w = (Return tt, w')) \/
   (exists msg w',
       fit L data tc dc w =
       (Raise (mkExn ModelTrainingException
                     ("Prophet model training failed: " ++ msg)), w'))) /\
  (forall prepared w1 p w2 w3 m,
      prepare_data L data tc dc
        (snd (logger INFO "Starting Prophet model training..." w))
      = (Return prepared, w1) ->
      new_prophet L (set_target_column tc (self w1)) = Return p ->
      add_custom_seasonalities
        (mkWorld (set_model (Some p) (set_target_column tc (self w1)))
                 (log w1) (disk w1) (clock w1) (rng w1))
      = (Return tt, w2) ->
      add_regressors L prepared w2 = (Return tt, w3) ->
      model (self w3) = Some m ->
      match Lib.engine_fit L (Prophet.add_country_holidays "US" m) prepared with
      | Return f =>
          exists w',
            fit L data tc dc w = (Return tt, w') /\
            model (self w') =
            Some (Prophet.set_fitted f (Prophet.add_country_holidays "US" m))
      | Raise e =>
          exists w',
            fit L data tc dc w =
            (Raise (mkExn ModelTrainingException
                          ("Prophet model training failed: " ++ str e)), w')
      end).
Proof.
  split.
  - rewrite fit_unfold.
    destruct (fit_core L data tc dc w) as [[prepared|e] w1].
    + left. eexists. reflexivity.
    + right. exists (str e), w1. reflexivity.
  - intros prepared w1 p w2 w3 m Hprep Hnew Hacs Har Hm.
    assert (C : fit_core L data tc dc w =
                match Lib.engine_fit L (Prophet.add_country_holidays "US" m) prepared with
                | Return f =>
                    (Return prepared,
                     mkWorld (set_model
                                (Some (Prophet.set_fitted
                                         f (Prophet.add_country_holidays "US" m)))
                                (self w3))
                             (log w3) (disk w3) (clock w3) (rng w3))
                | Raise e =>
                    (Raise e,
                     mkWorld (set_model (Some (Prophet.add_country_holidays "US" m))
                                        (self w3))
                             (log w3) (disk w3) (clock w3) (rng w3))
                end).
    { unfold fit_core.
      erewrite bind_return by reflexivity.
      erewrite bind_return by exact Hprep.
      erewrite bind_return by reflexivity.
      erewrite bind_return by reflexivity.
      erewrite bind_return by (unfold lift; simpl; rewrite Hnew; reflexivity).
      erewrite bind_return by reflexivity.
      erewrite bind_return by exact Hacs.
      erewrite bind_return by exact Har.
      erewrite bind_return by (unfold on_model; rewrite Hm; reflexivity).
      unfold bind, on_model, ret. simpl.
      destruct (Lib.engine_fit L _ prepared); reflexivity. }
    rewrite fit_unfold, C.
    destruct (Lib.engine_fit L _ prepared) as [f|e].
    + eexists. split; [reflexivity|]. cbv zeta. simpl.
      destruct (calculate_training_metrics_returns
                  L prepared
                  (mkWorld (set_model
                              (Some (Prophet.set_fitted
                                       f (Prophet.add_country_holidays "US" m)))
                              (self w3))
                           (log w3) (disk w3) (clock w3) (rng w3)))
        as (w4 & E & Hmod & _).
      rewrite E. simpl. exact Hmod.
    + eexists. reflexivity.
Qed.

(** C6, as the code has it.  When the first part of [fit] has succeeded
    and the block computing the training metrics raises, [fit] still
    returns: the fitted engine stays on the instance, a warning with the
    failure is logged and nothing propagates.  The metrics are left as
    they were: empty on an instance that held none. *)
Theorem fit_survives_metrics_failure (L : Lib.t) (data : DataFrame) (tc dc : string)
        (w w1 w2 : World) (prepared : DataFrame) (e : Exn) :
  fit_core L data tc dc w = (Return prepared, w1) ->
  training_metrics_block L prepared w1 = (Raise e, w2) ->
  training_metrics (self w) = [] ->
  exists w',
    fit L data tc dc w = (Return tt, w') /\
    (exists m f, model (self w') = Some m /\ Prophet.fitted m = Some f) /\
    training_metrics (self w') = [] /\
    In (WARNING, "Could not calculate training metrics: " ++ str e) (log w').
Proof.
  intros Hcore Hblock Hempty.
  rewrite fit_unfold, Hcore. cbv zeta.
  destruct (calculate_training_metrics_returns L prepared w1) as (w3 & E & Hmod & _ & Hr).
  destruct (Hr e w2 Hblock) as [Hs Hl].
  rewrite E. simpl.
  eexists. split; [reflexivity|]. simpl.
  split; [|split].
  - rewrite Hmod. eapply fit_core_fitted, Hcore.
  - rewrite Hs.
    pose proof (@fit_core_keeps_metrics L data tc dc w _ w1 Hcore) as K.
    unfold same_metrics in K. now rewrite K.
  - rewrite Hl. apply in_or_app. left. apply in_or_app. right. now left.
Qed.

(** *** [add_regressors] *)

Lemma positions_from_absent (label : string) (cols : list (string * DType)) (k : nat) :
  ~ In label (map fst cols) -> positions_from k label cols = [].
Proof.
  revert k. induction cols as [|c cols IH]; intros k H; simpl in *; [reflexivity|].
  destruct (String.eqb_spec (fst c) label) as [E|N]; [tauto|].
  apply IH. tauto.
Qed.







End Facts.

Section Runs.
Import Py Np Pandas Monad Examples.
Local Open Scope string_scope.

(** *** The theorems at work on the examples *)


Lemma prepare_data_rejects_bad_timestamps_only_witness :
  (exists msg,
      prepare_data StandIn.lib bad_dates "sales" "date" world0 =
      (Raise (mkExn ModelTrainingException ("Data preparation failed: " ++ msg)),
       world0)) /\
  (exists out w',
      prepare_data StandIn.lib all_missing "sales" "date" world0 = (Return out, w') /\
      len out = len all_missing /\
      locate "y" out = Return 1%nat /\
      Forall (eq NaN) (column 1 out)).
Proof.
  split.
  - apply (proj1 (prepare_data_rejects_bad_timestamps_only
                    StandIn.lib bad_dates "sales" "date" world0)
                 0%nat "yesterday").
    + vm_compute. reflexivity.
    + vm_compute. right. left. reflexivity.
    + vm_compute. reflexivity.
  - apply (proj2 (prepare_data_rejects_bad_timestamps_only
                    StandIn.lib all_missing "sales" "date" world0)
                 0%nat 1%nat [Num 19723; Num 19724]).
    + vm_compute. reflexivity.
    + vm_compute. reflexivity.
    + vm_compute. reflexivity.
    + vm_compute. repeat constructor.
Defined.

Lemma predict_repeatable_up_to_date_witness :
  match fst (predict StandIn.lib 2 "D" false (Some future_prices) fitted_world),
        fst (predict StandIn.lib 2 "D" false (Some future_prices) later_world) with
  | Return r1, Return r2 =>
      map Spec.without_date r1 = map Spec.without_date r2 /\
      Forall (fun r => prediction_date r = clock fitted_world) r1 /\
      Forall (fun r => prediction_date r = clock later_world) r2
  | Raise e1, Raise e2 => e1 = e2
  | _, _ => False
  end /\
  (clock fitted_world = clock later_world ->
   fst (predict StandIn.lib 2 "D" false (Some future_prices) fitted_world) =
   fst (predict StandIn.lib 2 "D" false (Some future_prices) later_world)) /\
  self (snd (predict StandIn.lib 2 "D" false (Some future_prices) fitted_world)) =
  self fitted_world.
Proof.
  apply (@predict_repeatable_up_to_date
           StandIn.lib 2 "D" false (Some future_prices) fitted_world later_world);
    vm_compute; reflexivity.
Defined.




Lemma cross_validate_guard_witness :
  cross_validate StandIn.lib history "30 days" "365 days" "30 days" None world0 =
  (Raise (mkExn PredictionException "Model has not been trained yet"), world0) /\
  ((exists r w',
       cross_validate StandIn.lib history "30 days" "365 days" "30 days" None
                      fitted_world = (Return r, w')) \/
   (exists msg w',
       cross_validate StandIn.lib history "30 days" "365 days" "30 days" None
                      fitted_world
       = (Raise (mkExn ModelTrainingException ("Cross-validation failed: " ++ msg)), w'))).
Proof.
  split.
  - apply (proj1 (cross_validate_guard StandIn.lib history "30 days" "365 days"
                                       "30 days" None world0)).
    reflexivity.
  - apply (proj2 (cross_validate_guard StandIn.lib history "30 days" "365 days"
                                       "30 days" None fitted_world)
                 (engine_of fitted_world)).
    vm_compute. reflexivity.
Defined.

Lemma save_model_outcomes_witness :
  save_model StandIn.lib "model.joblib" world0 =
  (Raise (mkExn ValueError "No model to save"), world0) /\
  (exists w',
      save_model StandIn.lib "" fitted_world =
      (Raise (mkExn PyException
                    ("Failed to save model: "
                     ++ "[Errno 2] No such file or directory: ''")), w') /\
      self w' = self fitted_world) /\
  (exists w',
      save_model StandIn.lib "model.joblib" fitted_world = (Return tt, w') /\
      dict_get "model.joblib" (disk w') =
      Some (Whole (mkBundle (engine_of fitted_world)
                            (feature_columns (self fitted_world))
                            (target_column (self fitted_world))
                            (training_metrics (self fitted_world))
                            (metadata (self fitted_world)))) /\
      (forall other, other <> "model.joblib" ->
                     dict_get other (disk w') = dict_get other (disk fitted_world)) /\
      self w' = self fitted_world).
Proof.
  split; [|split].
  - apply (proj1 (save_model_outcomes StandIn.lib "model.joblib" world0)).
    reflexivity.
  - assert (Hm : model (self fitted_world) = Some (engine_of fitted_world))
      by (vm_compute; reflexivity).
    exact (proj2 (save_model_outcomes StandIn.lib "" fitted_world)
                 (engine_of fitted_world) Hm).
  - assert (Hm : model (self fitted_world) = Some (engine_of fitted_world))
      by (vm_compute; reflexivity).
    exact (proj2 (save_model_outcomes StandIn.lib "model.joblib" fitted_world)
                 (engine_of fitted_world) Hm).
Defined.

Lemma fit_has_no_length_guard_witness :
  ((exists w', fit StandIn.lib sales "sales" "date" world0 = (Return tt, w')) \/
   (exists msg w',
       fit StandIn.lib sales "sales" "date" world0 =
       (Raise (mkExn ModelTrainingException
                     ("Prophet model training failed: " ++ msg)), w'))) /\
  (exists w',
      fit StandIn.lib sales "sales" "date" world0 = (Return tt, w') /\
      model (self w') =
      Some (Prophet.set_fitted
              learned (Prophet.add_country_holidays "US" (engine_of configured_world)))).
Proof.
  split.
  - exact (proj1 (fit_has_no_length_guard StandIn.lib sales "sales" "date" world0)).
  - assert (H1 : prepare_data StandIn.lib sales "sales" "date"
                   (snd (logger INFO "Starting Prophet model training..." world0))
                 = (Return prepared_sales, started_world))
      by (vm_compute; reflexivity).
    assert (H2 : new_prophet StandIn.lib (set_target_column "sales" (self started_world))
                 = Return constructed_engine)
      by (vm_compute; reflexivity).
    assert (H3 : add_custom_seasonalities
                   (mkWorld (set_model (Some constructed_engine)
                                       (set_target_column "sales" (self started_world)))
                            (log started_world) (disk started_world)
                            (clock started_world) (rng started_world))
                 = (Return tt, seasonal_world))
      by (vm_compute; reflexivity).
    assert (H4 : add_regressors StandIn.lib prepared_sales seasonal_world
                 = (Return tt, configured_world))
      by (vm_compute; reflexivity).
    assert (H5 : model (self configured_world) = Some (engine_of configured_world))
      by (vm_compute; reflexivity).
    assert (H6 : Lib.engine_fit StandIn.lib
                   (Prophet.add_country_holidays "US" (engine_of configured_world))
                   prepared_sales = Return learned)
      by (vm_compute; reflexivity).
    pose proof (proj2 (fit_has_no_length_guard StandIn.lib sales "sales" "date" world0)
                      prepared_sales started_world constructed_engine seasonal_world
                      configured_world (engine_of configured_world)
                      H1 H2 H3 H4 H5) as H.
    rewrite H6 in H. exact H.
Defined.

Lemma fit_survives_metrics_failure_witness :
  exists w',
    fit (StandIn.out_of_memory StandIn.lib) sales "sales" "date" world0
    = (Return tt, w') /\
    (exists m f, model (self w') = Some m /\ Prophet.fitted m = Some f) /\
    training_metrics (self w') = [] /\
    In (WARNING,
        "Could not calculate training metrics: "
        ++ str (mkExn MemoryError "Unable to allocate array"))
       (log w').
Proof.
  apply (@fit_survives_metrics_failure
           (StandIn.out_of_memory StandIn.lib) sales "sales" "date" world0
           (snd (fit_core (StandIn.out_of_memory StandIn.lib) sales "sales" "date" world0))
           (snd (training_metrics_block
                   (StandIn.out_of_memory StandIn.lib) prepared_sales
                   (snd (fit_core (StandIn.out_of_memory StandIn.lib)
                                  sales "sales" "date" world0))))
           prepared_sales (mkExn MemoryError "Unable to allocate array")).
  - vm_compute. reflexivity.
  - vm_compute. reflexivity.
  - reflexivity.
Defined.


(** *** Where the specification and the code part ways *)

(** Against C1: three daily points are fewer than two weekly cycles,
    yet [fit] returns with a fitted engine. *)
Lemma fit_short_series_counterexample :
  len sales_gap = 3%nat /\
  fst (fit StandIn.lib sales_gap "sales" "date" world0) = Return tt /\
  Spec.shortest_period
    (engine_of (snd (fit StandIn.lib sales_gap "sales" "date" world0))) = Some 7 /\
  Spec.two_full_cycles
    (engine_of (snd (fit StandIn.lib sales_gap "sales" "date" world0)))
    (len sales_gap) = false /\
  Prophet.fitted
    (engine_of (snd (fit StandIn.lib sales_gap "sales" "date" world0))) <> None.
Proof.
  repeat match goal with
         | |- _ /\ _ => split
         end; vm_compute; try reflexivity; discriminate.
Qed.

(** Against C2: the same instance, arguments and random state, the
    clock an hour later: the two results differ. *)
Lemma predict_clock_counterexample :
  self fitted_world = self later_world /\
  rng fitted_world = rng later_world /\
  fst (predict StandIn.lib 2 "D" false (Some future_prices) fitted_world) <>
  fst (predict StandIn.lib 2 "D" false (Some future_prices) later_world).
Proof.
  repeat match goal with
         | |- _ /\ _ => split
         end; vm_compute; try reflexivity; discriminate.
Qed.

(** Against C3: a value column that is entirely missing comes back as
    a prepared frame, and the unparseable timestamp is reported in the
    training-error kind. *)
Lemma prepare_data_all_missing_counterexample :
  fst (prepare_data StandIn.lib all_missing "sales" "date" world0) =
  Return (mkFrame [("ds", datetime64); ("y", float64)]
                  [[Num 19723; NaN]; [Num 19724; NaN]]) /\
  exists e,
    fst (prepare_data StandIn.lib bad_dates "sales" "date" world0) = Raise e /\
    Spec.error_kind e = Some Spec.TrainingError /\
    Spec.error_kind e <> Some Spec.DataValidationError.
Proof.
  split; [vm_compute; reflexivity|].
  exists (mkExn ModelTrainingException
                "Data preparation failed: Unknown datetime string format, unable to parse: yesterday").
  repeat match goal with
         | |- _ /\ _ => split
         end; vm_compute; try reflexivity; discriminate.
Qed.

(** Against C6: a second fit on an instance that holds metrics, on a
    machine where the metric routines fail: the fit returns, and the
    metrics are those of the first fit, not empty. *)
Lemma fit_keeps_stale_metrics_counterexample :
  let L := StandIn.out_of_memory StandIn.lib in
  let prepared := mkFrame [("ds", datetime64); ("y", float64); ("price", float64)]
                          [[Num 19754; Num 7; Num 2]; [Num 19755; Num 7; Num 2];
                           [Num 19756; Num 9; Num 2]] in
  fst (fit_core L sales_gap "sales" "date" fitted_world) = Return prepared /\
  fst (training_metrics_block L prepared
         (snd (fit_core L sales_gap "sales" "date" fitted_world)))
  = Raise (mkExn MemoryError "Unable to allocate array") /\
  fst (fit L sales_gap "sales" "date" fitted_world) = Return tt /\
  training_metrics (self (snd (fit L sales_gap "sales" "date" fitted_world))) <> [] /\
  training_metrics (self (snd (fit L sales_gap "sales" "date" fitted_world))) =
  training_metrics (self fitted_world).
Proof.
  cbv zeta.
  repeat match goal with
         | |- _ /\ _ => split
         end; vm_compute; try reflexivity; discriminate.
Qed.

(** Against C8: after a fit that failed in the engine no fit has
    succeeded, yet [save_model] writes a bundle; and on a fresh instance
    the failure is the built-in ValueError, which is no persistence
    kind. *)
Lemma save_model_after_failed_fit_counterexample :
  fst (fit StandIn.lib single "sales" "date" world0) =
  Raise (mkExn ModelTrainingException
               "Prophet model training failed: Dataframe has less than 2 non-NaN rows.") /\
  Prophet.fitted (engine_of failed_world) = None /\
  fst (save_model StandIn.lib "model.joblib" failed_world) = Return tt /\
  fst (save_model StandIn.lib "model.joblib" world0) =
  Raise (mkExn ValueError "No model to save") /\
  Spec.error_kind (mkExn ValueError "No model to save") <> Some Spec.PersistenceError.
Proof.
  repeat match goal with
         | |- _ /\ _ => split
         end; vm_compute; try reflexivity; discriminate.
Qed.




(** Against C10: after a fit that failed in the engine the instance has
    never been fitted, yet [cross_validate] passes its guard and fails
    as a training error. *)
Lemma cross_validate_after_failed_fit_counterexample :
  fst (fit StandIn.lib single "sales" "date" world0) =
  Raise (mkExn ModelTrainingException
               "Prophet model training failed: Dataframe has less than 2 non-NaN rows.") /\
  Prophet.fitted (engine_of failed_world) = None /\
  fst (cross_validate StandIn.lib history "30 days" "365 days" "30 days" None
                      failed_world) =
  Raise (mkExn ModelTrainingException
               "Cross-validation failed: Model has not been fit. Fitting the model provides contextual parameters for cross validation.") /\
  fst (cross_validate StandIn.lib history "30 days" "365 days" "30 days" None
                      failed_world) <>
  Raise (mkExn PredictionException "Model has not been trained yet").
Proof.
  repeat match goal with
         | |- _ /\ _ => split
         end; vm_compute; try reflexivity; discriminate.
Qed.

End Runs.

(** * Further properties

    Properties of the methods beyond the statements of the
    specification: what preparation, fitting, forecasting, persistence
    and inspection do at their edges and how they compose. *)

Section Preparation.
Import Py Np Pandas Monad Observe.
Local Open Scope string_scope.

(** *** The order of the prepared rows *)

Lemma key_leb_total (a b : Cell) : key_leb a b = false -> key_leb b a = true.
Proof.
  destruct a as [x| |s], b as [y| |t]; simpl; try congruence.
  intros H. apply Qle_bool_iff. apply Qlt_le_weak, Qnot_le_lt.
  intro H'. apply Qle_bool_iff in H'. congruence.
Qed.

Lemma key_leb_trans (a b c : Cell) :
  key_leb a b = true -> key_leb b c = true -> key_leb a c = true.
Proof.
  destruct a as [x| |s], b as [y| |t], c as [z| |u]; simpl; try congruence.
  rewrite !Qle_bool_iff. apply Qle_trans.
Qed.

Lemma insert_row_sorted (i : nat) (r : list Cell) (l : list (list Cell)) :
  StronglySorted (fun a b => key_leb (cell_at i a) (cell_at i b) = true) l ->
  StronglySorted (fun a b => key_leb (cell_at i a) (cell_at i b) = true)
                 (insert_row i r l).
Proof.
  induction 1 as [|r' l Hs IH Hall]; simpl.
  - repeat constructor.
  - destruct (key_leb (cell_at i r') (cell_at i r)) eqn:E.
    + constructor; [exact IH|].
      eapply Permutation_Forall; [apply insert_row_perm|].
      now constructor.
    + apply key_leb_total in E.
      constructor; [now constructor|].
      constructor; [exact E|].
      eapply Forall_impl; [|exact Hall].
      intros z Hz. eapply key_leb_trans; eassumption.
Qed.

Lemma sort_rows_sorted (i : nat) (rs acc : list (list Cell)) :
  StronglySorted (fun a b => key_leb (cell_at i a) (cell_at i b) = true) acc ->
  StronglySorted (fun a b => key_leb (cell_at i a) (cell_at i b) = true)
                 (fold_left (fun a r => insert_row i r a) rs acc).
Proof.
  revert acc. induction rs as [|r rs IH]; intros acc H; simpl; [exact H|].
  apply IH. now apply insert_row_sorted.
Qed.

Lemma sorted_map {A B} (R : B -> B -> Prop) (f : A -> B) (l : list A) :
  StronglySorted (fun a b => R (f a) (f b)) l -> StronglySorted R (map f l).
Proof.
  induction 1 as [|a l Hs IH Hall]; simpl; constructor; [exact IH|].
  rewrite Forall_map. exact Hall.
Qed.

Lemma sort_values_sorted (i : nat) (df : DataFrame) :
  keys_sorted (column i (sort_values i df)).
Proof.
  unfold keys_sorted, column, sort_values. cbn [rows].
  apply sorted_map. apply sort_rows_sorted. constructor.
Qed.

Lemma to_datetime_stamps (parse : string -> option Z) (cs stamps : list Cell) :
  to_datetime parse cs = Return stamps ->
  length stamps = length cs /\ Forall timestamp stamps.
Proof.
  revert stamps. induction cs as [|c cs IH]; intros stamps H; simpl in H.
  - injection H as <-. split; [reflexivity | constructor].
  - destruct (to_datetime_cell parse c) as [c'|e] eqn:Ec; simpl in H; [|discriminate].
    destruct (to_datetime parse cs) as [rest|e]; simpl in H; [|discriminate].
    injection H as <-. destruct (IH rest eq_refl) as [Hl Hf].
    split; [simpl; now rewrite Hl|].
    constructor; [|exact Hf].
    unfold to_datetime_cell in Ec.
    destruct c as [q| |s].
    + injection Ec as <-. right. eauto.
    + injection Ec as <-. now left.
    + destruct (parse s); [|discriminate]. injection Ec as <-. right. eauto.
Qed.

Lemma nth_error_set_nth {A} (i : nat) (x c : A) (l : list A) :
  nth_error l i = Some c -> nth_error (set_nth i x l) i = Some x.
Proof.
  revert i. induction l as [|h t IH]; intros [|i] H; simpl in *; try discriminate.
  - reflexivity.
  - now apply IH.
Qed.

Lemma dtype_at_assign (i : nat) (d : DType) (vals : list Cell) (df : DataFrame)
      (label : string) :
  nth_error (labels df) i = Some label -> dtype_at i (assign i d vals df) = d.
Proof.
  unfold labels, dtype_at, assign, set_dtype. cbn [columns]. intros H.
  rewrite nth_error_map in H.
  destruct (nth_error (columns df) i) as [c|] eqn:E; [|discriminate].
  now rewrite (@nth_error_set_nth _ i (fst c, d) c _ E).
Qed.

(** What [prepare_data] returns, seen from the sorted frame. *)
Lemma prepare_data_shape (L : Lib.t) (df : DataFrame) (tc dc : string)
      (w w' : World) (out : DataFrame) :
  prepare_data L df tc dc w = (Return out, w') ->
  exists i stamps j,
    let d0 := prophet_format df tc dc in
    let d1 := sort_values i (assign i datetime64 stamps d0) in
    let filled := bfill (ffill (column j d1)) in
    let Q1 := quantile (nums filled) (1 # 4) in
    let Q3 := quantile (nums filled) (3 # 4) in
    let lower := nsub Q1 (nscale (3 # 2) (nsub Q3 Q1)) in
    let upper := nadd Q3 (nscale (3 # 2) (nsub Q3 Q1)) in
    locate "ds" d0 = Return i /\
    to_datetime (Lib.parse_datetime L) (column i df) = Return stamps /\
    locate "y" d1 = Return j /\
    i <> j /\
    columns out = columns d1 /\
    rows out = set_cells j (clip lower upper filled) (set_cells j filled (rows d1)) /\
    column j out = clip lower upper filled /\
    column i out = column i d1.
Proof.
  intros H.
  destruct (@prepare_data_steps L df tc dc w w' out H)
    as (i & stamps & j & vals & Ei & Es & Ej & Ev & Eout & _).
  cbv zeta in *.
  exists i, stamps, j. cbv zeta.
  set (d0 := prophet_format df tc dc) in *.
  set (d1 := sort_values i (assign i datetime64 stamps d0)) in *.
  set (filled := bfill (ffill (column j d1))) in *.
  assert (Hfl : length filled = length (rows d1)).
  { unfold filled. rewrite bfill_ffill_length. unfold column. apply length_map. }
  assert (Hcol2 : column j (set_column j filled d1) = filled).
  { unfold column, set_column; simpl. now apply column_set_cells_same. }
  rewrite Hcol2 in *.
  apply numeric_values_nums in Ev. subst vals.
  assert (Hij : i <> j).
  { apply (@locate_distinct "ds" "y" d0 i j); [discriminate | exact Ei |].
    rewrite <- Ej. symmetry. apply locate_same_labels. apply sorted_labels. }
  split; [exact Ei|].
  split; [unfold column in *; unfold d0 in Es; now rewrite prophet_format_rows in Es|].
  split; [exact Ej|]. split; [exact Hij|].
  rewrite Eout.
  split; [reflexivity|]. split; [reflexivity|].
  split.
  - unfold column at 1, set_column; simpl.
    apply column_set_cells_same.
    unfold clip. now rewrite length_map, set_cells_length.
  - unfold column, set_column; simpl.
    rewrite !column_set_cells_other by (intro; apply Hij; congruence).
    reflexivity.
Qed.

(** X1.  The frame [prepare_data] returns has its ds column of dtype
    datetime64, every cell of it an instant or missing, in ascending
    order with the missing timestamps last. *)
Theorem prepare_data_sorts_by_timestamp (L : Lib.t) (df : DataFrame) (tc dc : string)
        (w w' : World) (out : DataFrame) :
  prepare_data L df tc dc w = (Return out, w') ->
  exists i,
    locate "ds" out = Return i /\
    dtype_at i out = datetime64 /\
    Forall timestamp (column i out) /\
    keys_sorted (column i out).
Proof.
  intros H.
  destruct (@prepare_data_shape L df tc dc w w' out H)
    as (i & stamps & j & Ei & Es & Ej & Hij & Hcols & _ & _ & Hci).
  cbv zeta in *.
  set (d0 := prophet_format df tc dc) in *.
  exists i.
  assert (Hlab : labels out = labels d0).
  { unfold labels at 1. rewrite Hcols. apply sorted_labels. }
  split; [|split; [|split]].
  - rewrite <- Ei. now apply locate_same_labels.
  - unfold dtype_at. rewrite Hcols.
    apply locate_label in Ei.
    exact (@dtype_at_assign i datetime64 stamps d0 _ Ei).
  - rewrite Hci.
    destruct (@to_datetime_stamps _ _ _ Es) as [Hl Hf].
    eapply Permutation_Forall; [|exact Hf].
    unfold column.
    transitivity (map (cell_at i) (rows (assign i datetime64 stamps d0))).
    + simpl. rewrite column_set_cells_same; [reflexivity|].
      rewrite Hl. unfold column, d0. now rewrite !length_map, prophet_format_rows.
    + apply Permutation_map. apply (sort_values_perm i).
  - rewrite Hci. apply sort_values_sorted.
Qed.

(** *** Rows stay whole *)

Lemma set_cells_agree (i : nat) (vals : list Cell) (rs : list (list Cell)) :
  Forall2 (fun r r' => forall k, k <> i -> cell_at k r' = cell_at k r)
          rs (set_cells i vals rs).
Proof.
  assert (Same : forall l : list (list Cell),
             Forall2 (fun r r' => forall k, k <> i -> cell_at k r' = cell_at k r) l l).
  { induction l; constructor; auto. }
  revert vals. induction rs as [|r rs IH]; intros [|v vals]; simpl; try apply Same.
  constructor; [|apply IH].
  intros k Hk. rewrite cell_at_set_cell.
  destruct (Nat.eqb_spec i k); [congruence | reflexivity].
Qed.

Lemma Forall2_compose {A B C} (P : A -> B -> Prop) (Q : B -> C -> Prop)
      (R : A -> C -> Prop) (la : list A) (lb : list B) (lc : list C) :
  (forall a b c, P a b -> Q b c -> R a c) ->
  Forall2 P la lb -> Forall2 Q lb lc -> Forall2 R la lc.
Proof.
  intros HR H. revert lc. induction H as [|a b la lb Hab _ IH]; intros lc Hq.
  - inversion Hq. constructor.
  - inversion Hq as [|b' c lb' lc' Hbc Hq']; subst.
    constructor; [eapply HR; eassumption | now apply IH].
Qed.

(** X2.  [prepare_data] reorders the records and rewrites only their
    timestamp and value cells: the rows it returns are, up to order, the
    input rows with every other cell as it was. *)
Theorem prepare_data_keeps_rows_whole (L : Lib.t) (df : DataFrame) (tc dc : string)
        (w w' : World) (out : DataFrame) :
  prepare_data L df tc dc w = (Return out, w') ->
  exists i j rs,
    locate "ds" out = Return i /\
    locate "y" out = Return j /\
    Permutation rs (rows out) /\
    Forall2 (agree_outside i j) (rows df) rs.
Proof.
  intros H.
  destruct (@prepare_data_shape L df tc dc w w' out H)
    as (i & stamps & j & Ei & Es & Ej & Hij & Hcols & Hrows & _ & _).
  cbv zeta in *.
  set (d0 := prophet_format df tc dc) in *.
  set (a := assign i datetime64 stamps d0) in *.
  set (d1 := sort_values i a) in *.
  assert (Hlab : labels out = labels d0).
  { unfold labels at 1. rewrite Hcols. apply sorted_labels. }
  assert (F1 : Forall2 (fun r r' => forall k, k <> i -> cell_at k r' = cell_at k r)
                       (rows df) (rows a)).
  { unfold a, assign. cbn [rows]. unfold d0. rewrite prophet_format_rows.
    apply set_cells_agree. }
  assert (F2 : Forall2 (fun r r' => forall k, k <> j -> cell_at k r' = cell_at k r)
                       (rows d1) (rows out)).
  { rewrite Hrows.
    eapply Forall2_compose; [|apply set_cells_agree|apply set_cells_agree].
    cbv beta. intros r1 r2 r3 H12 H23 k Hk. rewrite H23, H12; auto. }
  destruct (Permutation_Forall2 (Permutation_sym (sort_values_perm i a)) F2)
    as (rs & Hp & F3).
  exists i, j, rs.
  split; [rewrite <- Ei; now apply locate_same_labels|].
  split; [rewrite <- Ej; apply locate_same_labels; unfold labels; now rewrite Hcols|].
  split; [now apply Permutation_sym|].
  eapply Forall2_compose; [|exact F1|exact F3].
  cbv beta. intros r1 r2 r3 H12 H23 k Hi Hj. rewrite H23, H12; auto.
Qed.

(** *** Capping *)






(** *** Filling *)

Lemma ffill_from_app_present (last c : Cell) (u v : list Cell) :
  c <> NaN ->
  ffill_from last (u ++ c :: v) = (ffill_from last u ++ c :: ffill_from c v)%list.
Proof.
  intros Hc. revert last. induction u as [|x u IH]; intros last; simpl.
  - destruct c; congruence.
  - destruct x; simpl; now rewrite IH.
Qed.

Lemma ffill_from_gap (last : Cell) (k : nat) :
  ffill_from last (repeat NaN k) = repeat last k.
Proof. induction k; simpl; congruence. Qed.

Lemma ffill_from_full (last : Cell) (u : list Cell) :
  ~ In NaN u -> ffill_from last u = u.
Proof.
  revert last. induction u as [|x u IH]; intros last H; simpl; [reflexivity|].
  destruct x; simpl in *; try (f_equal; apply IH; tauto).
  exfalso. apply H. now left.
Qed.

Lemma rev_repeat_cell (c : Cell) (k : nat) : rev (repeat c k) = repeat c k.
Proof.
  induction k; simpl; [reflexivity|].
  rewrite IHk. clear. induction k; simpl; [reflexivity | now rewrite IHk].
Qed.

Lemma rev_around {A} (u v : list A) (c : A) :
  rev (u ++ c :: v) = (rev v ++ c :: rev u)%list.
Proof. rewrite rev_app_distr. simpl. now rewrite <- app_assoc. Qed.

(** The fill of a column whose first present cell is [c], after [k]
    missing ones. *)
Lemma fill_from_first_present (k : nat) (c : Cell) (rest : list Cell) :
  c <> NaN ->
  bfill (ffill (repeat NaN k ++ c :: rest)) =
  (repeat c k ++ c :: ffill_from c rest)%list.
Proof.
  intros Hc. unfold bfill, ffill.
  rewrite (@ffill_from_app_present NaN c (repeat NaN k) rest Hc), ffill_from_gap.
  rewrite rev_around, rev_repeat_cell.
  rewrite (@ffill_from_app_present NaN c (rev (ffill_from c rest)) (repeat NaN k) Hc).
  rewrite ffill_from_gap, ffill_from_full.
  - now rewrite rev_around, rev_involutive, rev_repeat_cell.
  - intros Hin. apply in_rev in Hin. revert Hin. now apply ffill_from_present.
Qed.

Lemma ffill_from_keeps (last c : Cell) (cs : list Cell) (n : nat) :
  nth_error cs n = Some c -> c <> NaN -> nth_error (ffill_from last cs) n = Some c.
Proof.
  revert last n. induction cs as [|x cs IH]; intros last [|n] H Hc; simpl in *;
    try discriminate.
  - injection H as ->. destruct c; congruence.
  - destruct x; simpl; now apply IH.
Qed.

Lemma ffill_from_run (last : Cell) (cs : list Cell) (n : nat) :
  (forall t, (t <= n)%nat -> nth_error cs t = Some NaN) ->
  nth_error (ffill_from last cs) n = Some last.
Proof.
  revert last n. induction cs as [|x cs IH]; intros last n H.
  - specialize (H 0%nat (Nat.le_0_l n)). discriminate.
  - assert (x = NaN) by (specialize (H 0%nat (Nat.le_0_l n)); simpl in H; congruence).
    subst x. simpl. destruct n as [|n]; [reflexivity|]. simpl.
    apply IH. intros t Ht. apply (H (S t)). lia.
Qed.

Lemma ffill_from_latest (last c : Cell) (cs : list Cell) (m n : nat) :
  (m < n)%nat -> nth_error cs m = Some c -> c <> NaN ->
  (forall t, (m < t <= n)%nat -> nth_error cs t = Some NaN) ->
  nth_error (ffill_from last cs) n = Some c.
Proof.
  revert last m n. induction cs as [|x cs IH]; intros last m n Hmn Hm Hc Hgap.
  - destruct m; discriminate.
  - destruct n as [|n]; [lia|].
    destruct m as [|m].
    + simpl in Hm. injection Hm as ->.
      assert (E : ffill_from last (c :: cs) = c :: ffill_from c cs)
        by (destruct c; simpl; congruence).
      rewrite E. simpl. apply ffill_from_run.
      intros t Ht. apply (Hgap (S t)). lia.
    + simpl in Hm.
      destruct x; simpl; eapply IH; try eassumption; try lia;
        intros t Ht; apply (Hgap (S t)); lia.
Qed.

Lemma leading_gap (cs : list Cell) (m : nat) (c : Cell) :
  (forall t, (t < m)%nat -> nth_error cs t = Some NaN) ->
  nth_error cs m = Some c ->
  cs = (repeat NaN m ++ c :: skipn (S m) cs)%list.
Proof.
  revert cs. induction m as [|m IH]; intros cs Hgap Hm.
  - destruct cs as [|x cs]; [discriminate|]. simpl in *. now injection Hm as ->.
  - destruct cs as [|x cs]; [discriminate|].
    assert (x = NaN) by (specialize (Hgap 0%nat ltac:(lia)); simpl in Hgap; congruence).
    subst x. simpl. f_equal. apply IH.
    + intros t Ht. apply (Hgap (S t)). lia.
    + exact Hm.
Qed.

Lemma bfill_keeps (c : Cell) (cs : list Cell) (n : nat) :
  nth_error cs n = Some c -> c <> NaN -> nth_error (bfill cs) n = Some c.
Proof.
  intros H Hc.
  destruct (nth_error_split cs n H) as (l1 & l2 & -> & Hl).
  unfold bfill, ffill.
  rewrite rev_around, (@ffill_from_app_present NaN c (rev l2) (rev l1) Hc), rev_around.
  rewrite nth_error_app2; rewrite length_rev, ffill_from_length, length_rev; [|lia].
  rewrite Hl, Nat.sub_diag. reflexivity.
Qed.

(** X4.  The fill of the value column, forward then backward, keeps
    every present value, gives a missing cell the latest present value
    above it and, where there is none, the first present value below. *)
Theorem fill_takes_nearest_value (cs : list Cell) :
  (forall n c, nth_error cs n = Some c -> c <> NaN ->
               nth_error (bfill (ffill cs)) n = Some c) /\
  (forall m n c, (m < n)%nat -> nth_error cs m = Some c -> c <> NaN ->
                 (forall t, (m < t <= n)%nat -> nth_error cs t = Some NaN) ->
                 nth_error (bfill (ffill cs)) n = Some c) /\
  (forall m n c, (n < m)%nat -> nth_error cs m = Some c -> c <> NaN ->
                 (forall t, (t < m)%nat -> nth_error cs t = Some NaN) ->
                 nth_error (bfill (ffill cs)) n = Some c).
Proof.
  split; [|split].
  - intros n c H Hc. apply bfill_keeps; [|exact Hc].
    now apply ffill_from_keeps.
  - intros m n c Hmn Hm Hc Hgap. apply bfill_keeps; [|exact Hc].
    now apply (@ffill_from_latest NaN c cs m n).
  - intros m n c Hnm Hm Hc Hgap.
    rewrite (@leading_gap cs m c Hgap Hm).
    rewrite (@fill_from_first_present m c (skipn (S m) cs) Hc).
    rewrite nth_error_app1 by (rewrite repeat_length; exact Hnm).
    apply nth_error_repeat. exact Hnm.
Qed.

(** *** Missing columns *)

Lemma rename_absent (old new : string) (df : DataFrame) :
  ~ In old (labels df) -> labels (rename old new df) = labels df.
Proof.
  unfold labels, rename. cbn [columns]. intros Hno.
  rewrite map_map. apply map_ext_in. intros c Hc.
  destruct (String.eqb_spec (fst c) old) as [E|N]; [|reflexivity].
  exfalso. apply Hno. rewrite <- E. now apply in_map.
Qed.

Lemma rename_keeps_absent (old new label : string) (df : DataFrame) :
  label <> new -> ~ In label (labels df) -> ~ In label (labels (rename old new df)).
Proof.
  unfold labels, rename. cbn [columns]. intros Hn Hno Hin.
  apply in_map_iff in Hin. destruct Hin as (c & Hc & Hin).
  apply in_map_iff in Hin. destruct Hin as (c0 & Hc0 & Hin0).
  destruct (String.eqb (fst c0) old); subst c.
  - simpl in Hc. congruence.
  - apply Hno. apply in_map_iff. exists c0. auto.
Qed.

(** X5.  A missing column is reported under its Prophet name.  When the
    frame has neither the date column named in the call nor a column
    ds, [prepare_data] raises ModelTrainingException whose message names
    the key ds, not the column asked for; when the timestamps are read
    and no column ends up called y, the message names the key y.  The
    world is as before in both cases. *)
Theorem prepare_data_names_missing_column (L : Lib.t) (df : DataFrame)
        (tc dc : string) (w : World) :
  (~ In dc (labels df) -> ~ In "ds" (labels df) ->
   prepare_data L df tc dc w =
   (Raise (mkExn ModelTrainingException "Data preparation failed: 'ds'"), w)) /\
  (forall i stamps,
      locate "ds" (prophet_format df tc dc) = Return i ->
      to_datetime (Lib.parse_datetime L) (column i df) = Return stamps ->
      ~ In "y" (labels (prophet_format df tc dc)) ->
      prepare_data L df tc dc w =
      (Raise (mkExn ModelTrainingException "Data preparation failed: 'y'"), w)).
Proof.
  split.
  - intros Hdc Hds.
    assert (Hl : locate "ds" (prophet_format df tc dc) = Raise (mkExn KeyError "'ds'")).
    { unfold locate. rewrite positions_from_absent; [reflexivity|].
      unfold prophet_format.
      assert (H1 : ~ In "ds" (labels (if negb (dc =? "ds") then rename dc "ds" df
                                      else df))).
      { destruct (negb (dc =? "ds")); [|exact Hds].
        now rewrite rename_absent. }
      destruct (negb (tc =? "y")); [|exact H1].
      apply rename_keeps_absent; [discriminate | exact H1]. }
    unfold prepare_data, try_except. unfold bind at 1. unfold lift at 1.
    rewrite Hl. reflexivity.
  - intros i stamps Ei Es Hy.
    set (d0 := prophet_format df tc dc) in *.
    assert (Hl : locate "y" (sort_values i (assign i datetime64 stamps d0))
                 = Raise (mkExn KeyError "'y'")).
    { rewrite (@locate_same_labels "y" _ d0) by apply sorted_labels.
      unfold locate. now rewrite positions_from_absent. }
    unfold prepare_data, try_except, bind, lift. fold d0.
    rewrite Ei.
    replace (column i d0) with (column i df)
      by (unfold column, d0; now rewrite prophet_format_rows).
    rewrite Es, Hl. reflexivity.
Qed.

End Preparation.

Section Training.
Import Py Np Pandas Monad Observe.
Local Open Scope string_scope.

(** *** What the steps of [fit] leave alone *)

Lemma configures_refl (w : World) : configures w w.
Proof. unfold configures. tauto. Qed.

Lemma configures_trans (x y z : World) :
  configures x y -> configures y z -> configures x z.
Proof. unfold configures. intuition congruence. Qed.

(** The world an outcome comes with, when the step only rewrites the
    engine, the feature columns or the log. *)
Ltac same_world :=
  let H := fresh "H" in
  intros H; injection H as _ <-; unfold configures, unfitted; simpl; auto 10.

Lemma on_model_configures (g : Prophet.t -> Outcome Prophet.t) :
  preserves configures (on_model g).
Proof.
  intros w o w'. unfold on_model.
  destruct (model (self w)) as [p|]; [|same_world].
  destruct (g p); same_world.
Qed.

Lemma logger_configures (lvl : Level) (msg : string) :
  preserves configures (logger lvl msg).
Proof. intros w o w'. unfold logger. same_world. Qed.

Lemma register_configures (f : ProphetForecastingModel -> list string) :
  preserves configures (modify_self (fun s => set_feature_columns (f s) s)).
Proof. intros w o w'. unfold modify_self. same_world. Qed.


Lemma consider_regressor_configures (L : Lib.t) (data : DataFrame) (col : string) :
  preserves configures (consider_regressor L data col).
Proof.
  unfold consider_regressor.
  apply preserves_bind; [exact configures_trans | | intros d].
  - apply preserves_pure; [exact configures_refl | reflexivity].
  - destruct (regressor_dtype d).
    + repeat (apply preserves_bind; [exact configures_trans | | intro]);
        auto using on_model_configures, logger_configures.
      apply (register_configures (fun s => (feature_columns s ++ [col])%list)).
    + apply preserves_pure; [exact configures_refl | reflexivity].
Qed.

Lemma add_regressors_configures (L : Lib.t) (data : DataFrame) :
  preserves configures (add_regressors L data).
Proof.
  unfold add_regressors.
  apply preserves_for_each;
    [exact configures_refl | exact configures_trans
     | apply consider_regressor_configures].
Qed.









(** *** [prepare_data] and the world *)

Lemma prepare_data_outcome (L : Lib.t) (df : DataFrame) (tc dc : string)
      (w1 w2 : World) :
  fst (prepare_data L df tc dc w1) = fst (prepare_data L df tc dc w2).
Proof.
  unfold prepare_data, try_except, bind, lift, ret, logger, raise.
  destruct (locate "ds" _) as [i|e]; [|reflexivity].
  destruct (to_datetime _ _) as [stamps|e]; [|reflexivity].
  destruct (locate "y" _) as [j|e]; [|reflexivity].
  destruct (numeric_values _) as [vals|e]; reflexivity.
Qed.

Lemma prepare_data_raise (L : Lib.t) (df : DataFrame) (tc dc : string)
      (w w' : World) (e : Exn) :
  prepare_data L df tc dc w = (Raise e, w') ->
  w' = w /\ exists e0, e = mkExn ModelTrainingException
                                 ("Data preparation failed: " ++ str e0).
Proof.
  unfold prepare_data, try_except, bind, lift, ret, logger, raise.
  destruct (locate "ds" _) as [i|e1];
    [|intros H; injection H as <- <-; split; [reflexivity | eexists; reflexivity]].
  destruct (to_datetime _ _) as [stamps|e1];
    [|intros H; injection H as <- <-; split; [reflexivity | eexists; reflexivity]].
  destruct (locate "y" _) as [j|e1];
    [|intros H; injection H as <- <-; split; [reflexivity | eexists; reflexivity]].
  destruct (numeric_values _) as [vals|e1];
    [discriminate | intros H; injection H as <- <-; split; [reflexivity | eexists; reflexivity]].
Qed.

Lemma prepare_data_world (L : Lib.t) (df : DataFrame) (tc dc : string)
      (w w' : World) (o : Outcome DataFrame) :
  prepare_data L df tc dc w = (o, w') ->
  self w' = self w /\ disk w' = disk w /\ clock w' = clock w /\ rng w' = rng w.
Proof.
  unfold prepare_data, try_except, bind, lift, ret, logger, raise.
  destruct (locate "ds" _) as [i|e]; [|intros H; injection H as _ <-; auto].
  destruct (to_datetime _ _) as [stamps|e]; [|intros H; injection H as _ <-; auto].
  destruct (locate "y" _) as [j|e]; [|intros H; injection H as _ <-; auto].
  destruct (numeric_values _) as [vals|e]; intros H; injection H as _ <-; auto.
Qed.

Lemma prepare_data_len (L : Lib.t) (df : DataFrame) (tc dc : string)
      (w w' : World) (out : DataFrame) :
  prepare_data L df tc dc w = (Return out, w') -> len out = len df.
Proof.
  intros H.
  destruct (@prepare_data_steps L df tc dc w w' out H)
    as (i & stamps & j & vals & _ & _ & _ & _ & Eout & _).
  cbv zeta in Eout. rewrite Eout, !set_column_len.
  unfold len. rewrite sorted_len. f_equal. apply prophet_format_rows.
Qed.

(** *** The engine [fit] builds *)


Lemma new_prophet_blank (L : Lib.t) (s : ProphetForecastingModel) (p : Prophet.t) :
  new_prophet L s = Return p ->
  p = Prophet.mk (seasonality_mode s) (changepoint_prior_scale s)
                 (seasonality_prior_scale s) (holidays_prior_scale s)
                 (mcmc_samples s) (interval_width s) (uncertainty_samples s)
                 false true true [] [] None None.
Proof.
  unfold new_prophet. destruct (Lib.validate_inputs L _); [discriminate|].
  intros H. now injection H as <-.
Qed.

Lemma add_custom_seasonalities_run (w : World) (p : Prophet.t) :
  model (self w) = Some p ->
  add_custom_seasonalities w =
  (Return tt,
   mkWorld (set_model
              (Some (Prophet.add_seasonality
                       (Prophet.mkSeasonality "monthly" (61 # 2) 3)
                       (Prophet.add_seasonality
                          (Prophet.mkSeasonality "quarterly" ((1461 # 4) / 4) 5) p)))
              (self w))
           (log w ++ [(INFO, "Added custom seasonalities: quarterly, monthly")])
           (disk w) (clock w) (rng w)).
Proof.
  intros Hm. unfold add_custom_seasonalities, bind, on_model, logger.
  rewrite Hm. reflexivity.
Qed.

Lemma consider_regressor_inv (L : Lib.t) (data : DataFrame) (col : string)
      (w w' : World) :
  consider_regressor L data col w = (Return tt, w') ->
  exists d,
    dtype_of col data = Return d /\
    if regressor_dtype d
    then exists p,
        model (self w) = Some p /\
        w' = mkWorld (set_feature_columns
                        (feature_columns (self w) ++ [col])
                        (set_model (Some (Prophet.add_regressor col p)) (self w)))
                     (log w ++ [(INFO, "Added regressor: " ++ col)])
                     (disk w) (clock w) (rng w)
    else w' = w.
Proof.
  unfold consider_regressor, bind, lift, on_model, modify_self, logger, ret.
  destruct (dtype_of col data) as [d|e]; [|discriminate].
  intros H. exists d. split; [reflexivity|].
  destruct (regressor_dtype d).
  - destruct (model (self w)) as [p|]; [|discriminate].
    destruct (Lib.validate_regressor L p col); [discriminate|].
    injection H as <-. exists p. split; reflexivity.
  - now injection H as <-.
Qed.

(** The registered columns, added one by one to an engine. *)
Lemma regressors_added (cols : list string) (p : Prophet.t) :
  let p' := fold_left (fun m c => Prophet.add_regressor c m) cols p in
  Prophet.extra_regressors p' = (Prophet.extra_regressors p ++ cols)%list /\
  Prophet.seasonalities p' = Prophet.seasonalities p /\
  Prophet.daily_seasonality p' = Prophet.daily_seasonality p /\
  Prophet.weekly_seasonality p' = Prophet.weekly_seasonality p /\
  Prophet.yearly_seasonality p' = Prophet.yearly_seasonality p /\
  Prophet.country_holidays p' = Prophet.country_holidays p /\
  Prophet.fitted p' = Prophet.fitted p /\
  Prophet.seasonality_mode p' = Prophet.seasonality_mode p /\
  Prophet.changepoint_prior_scale p' = Prophet.changepoint_prior_scale p /\
  Prophet.seasonality_prior_scale p' = Prophet.seasonality_prior_scale p /\
  Prophet.holidays_prior_scale p' = Prophet.holidays_prior_scale p /\
  Prophet.mcmc_samples p' = Prophet.mcmc_samples p /\
  Prophet.interval_width p' = Prophet.interval_width p /\
  Prophet.uncertainty_samples p' = Prophet.uncertainty_samples p.
Proof.
  cbv zeta. revert p. induction cols as [|c cols IH]; intros p; simpl.
  - rewrite app_nil_r. tauto.
  - destruct (IH (Prophet.add_regressor c p))
      as (E1 & E2 & E3 & E4 & E5 & E6 & E7 & E8 & E9 & E10 & E11 & E12 & E13 & E14).
    rewrite E1, E2, E3, E4, E5, E6, E7, E8, E9, E10, E11, E12, E13, E14. simpl.
    rewrite <- app_assoc. tauto.
Qed.

Lemma add_regressors_inv (L : Lib.t) (data : DataFrame) (cols : list string) :
  forall (w w' : World) (p : Prophet.t),
    for_each cols (consider_regressor L data) w = (Return tt, w') ->
    model (self w) = Some p ->
    let sel := filter (fun col => match dtype_of col data with
                                  | Return d => regressor_dtype d
                                  | Raise _ => false
                                  end) cols in
    model (self w') = Some (fold_left (fun m c => Prophet.add_regressor c m) sel p) /\
    feature_columns (self w') = (feature_columns (self w) ++ sel)%list.
Proof.
  induction cols as [|col cols IH]; intros w w' p H Hm; cbn [for_each filter] in *.
  - unfold ret in H. injection H as <-. simpl. now rewrite app_nil_r.
  - apply bind_inv in H. destruct H as ([] & w1 & Hc & H).
    apply consider_regressor_inv in Hc. destruct Hc as (d & Ed & Hc).
    rewrite Ed. destruct (regressor_dtype d).
    + destruct Hc as (p0 & Hp0 & ->).
      assert (p0 = p) by congruence. subst p0.
      destruct (IH _ _ (Prophet.add_regressor col p) H eq_refl) as [M F].
      split; [exact M|]. rewrite F. simpl. now rewrite <- app_assoc.
    + subst w1. exact (IH _ _ p H Hm).
Qed.

(** What a returning [fit_core] has done, step by step. *)
Lemma fit_core_inv (L : Lib.t) (data : DataFrame) (tc dc : string)
      (w w' : World) (prepared : DataFrame) :
  fit_core L data tc dc w = (Return prepared, w') ->
  exists w1 p0 w3 w4 m f,
    prepare_data L data tc dc
      (snd (logger INFO "Starting Prophet model training..." w))
    = (Return prepared, w1) /\
    new_prophet L (set_target_column tc (self w1)) = Return p0 /\
    add_custom_seasonalities
      (mkWorld (set_model (Some p0) (set_target_column tc (self w1)))
               (log w1) (disk w1) (clock w1) (rng w1))
    = (Return tt, w3) /\
    add_regressors L prepared w3 = (Return tt, w4) /\
    model (self w4) = Some m /\
    Lib.engine_fit L (Prophet.add_country_holidays "US" m) prepared = Return f /\
    w' = mkWorld (set_model
                    (Some (Prophet.set_fitted f (Prophet.add_country_holidays "US" m)))
                    (self w4))
                 (log w4) (disk w4) (clock w4) (rng w4).
Proof.
  unfold fit_core. intros H.
  apply bind_inv in H. destruct H as ([] & w0 & H0 & H).
  apply bind_inv in H. destruct H as (prep & w1 & Hprep & H).
  apply bind_inv in H. destruct H as ([] & w1a & Hm1 & H).
  apply bind_inv in H. destruct H as (s & w1b & Hg & H).
  apply bind_inv in H. destruct H as (p0 & w1c & Hl & H).
  apply bind_inv in H. destruct H as ([] & w2 & Hm2 & H).
  apply bind_inv in H. destruct H as ([] & w3 & Hacs & H).
  apply bind_inv in H. destruct H as ([] & w4 & Har & H).
  apply bind_inv in H. destruct H as ([] & w5 & Hhol & H).
  apply bind_inv in H. destruct H as ([] & w6 & Hfit & H).
  unfold ret in H. injection H as <- <-.
  unfold logger in H0. injection H0 as <-.
  unfold modify_self in Hm1. injection Hm1 as <-.
  unfold get_self in Hg. injection Hg as <- <-.
  unfold lift in Hl. injection Hl as Hp0 <-.
  unfold modify_self in Hm2. injection Hm2 as <-.
  apply on_model_inv in Hhol. destruct Hhol as (m & m' & Hm & Hh & ->).
  injection Hh as <-.
  apply on_model_inv in Hfit. destruct Hfit as (q & q' & Hq & Hf & ->).
  cbn [self model set_model] in Hq. injection Hq as <-.
  destruct (Lib.engine_fit L (Prophet.add_country_holidays "US" m) prep) as [f|e] eqn:Ef;
    simpl in Hf; [|discriminate].
  injection Hf as <-.
  exists w1, p0, w3, w4, m, f.
  repeat match goal with |- _ /\ _ => split end;
    try assumption; try reflexivity.
Qed.

(** The instance and the engine after a returning [fit_core]. *)
Lemma fit_core_result (L : Lib.t) (data : DataFrame) (tc dc : string)
      (w w' : World) (prepared : DataFrame) :
  fit_core L data tc dc w = (Return prepared, w') ->
  fst (prepare_data L data tc dc w) = Return prepared /\
  len prepared = len data /\
  (exists m,
      model (self w') = Some m /\
      Prophet.fitted m <> None /\
      standard_components m /\
      carries_hyperparameters m (self w) /\
      Prophet.extra_regressors m = registered_columns prepared) /\
  feature_columns (self w') =
  (feature_columns (self w) ++ registered_columns prepared)%list /\
  target_column (self w') = tc /\
  hyperparameters (self w') = hyperparameters (self w) /\
  training_metrics (self w') = training_metrics (self w) /\
  metadata (self w') = metadata (self w) /\
  disk w' = disk w /\ clock w' = clock w.
Proof.
  intros H.
  destruct (@fit_core_inv L data tc dc w w' prepared H)
    as (w1 & p0 & w3 & w4 & m & f & Hprep & Hnew & Hacs & Har & Hm & Hfit & ->).
  destruct (@prepare_data_world L data tc dc _ _ _ Hprep) as (S1 & D1 & C1 & R1).
  cbn [snd logger self disk clock rng] in S1, D1, C1, R1.
  apply new_prophet_blank in Hnew.
  cbn [set_target_column seasonality_mode changepoint_prior_scale
       seasonality_prior_scale holidays_prior_scale mcmc_samples interval_width
       uncertainty_samples] in Hnew.
  rewrite add_custom_seasonalities_run with (p := p0) in Hacs by reflexivity.
  injection Hacs as <-.
  pose proof (@add_regressors_configures L prepared _ _ _ Har) as Cf.
  unfold add_regressors in Har.
  destruct (@add_regressors_inv L prepared (regressor_columns prepared) _ _ _ Har eq_refl)
    as [M F].
  fold (registered_columns prepared) in M, F.
  cbn [self feature_columns set_model set_target_column] in F.
  destruct (regressors_added (registered_columns prepared)
              (Prophet.add_seasonality
                 (Prophet.mkSeasonality "monthly" (61 # 2) 3)
                 (Prophet.add_seasonality
                    (Prophet.mkSeasonality "quarterly" ((1461 # 4) / 4) 5) p0)))
    as (E1 & E2 & E3 & E4 & E5 & E6 & E7 & E8 & E9 & E10 & E11 & E12 & E13 & E14).
  rewrite Hm in M. injection M as ->.
  destruct Cf as (Ch & Ct & Cm & Cd & Cdisk & Cclock & Crng).
  cbn [self set_model set_target_column hyperparameters name seasonality_mode
       changepoint_prior_scale seasonality_prior_scale holidays_prior_scale
       mcmc_samples interval_width uncertainty_samples target_column
       training_metrics metadata disk clock rng] in Ch, Ct, Cm, Cd, Cdisk, Cclock, Crng.
  split.
  { rewrite (prepare_data_outcome L data tc dc w
               (snd (logger INFO "Starting Prophet model training..." w))).
    now rewrite Hprep. }
  split; [exact (@prepare_data_len L data tc dc _ _ _ Hprep)|].
  split.
  { eexists. split; [reflexivity|].
    split; [discriminate|].
    unfold standard_components, carries_hyperparameters.
    cbn [Prophet.set_fitted Prophet.add_country_holidays Prophet.seasonalities
         Prophet.daily_seasonality Prophet.weekly_seasonality
         Prophet.yearly_seasonality Prophet.country_holidays
         Prophet.seasonality_mode Prophet.changepoint_prior_scale
         Prophet.seasonality_prior_scale Prophet.holidays_prior_scale
         Prophet.mcmc_samples Prophet.interval_width Prophet.uncertainty_samples
         Prophet.extra_regressors].
    rewrite ?E1, ?E2, ?E3, ?E4, ?E5, ?E6, ?E8, ?E9, ?E10, ?E11, ?E12, ?E13, ?E14.
    subst p0. rewrite <- S1. simpl.
    repeat match goal with |- _ /\ _ => split end; reflexivity. }
  cbn [self set_model feature_columns target_column training_metrics metadata
       disk clock rng].
  split; [rewrite F, S1; reflexivity|].
  split; [exact Ct|].
  split; [unfold hyperparameters in *; simpl in Ch; simpl; rewrite Ch, S1; reflexivity|].
  split; [rewrite Cm, S1; reflexivity|].
  split; [rewrite Cd, S1; reflexivity|].
  split; [rewrite Cdisk; exact D1 | rewrite Cclock; exact C1].
Qed.

(** *** The metrics pass *)

Ltac through_block L :=
  unfold training_metrics_block, model_predict, float_column, bind, lift, ret,
    modify_self, logger;
  repeat match goal with
         | |- context [match model (self ?w) with _ => _ end] =>
             destruct (model (self w)) eqn:?
         | |- context [Lib.engine_predict L ?p ?r ?d] =>
             destruct (Lib.engine_predict L p r d) as [[? | ?] ?]
         | |- context [match locate ?l ?d with _ => _ end] =>
             destruct (locate l d)
         | |- context [Lib.mean_absolute_percentage_error L ?y ?z] =>
             destruct (Lib.mean_absolute_percentage_error L y z)
         | |- context [Lib.mean_squared_error L ?y ?z] =>
             destruct (Lib.mean_squared_error L y z)
         | |- context [Lib.corrcoef01 L ?y ?z] =>
             destruct (Lib.corrcoef01 L y z)
         end.

Lemma training_metrics_block_frame (L : Lib.t) (data : DataFrame) (w w' : World)
      (o : Outcome unit) :
  training_metrics_block L data w = (o, w') ->
  model (self w') = model (self w) /\
  feature_columns (self w') = feature_columns (self w) /\
  target_column (self w') = target_column (self w) /\
  hyperparameters (self w') = hyperparameters (self w) /\
  metadata (self w') = metadata (self w) /\
  disk w' = disk w /\ clock w' = clock w.
Proof.
  through_block L; intros H; injection H as _ <-; simpl; auto 10.
Qed.

Lemma calculate_training_metrics_frame (L : Lib.t) (data : DataFrame) (w w' : World)
      (o : Outcome unit) :
  _calculate_training_metrics L data w = (o, w') ->
  model (self w') = model (self w) /\
  feature_columns (self w') = feature_columns (self w) /\
  target_column (self w') = target_column (self w) /\
  hyperparameters (self w') = hyperparameters (self w) /\
  metadata (self w') = metadata (self w) /\
  disk w' = disk w /\ clock w' = clock w.
Proof.
  unfold _calculate_training_metrics, try_except.
  destruct (training_metrics_block L data w) as [[[]|e] w1] eqn:B.
  - intros H. injection H as _ <-. eapply training_metrics_block_frame, B.
  - unfold logger. intros H. injection H as _ <-. simpl.
    eapply training_metrics_block_frame, B.
Qed.

Lemma sum_abs_nonnegative (xs : list fval) :
  Forall (fun x => (exists q, x = Fin q /\ 0 <= q) \/ x = PInf) xs ->
  (exists s, fold_right fadd (Fin 0) xs = Fin s /\ 0 <= s) \/
  fold_right fadd (Fin 0) xs = PInf.
Proof.
  induction 1 as [|x xs Hx _ IH]; simpl.
  - left. exists 0. split; [reflexivity | lra].
  - destruct Hx as [(q & -> & Hq)| ->], IH as [(s & -> & Hs)| ->]; simpl; auto.
    left. exists (q + s). split; [reflexivity | lra].
Qed.

Lemma mean_abs_nonnegative (l : list fval) :
  mean (map fabs l) = FNaN \/ fle (Fin 0) (mean (map fabs l)).
Proof.
  unfold mean.
  set (xs := filter (fun x => negb (is_nan x)) (map fabs l)).
  assert (Hxs : Forall (fun x => (exists q, x = Fin q /\ 0 <= q) \/ x = PInf) xs).
  { apply Forall_forall. intros x Hx. unfold xs in Hx.
    apply filter_In in Hx. destruct Hx as [Hin Hn].
    apply in_map_iff in Hin. destruct Hin as (y & <- & _).
    destruct y; simpl in *; try discriminate; auto.
    left. eexists. split; [reflexivity | apply Qabs_nonneg]. }
  assert (Hn : 0 <= inject_Z (Z.of_nat (length xs))).
  { change 0 with (inject_Z 0). rewrite <- Zle_Qle. lia. }
  generalize dependent (inject_Z (Z.of_nat (length xs))). intros n Hn.
  destruct (sum_abs_nonnegative Hxs) as [(s & -> & Hs)| ->]; simpl.
  - destruct (Qeq_bool n 0) eqn:E.
    + unfold sign_inf. destruct (Qcompare_spec s 0) as [C|C|C]; simpl; auto.
      exfalso. lra.
    + right. simpl.
      assert (0 < n).
      { apply Qle_lteq in Hn. destruct Hn as [Hn|Hn]; [exact Hn|].
        exfalso. symmetry in Hn. apply Qeq_bool_iff in Hn. congruence. }
      apply Qle_shift_div_l; [assumption | lra].
  - apply Qle_bool_iff in Hn. rewrite Hn. right. exact I.
Qed.

Lemma square_nonnegative (r : fval) :
  fmul r r = FNaN \/ fle (Fin 0) (fmul r r).
Proof.
  destruct r as [x| | |]; simpl; auto.
  right. nra.
Qed.

(** X6.  The training metrics are written all at once or not at all.
    [_calculate_training_metrics] always returns; afterwards the metrics
    are those the instance held before, or exactly the four entries
    mape, rmse, mae and r2, of which mae and r2 are never negative. *)
Theorem training_metrics_all_or_nothing (L : Lib.t) (data : DataFrame) (w : World) :
  exists w',
    _calculate_training_metrics L data w = (Return tt, w') /\
    (training_metrics (self w') = training_metrics (self w) \/
     exists mape rmse mae r2,
       training_metrics (self w') =
       [("mape", mape); ("rmse", rmse); ("mae", mae); ("r2", r2)] /\
       (mae = FNaN \/ fle (Fin 0) mae) /\
       (r2 = FNaN \/ fle (Fin 0) r2)).
Proof.
  unfold _calculate_training_metrics, try_except.
  destruct (training_metrics_block L data w) as [[[]|e] w1] eqn:B.
  - exists w1. split; [reflexivity|]. right. revert B.
    through_block L; try discriminate.
    intros H. injection H as <-. simpl.
    do 4 eexists. split; [reflexivity|].
    split; [apply mean_abs_nonnegative | apply square_nonnegative].
  - destruct (@training_metrics_block_raise L data w w1 e B) as [Hs _].
    unfold logger. eexists. split; [reflexivity|]. left. simpl. now rewrite Hs.
Qed.

(** *** [fit], from outside *)

(** X7.  A fit whose data cannot be prepared changes nothing on the
    instance: it raises ModelTrainingException, the message of the
    preparation failure nested in its own, with one line logged. *)
Theorem fit_failed_preparation_changes_nothing (L : Lib.t) (data : DataFrame)
        (tc dc : string) (w : World) (e : Exn) :
  fst (prepare_data L data tc dc w) = Raise e ->
  exists msg,
    fit L data tc dc w =
    (Raise (mkExn ModelTrainingException
                  ("Prophet model training failed: Data preparation failed: " ++ msg)),
     mkWorld (self w) (log w ++ [(INFO, "Starting Prophet model training...")])
             (disk w) (clock w) (rng w)).
Proof.
  intros H.
  rewrite (prepare_data_outcome L data tc dc w
             (snd (logger INFO "Starting Prophet model training..." w))) in H.
  destruct (prepare_data L data tc dc
              (snd (logger INFO "Starting Prophet model training..." w)))
    as [o w1] eqn:P.
  simpl in H. subst o.
  destruct (@prepare_data_raise L data tc dc _ _ _ P) as [-> (e0 & ->)].
  exists (str e0).
  rewrite fit_unfold. unfold fit_core.
  erewrite bind_return by reflexivity.
  erewrite bind_raise by exact P.
  reflexivity.
Qed.



(** X9.  Every returning fit builds its engine anew.  The engine on the
    instance is fitted, has the weekly and yearly components on and the
    daily one off, the quarterly and monthly seasonalities, the US
    holidays, the hyperparameters of the instance, and as regressors
    exactly the columns registered from the prepared data of this fit. *)
Theorem fit_builds_fresh_engine (L : Lib.t) (data : DataFrame) (tc dc : string)
        (w w' : World) :
  fit L data tc dc w = (Return tt, w') ->
  exists prepared m,
    fst (prepare_data L data tc dc w) = Return prepared /\
    model (self w') = Some m /\
    Prophet.fitted m <> None /\
    standard_components m /\
    carries_hyperparameters m (self w) /\
    Prophet.extra_regressors m = registered_columns prepared.
Proof.
  rewrite fit_unfold.
  destruct (fit_core L data tc dc w) as [[prepared|e0] w1] eqn:C; [|discriminate].
  cbv zeta. intros H. injection H as <-.
  destruct (@fit_core_result L data tc dc w w1 prepared C)
    as (Hp & _ & (m & Hm & Hf & Hs & Hh & Hx) & _).
  destruct (_calculate_training_metrics L prepared w1) as [o w2] eqn:T.
  destruct (@calculate_training_metrics_frame L prepared w1 w2 o T) as (M & _).
  exists prepared, m. cbn [snd self set_metadata model].
  rewrite M. auto 10.
Qed.

(** X10.  A returning fit sets the target column and appends the columns
    it registered to [feature_columns]; the list is never reset, so it
    holds the registered columns of every fit so far, in order. *)
Theorem fit_appends_feature_columns (L : Lib.t) (data : DataFrame) (tc dc : string)
        (w w' : World) :
  fit L data tc dc w = (Return tt, w') ->
  exists prepared,
    fst (prepare_data L data tc dc w) = Return prepared /\
    target_column (self w') = tc /\
    feature_columns (self w') =
    (feature_columns (self w) ++ registered_columns prepared)%list /\
    hyperparameters (self w') = hyperparameters (self w).
Proof.
  rewrite fit_unfold.
  destruct (fit_core L data tc dc w) as [[prepared|e0] w1] eqn:C; [|discriminate].
  cbv zeta. intros H. injection H as <-.
  destruct (@fit_core_result L data tc dc w w1 prepared C)
    as (Hp & _ & _ & Hfc & Ht & Hh & _).
  destruct (_calculate_training_metrics L prepared w1) as [o w2] eqn:T.
  destruct (@calculate_training_metrics_frame L prepared w1 w2 o T)
    as (_ & F & Tc & Hy & _).
  exists prepared. cbn [snd self set_metadata target_column feature_columns].
  split; [exact Hp|]. split; [congruence|]. split; [congruence|].
  unfold hyperparameters in *. simpl. congruence.
Qed.

Lemma dict_get_update5 {V} (d : list (string * V)) (k1 k2 k3 k4 k5 : string)
      (v1 v2 v3 v4 v5 : V) :
  k1 <> k2 -> k1 <> k3 -> k1 <> k4 -> k1 <> k5 -> k2 <> k3 -> k2 <> k4 -> k2 <> k5 ->
  k3 <> k4 -> k3 <> k5 -> k4 <> k5 ->
  let d' := dict_update d [(k1, v1); (k2, v2); (k3, v3); (k4, v4); (k5, v5)] in
  dict_get k1 d' = Some v1 /\ dict_get k2 d' = Some v2 /\ dict_get k3 d' = Some v3 /\
  dict_get k4 d' = Some v4 /\ dict_get k5 d' = Some v5 /\
  (forall k, k <> k1 -> k <> k2 -> k <> k3 -> k <> k4 -> k <> k5 ->
             dict_get k d' = dict_get k d).
Proof.
  intros. subst d'. unfold dict_update. cbn [fold_left fst snd].
  repeat split;
    repeat first [ rewrite dict_get_set
                 | rewrite dict_get_set_other by congruence ];
    try reflexivity.
  intros. repeat rewrite dict_get_set_other by congruence. reflexivity.
Qed.

(** X11.  The metadata a returning fit records.  training_samples is the
    number of records of the input (preparation drops none),
    target_column the target given, training_date the reading of the
    clock, model_params the four prior settings of the instance; every
    other key of the metadata is as it was. *)
Theorem fit_records_metadata (L : Lib.t) (data : DataFrame) (tc dc : string)
        (w w' : World) :
  fit L data tc dc w = (Return tt, w') ->
  let md := metadata (self w') in
  dict_get "training_samples" md = Some (MInt (Z.of_nat (len data))) /\
  dict_get "feature_columns" md = Some MFeatureColumns /\
  dict_get "target_column" md = Some (MStr tc) /\
  dict_get "training_date" md = Some (MIsoTime (clock w)) /\
  dict_get "model_params" md =
  Some (MDict [("seasonality_mode", SStr (seasonality_mode (self w)));
               ("changepoint_prior_scale", SNum (changepoint_prior_scale (self w)));
               ("seasonality_prior_scale", SNum (seasonality_prior_scale (self w)));
               ("holidays_prior_scale", SNum (holidays_prior_scale (self w)))]) /\
  (forall k, k <> "training_samples" -> k <> "feature_columns" ->
             k <> "target_column" -> k <> "training_date" -> k <> "model_params" ->
             dict_get k md = dict_get k (metadata (self w))).
Proof.
  rewrite fit_unfold.
  destruct (fit_core L data tc dc w) as [[prepared|e0] w1] eqn:C; [|discriminate].
  cbv zeta. intros H. injection H as <-.
  destruct (@fit_core_result L data tc dc w w1 prepared C)
    as (_ & Hlen & _ & _ & Ht & Hh & _ & Hmd & _ & Hclock).
  destruct (_calculate_training_metrics L prepared w1) as [o w2] eqn:T.
  destruct (@calculate_training_metrics_frame L prepared w1 w2 o T)
    as (_ & _ & Tc & Hy & Md & _ & Ck).
  cbn [snd self set_metadata metadata].
  assert (Hy' : hyperparameters (self w2) = hyperparameters (self w)) by congruence.
  unfold hyperparameters in Hy'. injection Hy' as _ -> -> -> ->.
  rewrite Hlen, Tc, Ht, Ck, Hclock, Md, Hmd.
  apply dict_get_update5; discriminate.
Qed.

End Training.

Section Forecasting.
Import Py Np Pandas Monad Observe.
Local Open Scope string_scope.

(** *** The failures of [predict] *)

Lemma predict_raise (L : Lib.t) (periods : Z) (freq : string) (ih : bool)
      (fr : option DataFrame) (w w' : World) (e : Exn) :
  predict L periods freq ih fr w = (Raise e, w') ->
  exn_class e = PredictionException /\
  self w' = self w /\ log w' = log w /\ disk w' = disk w /\ clock w' = clock w.
Proof.
  rewrite (predict_unfold L periods freq ih fr w w).
  destruct (model (self w)) as [p|];
    [|intros H; injection H as <- <-; auto].
  destruct (Lib.make_future_dataframe L p periods freq ih) as [fut0|e0];
    [|intros H; injection H as <- <-; auto].
  destruct (fst (add_future_regressors _ fr fut0 w)) as [fut|e0];
    [|intros H; injection H as <- <-; auto].
  cbv zeta.
  destruct (fst (Lib.engine_predict L p (rng w) fut)) as [fc|e0];
    [|intros H; injection H as <- <-; auto].
  destruct (Prophet.has_intervals fc); [discriminate|].
  intros H; injection H as <- <-; auto.
Qed.

(** X12.  [predict] fails in one class only.  With the [model] attribute
    unset it raises PredictionException with the fixed message and
    touches nothing; every other failure is a PredictionException as
    well, and a failed call leaves the instance, the log, the disk and
    the clock as they were. *)
Theorem predict_fails_as_prediction_exception (L : Lib.t) (periods : Z)
        (freq : string) (ih : bool) (fr : option DataFrame) (w : World) :
  (model (self w) = None ->
   predict L periods freq ih fr w =
   (Raise (mkExn PredictionException "Model has not been trained yet"), w)) /\
  (forall e w',
      predict L periods freq ih fr w = (Raise e, w') ->
      exn_class e = PredictionException /\
      self w' = self w /\ log w' = log w /\ disk w' = disk w /\ clock w' = clock w).
Proof.
  split.
  - intros E. rewrite (predict_unfold L periods freq ih fr w w), E. reflexivity.
  - intros e w'. apply predict_raise.
Qed.

(** *** Merging the regressor values *)

Lemma merge_regressor_inv (fr fut : DataFrame) (col : string) (w w' : World)
      (fut' : DataFrame) :
  merge_regressor fr fut col w = (Return fut', w') ->
  w' = w /\
  ((has_column col fr = false /\ fut' = fut) \/
   (has_column col fr = true /\ has_column col fut = false /\
    exists kl kr vr c,
      let merged := merge_left kl kr vr (col, dtype_at vr fr) fut fr in
      locate col merged = Return c /\
      fut' = set_column c (ffill (column c merged)) merged)).
Proof.
  unfold merge_regressor, bind, lift, ret, raise.
  destruct (has_column col fr) eqn:Hc.
  - destruct (locate "ds" fr) as [kr|e]; [|discriminate].
    destruct (locate col fr) as [vr|e]; [|discriminate].
    destruct (locate "ds" fut) as [kl|e]; [|discriminate].
    destruct (negb _); [discriminate|].
    destruct (has_column col fut) eqn:Hf; [discriminate|].
    destruct (locate col _) as [c|e] eqn:El; [|discriminate].
    intros H. injection H as <- <-. split; [reflexivity|]. right.
    split; [reflexivity|]. split; [reflexivity|].
    exists kl, kr, vr, c. cbv zeta. split; [exact El | reflexivity].
  - intros H. injection H as <- <-. auto.
Qed.

Lemma merge_regressor_columns (fr fut : DataFrame) (col : string) (w w' : World)
      (fut' : DataFrame) :
  merge_regressor fr fut col w = (Return fut', w') ->
  (forall x, has_column x fut = true -> has_column x fut' = true) /\
  (has_column col fr = true -> has_column col fut = false /\ has_column col fut' = true).
Proof.
  intros H. apply merge_regressor_inv in H.
  destruct H as [_ [[Hc ->]|(Hc & Hf & kl & kr & vr & c & _ & ->)]].
  - split; [auto | congruence].
  - unfold has_column, labels, set_column, merge_left in *. cbn [columns] in *.
    rewrite map_app. cbn [map fst]. split.
    + intros x Hx. rewrite existsb_app, Hx. reflexivity.
    + intros _. split; [exact Hf|].
      rewrite existsb_app. cbn [existsb]. rewrite String.eqb_refl.
      now rewrite orb_true_r.
Qed.

Lemma fold_merge_fresh (fr : DataFrame) (col : string) (cols : list string) :
  has_column col fr = true ->
  forall (fut fut' : DataFrame) (w w' : World),
    fold_m cols (merge_regressor fr) fut w = (Return fut', w') ->
    has_column col fut = true -> ~ In col cols.
Proof.
  intros Hc. induction cols as [|c cols IH]; intros fut fut' w w' H Hf; [tauto|].
  cbn [fold_m] in H. apply bind_inv in H. destruct H as (fut1 & w1 & Hm & H).
  destruct (@merge_regressor_columns fr fut c w w1 fut1 Hm) as [K1 K2].
  intros [->|Hin].
  - destruct (K2 Hc) as [Hno _]. congruence.
  - exact (IH fut1 fut' w1 w' H (K1 _ Hf) Hin).
Qed.

Lemma fold_merge_once (fr : DataFrame) (col : string) (l1 l2 : list string) :
  has_column col fr = true ->
  forall (fut fut' : DataFrame) (w w' : World),
    fold_m (l1 ++ col :: l2) (merge_regressor fr) fut w = (Return fut', w') ->
    ~ In col l2.
Proof.
  intros Hc. induction l1 as [|c l1 IH]; intros fut fut' w w' H.
  - cbn [app fold_m] in H. apply bind_inv in H. destruct H as (fut1 & w1 & Hm & H).
    destruct (@merge_regressor_columns fr fut col w w1 fut1 Hm) as [_ K2].
    destruct (K2 Hc) as [_ Hyes].
    exact (@fold_merge_fresh fr col l2 Hc fut1 fut' w1 w' H Hyes).
  - cbn [app fold_m] in H. apply bind_inv in H. destruct H as (fut1 & w1 & Hm & H).
    exact (IH fut1 fut' w1 w' H).
Qed.

(** A feature column listed twice, for which the regressor frame has
    values, makes [predict] fail. *)
Lemma predict_repeated_feature (L : Lib.t) (periods : Z) (freq : string) (ih : bool)
      (fr : DataFrame) (w : World) (col : string) (l1 l2 : list string) :
  feature_columns (self w) = (l1 ++ col :: l2)%list -> In col l2 ->
  has_column col fr = true ->
  exists e w', predict L periods freq ih (Some fr) w = (Raise e, w').
Proof.
  intros Hfc Hin Hc.
  rewrite (predict_unfold L periods freq ih (Some fr) w w).
  destruct (model (self w)) as [p|]; [|eauto].
  destruct (Lib.make_future_dataframe L p periods freq ih) as [fut0|e0]; [|eauto].
  destruct (add_future_regressors (feature_columns (self w)) (Some fr) fut0 w)
    as [[fut|e0] w1] eqn:A; cbn [fst]; [|eauto].
  exfalso. revert A. unfold add_future_regressors. rewrite Hfc.
  replace (0 <? length (l1 ++ col :: l2))%nat with true
    by (symmetry; apply Nat.ltb_lt; rewrite length_app; simpl; lia).
  intros A. exact (@fold_merge_once fr col l1 l2 Hc fut0 fut w w1 A Hin).
Qed.

(** X13.  [predict] cannot take regressor values for a feature column
    that is listed twice: whenever [feature_columns] repeats a column
    the regressor frame supplies, the call raises PredictionException,
    whatever the engine. *)
Theorem predict_rejects_repeated_feature (L : Lib.t) (periods : Z) (freq : string)
        (ih : bool) (fr : DataFrame) (w : World) (col : string) (l1 l2 : list string) :
  feature_columns (self w) = (l1 ++ col :: l2)%list -> In col l2 ->
  has_column col fr = true ->
  exists msg w',
    predict L periods freq ih (Some fr) w =
    (Raise (mkExn PredictionException msg), w').
Proof.
  intros Hfc Hin Hc.
  destruct (@predict_repeated_feature L periods freq ih fr w col l1 l2 Hfc Hin Hc)
    as (e & w' & H).
  destruct (@predict_raise L periods freq ih (Some fr) w w' e H) as [Hcls _].
  destruct e as [cls msg]. simpl in Hcls. subst cls.
  exists msg, w'. exact H.
Qed.

(** *** The left join keeps the grid *)

Lemma locate_appended (col : string) (d : DType) (df : DataFrame)
      (rs' : list (list Cell)) (c : nat) :
  has_column col df = false ->
  locate col (mkFrame (columns df ++ [(col, d)]) rs') = Return c ->
  c = length (columns df).
Proof.
  intros Hno Hl. apply locate_label in Hl.
  unfold labels in Hl. cbn [columns] in Hl. rewrite map_app in Hl. cbn [map fst] in Hl.
  destruct (Nat.lt_ge_cases c (length (map fst (columns df)))) as [Hlt|Hge].
  - rewrite nth_error_app1 in Hl by exact Hlt.
    apply nth_error_In in Hl.
    exfalso. unfold has_column, labels in Hno.
    assert (Hex : existsb (String.eqb col) (map fst (columns df)) = true).
    { apply existsb_exists. exists col. split; [exact Hl | apply String.eqb_refl]. }
    congruence.
  - rewrite nth_error_app2 in Hl by exact Hge.
    rewrite length_map in *.
    destruct (c - length (columns df))%nat as [|k] eqn:E; [lia|].
    simpl in Hl. destruct k; discriminate.
Qed.

Lemma merge_row_rows (n kl kr vr : nat) (right : list (list Cell)) (l : list Cell) :
  merge_row n kl kr vr right l <> [] /\
  Forall (fun r' => forall k, k <> n -> cell_at k r' = cell_at k l)
         (merge_row n kl kr vr right l).
Proof.
  unfold merge_row.
  destruct (filter _ right) as [|m ms].
  - split; [discriminate|]. constructor; [|constructor].
    intros k Hk. rewrite cell_at_set_cell.
    destruct (Nat.eqb_spec n k); [congruence | reflexivity].
  - split; [discriminate|].
    apply Forall_forall. intros r' Hr. apply in_map_iff in Hr.
    destruct Hr as (r & <- & _).
    intros k Hk. rewrite cell_at_set_cell.
    destruct (Nat.eqb_spec n k); [congruence | reflexivity].
Qed.

Lemma Forall2_in_left {A B} (P : A -> B -> Prop) (la : list A) (lb : list B) (a : A) :
  Forall2 P la lb -> In a la -> exists b, In b lb /\ P a b.
Proof.
  induction 1 as [|x y la lb Hxy _ IH]; intros Hin; [contradiction|].
  destruct Hin as [->|Hin].
  - exists y. split; [now left | exact Hxy].
  - destruct (IH Hin) as (b & Hb & Hp). exists b. split; [now right | exact Hp].
Qed.

Lemma Forall2_in_right {A B} (P : A -> B -> Prop) (la : list A) (lb : list B) (b : B) :
  Forall2 P la lb -> In b lb -> exists a, In a la /\ P a b.
Proof.
  induction 1 as [|x y la lb Hxy _ IH]; intros Hin; [contradiction|].
  destruct Hin as [->|Hin].
  - exists x. split; [now left | exact Hxy].
  - destruct (IH Hin) as (a & Ha & Hp). exists a. split; [now right | exact Hp].
Qed.

(** X14.  Merging the values of a regressor onto the future grid keeps
    the grid.  When the regressor frame has the column, the merged
    frame has the columns of the grid followed by the new one, and
    outside the new column its rows are the rows of the grid: each grid
    row is there at least once and no other row is. *)
Theorem merge_regressor_keeps_grid (fr fut fut' : DataFrame) (col : string)
        (w w' : World) :
  merge_regressor fr fut col w = (Return fut', w') ->
  has_column col fr = true ->
  let n := length (columns fut) in
  labels fut' = (labels fut ++ [col])%list /\
  (forall r, In r (rows fut) ->
             exists r', In r' (rows fut') /\
                        forall k, k <> n -> cell_at k r' = cell_at k r) /\
  (forall r', In r' (rows fut') ->
              exists r, In r (rows fut) /\
                        forall k, k <> n -> cell_at k r' = cell_at k r).
Proof.
  intros H Hc n. apply merge_regressor_inv in H.
  destruct H as [_ [[Hno _]|(_ & Hf & kl & kr & vr & c & Hl & ->)]]; [congruence|].
  cbv zeta in Hl.
  assert (Ec : c = n).
  { unfold merge_left in Hl.
    exact (@locate_appended col (dtype_at vr fr) fut _ c Hf Hl). }
  subst c.
  set (merged := merge_left kl kr vr (col, dtype_at vr fr) fut fr) in *.
  pose proof (set_cells_agree n (ffill (column n merged)) (rows merged)) as F.
  split; [|split].
  - unfold labels, set_column, merged, merge_left. cbn [columns].
    now rewrite map_app.
  - intros r Hr.
    destruct (merge_row_rows n kl kr vr (rows fr) r) as [Hne Hall].
    destruct (merge_row n kl kr vr (rows fr) r) as [|m ms] eqn:Em; [congruence|].
    assert (Hm : In m (rows merged)).
    { unfold merged, merge_left. cbn [rows]. apply in_flat_map.
      exists r. split; [exact Hr|]. fold n. rewrite Em. now left. }
    destruct (@Forall2_in_left _ _ _ _ _ m F Hm) as (r' & Hr' & Hp).
    exists r'. split; [exact Hr'|].
    intros k Hk. rewrite (Hp k Hk).
    inversion Hall as [|? ? Hm0 _]; subst. exact (Hm0 k Hk).
  - intros r' Hr'.
    destruct (@Forall2_in_right _ _ _ _ _ r' F Hr') as (m & Hm & Hp).
    unfold merged, merge_left in Hm. cbn [rows] in Hm. apply in_flat_map in Hm.
    destruct Hm as (r & Hr & Hmr). fold n in Hmr.
    destruct (merge_row_rows n kl kr vr (rows fr) r) as [_ Hall].
    rewrite Forall_forall in Hall.
    exists r. split; [exact Hr|].
    intros k Hk. rewrite (Hp k Hk). exact (Hall m Hmr k Hk).
Qed.

Lemma flat_map_keeps_length {A B} (f : A -> list B) (l : list A) :
  (forall a, f a <> []) -> (length l <= length (flat_map f l))%nat.
Proof.
  intros Hf. induction l as [|a l IH]; simpl; [lia|].
  rewrite length_app. specialize (Hf a). destruct (f a); [congruence|]. simpl. lia.
Qed.

Lemma merge_regressor_shape (fr fut fut' : DataFrame) (col : string) (w w' : World) :
  merge_regressor fr fut col w = (Return fut', w') ->
  labels fut' = (labels fut ++ (if has_column col fr then [col] else []))%list /\
  (len fut <= len fut')%nat.
Proof.
  intros H. apply merge_regressor_inv in H.
  destruct H as [_ [[Hc ->]|(Hc & Hf & kl & kr & vr & c & _ & ->)]]; rewrite Hc.
  - rewrite app_nil_r. split; [reflexivity | lia].
  - split.
    + unfold labels, set_column, merge_left. cbn [columns]. now rewrite map_app.
    + rewrite set_column_len. unfold len, merge_left. cbn [rows].
      apply flat_map_keeps_length. intros r.
      apply (merge_row_rows (length (columns fut)) kl kr vr (rows fr) r).
Qed.

Lemma fold_merge_shape (fr : DataFrame) (cols : list string) :
  forall (fut fut' : DataFrame) (w w' : World),
    fold_m cols (merge_regressor fr) fut w = (Return fut', w') ->
    labels fut' = (labels fut ++ filter (fun c => has_column c fr) cols)%list /\
    (len fut <= len fut')%nat.
Proof.
  induction cols as [|c cols IH]; intros fut fut' w w' H; cbn [fold_m filter] in *.
  - unfold ret in H. injection H as <- _. rewrite app_nil_r. split; [reflexivity | lia].
  - apply bind_inv in H. destruct H as (fut1 & w1 & Hm & H).
    destruct (@merge_regressor_shape fr fut fut1 c w w1 Hm) as [L1 N1].
    destruct (IH fut1 fut' w1 w' H) as [L2 N2].
    split; [|lia].
    rewrite L2, L1. destruct (has_column c fr); simpl; now rewrite <- app_assoc.
Qed.

(** X15.  The columns the engine is given.  When the regressor step of
    [predict] returns, the frame handed to the engine has the columns of
    the future grid followed by those feature columns, in order, that
    the regressor frame supplies; a feature column the frame lacks is
    passed over without an error, and without a frame nothing is added.
    No row of the grid is lost. *)
Theorem future_regressors_columns (fc : list string) (fr : option DataFrame)
        (fut fut' : DataFrame) (w w' : World) :
  add_future_regressors fc fr fut w = (Return fut', w') ->
  labels fut' =
  (labels fut ++ match fr with
                 | Some f => filter (fun c => has_column c f) fc
                 | None => []
                 end)%list /\
  (len fut <= len fut')%nat.
Proof.
  unfold add_future_regressors.
  destruct fr as [f|].
  - destruct fc as [|c fc].
    + cbn [length Nat.ltb Nat.leb filter]. unfold ret. intros H. injection H as <- _.
      rewrite app_nil_r. split; [reflexivity | lia].
    + cbn [length Nat.ltb Nat.leb]. apply fold_merge_shape.
  - unfold ret. intros H. injection H as <- _.
    rewrite app_nil_r. split; [reflexivity | lia].
Qed.

(** *** [cross_validate] *)

(** X16.  [cross_validate] only reads the instance: whatever its
    outcome, the instance, the disk, the clock and the random stream
    are as before. *)
Theorem cross_validate_leaves_instance (L : Lib.t) (data : DataFrame)
        (horizon initial period : string) (parallel : option string)
        (w w' : World) (o : Outcome (DataFrame * DataFrame)) :
  cross_validate L data horizon initial period parallel w = (o, w') ->
  self w' = self w /\ disk w' = disk w /\ clock w' = clock w /\ rng w' = rng w.
Proof.
  unfold cross_validate. unfold bind at 1. unfold get_self. cbv beta iota.
  destruct (model (self w)) as [p|];
    [|unfold raise; intros H; injection H as _ <-; auto].
  unfold try_except, bind at 1.
  destruct (prepare_data L data (target_column (self w)) "ds" w) as [[prep|e] w1] eqn:P.
  - assert (K : self w1 = self w /\ disk w1 = disk w /\ clock w1 = clock w /\
                rng w1 = rng w).
    { revert P. unfold prepare_data, try_except, bind, lift, ret, logger, raise.
      destruct (locate "ds" _) as [i|e]; [|discriminate].
      destruct (to_datetime _ _) as [stamps|e]; [|discriminate].
      destruct (locate "y" _) as [j|e]; [|discriminate].
      destruct (numeric_values _) as [vals|e]; [|discriminate].
      intros H. injection H as _ <-. auto. }
    unfold bind, lift, logger, ret, raise.
    destruct (Lib.cross_validation L p prep horizon initial period parallel) as [cv|e];
      [|intros H; injection H as _ <-; exact K].
    destruct (Lib.performance_metrics L cv) as [pm|e];
      intros H; injection H as _ <-; exact K.
  - assert (K : self w1 = self w /\ disk w1 = disk w /\ clock w1 = clock w /\
                rng w1 = rng w).
    { revert P. unfold prepare_data, try_except, bind, lift, ret, logger, raise.
      destruct (locate "ds" _) as [i|e0]; [|intros H; injection H as _ <-; auto].
      destruct (to_datetime _ _) as [stamps|e0]; [|intros H; injection H as _ <-; auto].
      destruct (locate "y" _) as [j|e0]; [|intros H; injection H as _ <-; auto].
      destruct (numeric_values _) as [vals|e0]; [discriminate|].
      intros H; injection H as _ <-; auto. }
    unfold raise. intros H. injection H as _ <-. exact K.
Qed.

(** X17.  [cross_validate] prepares the data with the default date
    column.  On a trained instance, data without a column called ds,
    such as the frame [fit] accepted under another date column, fails
    with ModelTrainingException naming the key ds, and nothing is
    logged. *)
Theorem cross_validate_needs_ds_column (L : Lib.t) (data : DataFrame)
        (horizon initial period : string) (parallel : option string)
        (w : World) (p : Prophet.t) :
  model (self w) = Some p ->
  ~ In "ds" (labels data) ->
  cross_validate L data horizon initial period parallel w =
  (Raise (mkExn ModelTrainingException
                "Cross-validation failed: Data preparation failed: 'ds'"), w).
Proof.
  intros Hm Hno.
  assert (Hl : locate "ds" (prophet_format data (target_column (self w)) "ds")
               = Raise (mkExn KeyError "'ds'")).
  { unfold locate.
    rewrite positions_from_absent; [reflexivity|].
    unfold prophet_format. cbn [String.eqb Ascii.eqb Bool.eqb negb].
    destruct (negb (target_column (self w) =? "y")).
    - apply (@rename_keeps_absent (target_column (self w)) "y" "ds" data);
        [discriminate | exact Hno].
    - exact Hno. }
  unfold cross_validate. unfold bind at 1. unfold get_self. cbv beta iota.
  rewrite Hm. unfold try_except, bind at 1.
  unfold prepare_data, try_except. unfold bind at 1. unfold lift at 1.
  rewrite Hl. reflexivity.
Qed.

End Forecasting.

Section Persistence.
Import Py Np Pandas Monad Observe.
Local Open Scope string_scope.

(** *** Fitting again *)

(** X18.  Fitting twice breaks forecasting with regressor values.  After
    two returning fits that both registered a column, the column is
    listed twice in [feature_columns], and every [predict] that is
    given a regressor frame with that column raises
    PredictionException. *)
Theorem refit_breaks_predict_with_regressors (L : Lib.t)
        (d1 d2 : DataFrame) (tc1 dc1 tc2 dc2 : string) (w w1 w2 : World)
        (p1 p2 : DataFrame) (col : string)
        (periods : Z) (freq : string) (ih : bool) (fr : DataFrame) :
  fit L d1 tc1 dc1 w = (Return tt, w1) ->
  fit L d2 tc2 dc2 w1 = (Return tt, w2) ->
  fst (prepare_data L d1 tc1 dc1 w) = Return p1 ->
  fst (prepare_data L d2 tc2 dc2 w1) = Return p2 ->
  In col (registered_columns p1) ->
  In col (registered_columns p2) ->
  has_column col fr = true ->
  exists msg w',
    predict L periods freq ih (Some fr) w2 =
    (Raise (mkExn PredictionException msg), w').
Proof.
  intros F1 F2 P1 P2 I1 I2 Hc.
  assert (Hfc : forall d tc dc wa wb p,
             fit L d tc dc wa = (Return tt, wb) ->
             fst (prepare_data L d tc dc wa) = Return p ->
             feature_columns (self wb) =
             (feature_columns (self wa) ++ registered_columns p)%list).
  { intros d tc dc wa wb p F P. revert F. rewrite fit_unfold.
    destruct (fit_core L d tc dc wa) as [[prepared|e0] wc] eqn:C; [|discriminate].
    cbv zeta. intros H. injection H as <-.
    destruct (@fit_core_result L d tc dc wa wc prepared C) as (Hp & _ & _ & Hf & _).
    destruct (_calculate_training_metrics L prepared wc) as [o wd] eqn:T.
    destruct (@calculate_training_metrics_frame L prepared wc wd o T) as (_ & Hk & _).
    cbn [snd self set_metadata feature_columns].
    rewrite Hk, Hf. rewrite P in Hp. now injection Hp as ->. }
  pose proof (Hfc _ _ _ _ _ _ F1 P1) as E1.
  pose proof (Hfc _ _ _ _ _ _ F2 P2) as E2.
  rewrite E1 in E2.
  destruct (in_split _ _ I1) as (a1 & a2 & Ea).
  assert (Hpred : exists e w', predict L periods freq ih (Some fr) w2 = (Raise e, w')).
  { apply (@predict_repeated_feature L periods freq ih fr w2 col
             (feature_columns (self w) ++ a1) (a2 ++ registered_columns p2)).
    - rewrite E2, Ea. now rewrite <- !app_assoc.
    - apply in_or_app. now right.
    - exact Hc. }
  destruct Hpred as (e & w' & H).
  destruct (@predict_raise L periods freq ih (Some fr) w2 w' e H) as [Hcls _].
  destruct e as [cls msg]. simpl in Hcls. subst cls.
  exists msg, w'. exact H.
Qed.

(** *** Saving and loading *)

Lemma save_model_inv (L : Lib.t) (filepath : string) (w w' : World) :
  save_model L filepath w = (Return tt, w') ->
  exists p,
    model (self w) = Some p /\
    dict_get filepath (disk w') =
    Some (Whole (mkBundle p (feature_columns (self w)) (target_column (self w))
                          (training_metrics (self w)) (metadata (self w)))).
Proof.
  unfold save_model, bind, get_self, try_except, dump, logger, raise.
  cbv beta iota.
  destruct (model (self w)) as [p|]; [|discriminate].
  destruct (Lib.joblib_dump L _ filepath) as [|e lb]; [|discriminate].
  intros H. injection H as <-. exists p. split; [reflexivity|].
  simpl. apply dict_get_set.
Qed.

Lemma load_model_run (filepath : string) (w : World) (b : Bundle) :
  dict_get filepath (disk w) = Some (Whole b) ->
  load_model filepath w =
  (Return tt,
   mkWorld (mkSelf (name (self w)) (seasonality_mode (self w))
                   (changepoint_prior_scale (self w))
                   (seasonality_prior_scale (self w))
                   (holidays_prior_scale (self w)) (mcmc_samples (self w))
                   (interval_width (self w)) (uncertainty_samples (self w))
                   (Some (b_model b)) (b_feature_columns b) (b_target_column b)
                   (b_training_metrics b) (b_metadata b))
           (log w ++ [(INFO, "Prophet model loaded from " ++ filepath)])
           (disk w) (clock w) (rng w)).
Proof.
  intros H.
  unfold load_model, try_except, bind, joblib_load, item, ret, modify_self, logger.
  rewrite H. reflexivity.
Qed.

(** X19.  What [save_model] writes, [load_model] reads back.  Loading
    the path of a returning save, on any instance and as long as the
    file is still there, returns and puts on the loading instance the
    engine, the feature columns, the target column, the training
    metrics and the metadata of the saved one.  The name and the
    hyperparameters of the loading instance stay its own, and the disk
    is not written. *)
Theorem save_then_load_restores (L : Lib.t) (filepath : string) (w w1 w2 : World) :
  save_model L filepath w = (Return tt, w1) ->
  dict_get filepath (disk w2) = dict_get filepath (disk w1) ->
  exists w3,
    load_model filepath w2 = (Return tt, w3) /\
    saved_state (self w3) = saved_state (self w) /\
    hyperparameters (self w3) = hyperparameters (self w2) /\
    disk w3 = disk w2.
Proof.
  intros Hs Hd.
  destruct (@save_model_inv L filepath w w1 Hs) as (p & Hm & Hb).
  rewrite Hb in Hd.
  rewrite (@load_model_run filepath w2 _ Hd).
  eexists. split; [reflexivity|].
  unfold saved_state, hyperparameters. simpl. rewrite Hm. auto.
Qed.

(** X20.  A load that fails is not undone.  When [joblib.load] itself
    fails (no file at the path, or one cut short by a failed dump)
    [load_model] raises the built-in Exception with a message starting
    "Failed to load model: " and the world is as before.  When the file
    is readable and its mapping lacks a key, the failure names that key
    and comes after the attributes assigned before it have been
    replaced: they keep their new values, the later ones their old
    ones.  Nothing is logged, and the hyperparameters and the disk are
    untouched. *)
Theorem load_model_failure_keeps_earlier_assignments (filepath : string) (w : World) :
  (dict_get filepath (disk w) = None \/ dict_get filepath (disk w) = Some Truncated ->
   exists msg,
     load_model filepath w =
     (Raise (mkExn PyException ("Failed to load model: " ++ msg)), w)) /\
  (forall m e w',
      dict_get filepath (disk w) = Some (Foreign m) ->
      load_model filepath w = (Raise e, w') ->
      hyperparameters (self w') = hyperparameters (self w) /\
      log w' = log w /\ disk w' = disk w /\
      match m_model m with
      | None =>
          e = mkExn PyException "Failed to load model: 'model'" /\
          self w' = self w
      | Some p =>
          model (self w') = Some p /\
          match m_feature_columns m with
          | None =>
              e = mkExn PyException "Failed to load model: 'feature_columns'" /\
              feature_columns (self w') = feature_columns (self w) /\
              target_column (self w') = target_column (self w) /\
              training_metrics (self w') = training_metrics (self w) /\
              metadata (self w') = metadata (self w)
          | Some cols =>
              feature_columns (self w') = cols /\
              match m_target_column m with
              | None =>
                  e = mkExn PyException "Failed to load model: 'target_column'" /\
                  target_column (self w') = target_column (self w) /\
                  training_metrics (self w') = training_metrics (self w) /\
                  metadata (self w') = metadata (self w)
              | Some col =>
                  target_column (self w') = col /\
                  match m_training_metrics m with
                  | None =>
                      e = mkExn PyException
                                "Failed to load model: 'training_metrics'" /\
                      training_metrics (self w') = training_metrics (self w) /\
                      metadata (self w') = metadata (self w)
                  | Some tm =>
                      training_metrics (self w') = tm /\
                      m_metadata m = None /\
                      e = mkExn PyException "Failed to load model: 'metadata'" /\
                      metadata (self w') = metadata (self w)
                  end
              end
          end
      end).
Proof.
  split.
  - intros [E|E];
      unfold load_model, try_except, bind, joblib_load, raise; rewrite E;
      eexists; reflexivity.
  - intros m e w' E.
    unfold load_model, try_except, bind, joblib_load, item, ret, raise,
      modify_self, logger.
    rewrite E. unfold hyperparameters.
    destruct m as [[p|] [cols|] [col|] [tm|] [md|]]; cbn;
      try discriminate;
      intros H; injection H as <- <-; cbn; auto 10.
Qed.

(** X21.  A loaded model forecasts like the saved one.  On an instance
    of the same name that has loaded what [save_model] wrote, with the
    random stream and the clock in the same state, [predict] has the
    outcome it has on the saving instance: the same rows or the same
    failure. *)
Theorem loaded_model_predicts_alike (L : Lib.t) (filepath : string)
        (w w1 w2 w3 : World) (periods : Z) (freq : string) (ih : bool)
        (fr : option DataFrame) :
  save_model L filepath w = (Return tt, w1) ->
  dict_get filepath (disk w2) = dict_get filepath (disk w1) ->
  load_model filepath w2 = (Return tt, w3) ->
  name (self w2) = name (self w) -> rng w2 = rng w -> clock w2 = clock w ->
  fst (predict L periods freq ih fr w3) = fst (predict L periods freq ih fr w).
Proof.
  intros Hs Hd Hl Hn Hr Hc.
  destruct (@save_model_inv L filepath w w1 Hs) as (p & Hm & Hb).
  rewrite Hb in Hd.
  rewrite (@load_model_run filepath w2 _ Hd) in Hl. injection Hl as <-.
  rewrite (predict_unfold L periods freq ih fr _ w).
  rewrite (predict_unfold L periods freq ih fr w w).
  cbn [self model feature_columns name rng clock log disk b_model b_feature_columns].
  rewrite Hm, Hn, Hr, Hc.
  destruct (Lib.make_future_dataframe L p periods freq ih) as [fut0|e0]; [|reflexivity].
  destruct (fst (add_future_regressors _ fr fut0 w)) as [fut|e0]; [|reflexivity].
  cbv zeta.
  destruct (fst (Lib.engine_predict L p (rng w) fut)) as [fc|e0]; [|reflexivity].
  destruct (Prophet.has_intervals fc); reflexivity.
Qed.

(** *** The summary *)

(** X22.  The summary of a loaded model mixes two instances.  After a
    returning load, [get_model_summary] reports the metrics, feature
    columns, target column and metadata of the bundle that was read
    under the name and the prior settings of the loading instance,
    whatever settings the saved engine was built with. *)
Theorem summary_after_load (filepath : string) (w w' : World) :
  load_model filepath w = (Return tt, w') ->
  exists b,
    fst (joblib_load filepath w) = Return (mapping_of b) /\
    get_model_summary w' =
    (Return
       (Trained
          (mkSummary (name (self w)) "Prophet Forecasting"
                     (b_training_metrics b) (b_feature_columns b) (b_target_column b)
                     [("seasonality_mode", SStr (seasonality_mode (self w)));
                      ("changepoint_prior_scale",
                       SNum (changepoint_prior_scale (self w)));
                      ("seasonality_prior_scale",
                       SNum (seasonality_prior_scale (self w)));
                      ("holidays_prior_scale", SNum (holidays_prior_scale (self w)))]
                     (b_metadata b))), w').
Proof.
  unfold load_model, try_except, bind, joblib_load, item, ret, raise,
    modify_self, logger.
  destruct (dict_get filepath (disk w)) as [[b| |m]|] eqn:E; cbn [fst].
  - intros H. injection H as <-. exists b. split; reflexivity.
  - discriminate.
  - destruct m as [[p|] [cols|] [col|] [tm|] [md|]]; cbn; try discriminate.
    intros H. injection H as <-.
    exists (mkBundle p cols col tm md). split; reflexivity.
  - discriminate.
Qed.


(** *** Feature importance *)

Lemma importance_lookup (f : string -> fval) (ks : list string)
      (acc : list (string * fval)) (r : string) :
  dict_get r (fold_left (fun importance k => dict_set k (f k) importance) ks acc) =
  if existsb (String.eqb r) ks then Some (f r) else dict_get r acc.
Proof.
  revert acc. induction ks as [|k ks IH]; intros acc; simpl; [reflexivity|].
  rewrite IH.
  destruct (existsb (String.eqb r) ks); [now rewrite orb_true_r|].
  rewrite orb_false_r.
  destruct (String.eqb_spec r k) as [->|N].
  - now rewrite dict_get_set.
  - now rewrite dict_get_set_other by exact N.
Qed.

Lemma fabs_nonnegative (v : fval) : fabs v = FNaN \/ fle (Fin 0) (fabs v).
Proof.
  destruct v; simpl; auto. right. apply Qabs_nonneg.
Qed.

(** X24.  [get_feature_importance] never raises and changes nothing.
    Without an engine it returns the empty mapping; with one, the
    mapping has exactly the regressors of the engine as keys, each with
    the absolute value of the coefficient the engine keeps for it, zero
    where it keeps none: no importance is negative. *)
Theorem feature_importance_entries (coef_of : Prophet.t -> string -> option fval)
        (w : World) :
  exists importance,
    get_feature_importance coef_of w = (Return importance, w) /\
    match model (self w) with
    | None => importance = []
    | Some m =>
        forall r,
          (In r (Prophet.extra_regressors m) ->
           dict_get r importance = Some (fabs (regressor_coef coef_of m r))) /\
          (~ In r (Prophet.extra_regressors m) -> dict_get r importance = None) /\
          (forall v, dict_get r importance = Some v -> v = FNaN \/ fle (Fin 0) v)
    end.
Proof.
  unfold get_feature_importance, bind, get_self, try_except, ret.
  destruct (model (self w)) as [m|]; [|eauto].
  eexists. split; [reflexivity|].
  intros r. rewrite importance_lookup. cbn [dict_get].
  destruct (existsb (String.eqb r) (Prophet.extra_regressors m)) eqn:E.
  - split; [reflexivity|]. split.
    + intros Hno. exfalso. apply Hno.
      apply existsb_exists in E. destruct E as (x & Hx & Ex).
      apply String.eqb_eq in Ex. now subst x.
    + intros v Hv. injection Hv as <-. apply fabs_nonnegative.
  - split; [|split; [reflexivity | discriminate]].
    intros Hin. exfalso.
    assert (existsb (String.eqb r) (Prophet.extra_regressors m) = true).
    { apply existsb_exists. exists r. split; [exact Hin | apply String.eqb_refl]. }
    congruence.
Qed.

End Persistence.

Section MoreRuns.
Import Py Np Pandas Monad Observe Examples Scenarios.
Local Open Scope string_scope.

(** *** The further properties at work on the examples *)

Lemma prepare_data_sorts_by_timestamp_witness :
  exists i,
    locate "ds" prepared_sales = Return i /\
    dtype_at i prepared_sales = datetime64 /\
    Forall timestamp (column i prepared_sales) /\
    keys_sorted (column i prepared_sales).
Proof.
  apply (@prepare_data_sorts_by_timestamp
           StandIn.lib sales "sales" "date" world0
           (snd (prepare_data StandIn.lib sales "sales" "date" world0))
           prepared_sales).
  vm_compute. reflexivity.
Defined.

Lemma prepare_data_keeps_rows_whole_witness :
  exists i j rs,
    locate "ds" prepared_sales = Return i /\
    locate "y" prepared_sales = Return j /\
    Permutation rs (rows prepared_sales) /\
    Forall2 (agree_outside i j) (rows sales) rs.
Proof.
  apply (@prepare_data_keeps_rows_whole
           StandIn.lib sales "sales" "date" world0
           (snd (prepare_data StandIn.lib sales "sales" "date" world0))
           prepared_sales).
  vm_compute. reflexivity.
Defined.


(** In [gappy] the value 7 stays, fills the two gaps after it and the
    gap in front of it. *)
Lemma fill_takes_nearest_value_witness :
  nth_error (bfill (ffill gappy)) 1 = Some (Num 7) /\
  nth_error (bfill (ffill gappy)) 3 = Some (Num 7) /\
  nth_error (bfill (ffill gappy)) 0 = Some (Num 7).
Proof.
  destruct (fill_takes_nearest_value gappy) as (K1 & K2 & K3).
  split; [|split].
  - apply (K1 1%nat (Num 7)); [reflexivity | discriminate].
  - apply (K2 1%nat 3%nat (Num 7)); [lia | reflexivity | discriminate |].
    intros t Ht. assert (E : t = 2%nat \/ t = 3%nat) by lia.
    destruct E as [-> | ->]; reflexivity.
  - apply (K3 1%nat 0%nat (Num 7)); [lia | reflexivity | discriminate |].
    intros t Ht. assert (E : t = 0%nat) by lia. subst t. reflexivity.
Defined.

(** [sales] has no column called when and none called revenue. *)
Lemma prepare_data_names_missing_column_witness :
  prepare_data StandIn.lib sales "sales" "when" world0 =
  (Raise (mkExn ModelTrainingException "Data preparation failed: 'ds'"), world0) /\
  prepare_data StandIn.lib sales "revenue" "date" world0 =
  (Raise (mkExn ModelTrainingException "Data preparation failed: 'y'"), world0).
Proof.
  split.
  - apply (proj1 (prepare_data_names_missing_column
                    StandIn.lib sales "sales" "when" world0));
      vm_compute; intuition discriminate.
  - apply (proj2 (prepare_data_names_missing_column
                    StandIn.lib sales "revenue" "date" world0)
                 0%nat [Num 19724; Num 19723; Num 19726; Num 19725]).
    + vm_compute. reflexivity.
    + vm_compute. reflexivity.
    + vm_compute. intuition discriminate.
Defined.

Lemma fit_failed_preparation_changes_nothing_witness :
  exists msg,
    fit StandIn.lib bad_dates "sales" "date" world0 =
    (Raise (mkExn ModelTrainingException
                  ("Prophet model training failed: Data preparation failed: " ++ msg)),
     mkWorld (self world0)
             (log world0 ++ [(INFO, "Starting Prophet model training...")])
             (disk world0) (clock world0) (rng world0)).
Proof.
  apply (@fit_failed_preparation_changes_nothing
           StandIn.lib bad_dates "sales" "date" world0
           (mkExn ModelTrainingException
                  "Data preparation failed: Unknown datetime string format, unable to parse: yesterday")).
  vm_compute. reflexivity.
Defined.


Lemma fit_builds_fresh_engine_witness :
  exists prepared m,
    fst (prepare_data StandIn.lib sales "sales" "date" world0) = Return prepared /\
    model (self fitted_world) = Some m /\
    Prophet.fitted m <> None /\
    standard_components m /\
    carries_hyperparameters m (self world0) /\
    Prophet.extra_regressors m = registered_columns prepared.
Proof.
  apply (@fit_builds_fresh_engine StandIn.lib sales "sales" "date" world0 fitted_world).
  vm_compute. reflexivity.
Defined.

(** The second fit on [sales] lists price a second time. *)
Lemma fit_appends_feature_columns_witness :
  feature_columns (self fitted_world) = ["price"] /\
  exists prepared,
    fst (prepare_data StandIn.lib sales "sales" "date" fitted_world) = Return prepared /\
    target_column (self refitted_world) = "sales" /\
    feature_columns (self refitted_world) =
    (feature_columns (self fitted_world) ++ registered_columns prepared)%list /\
    hyperparameters (self refitted_world) = hyperparameters (self fitted_world).
Proof.
  split; [vm_compute; reflexivity|].
  apply (@fit_appends_feature_columns
           StandIn.lib sales "sales" "date" fitted_world refitted_world).
  vm_compute. reflexivity.
Defined.

Lemma fit_records_metadata_witness :
  let md := metadata (self fitted_world) in
  dict_get "training_samples" md = Some (MInt (Z.of_nat (len sales))) /\
  dict_get "feature_columns" md = Some MFeatureColumns /\
  dict_get "target_column" md = Some (MStr "sales") /\
  dict_get "training_date" md = Some (MIsoTime (clock world0)) /\
  dict_get "model_params" md =
  Some (MDict [("seasonality_mode", SStr (seasonality_mode (self world0)));
               ("changepoint_prior_scale", SNum (changepoint_prior_scale (self world0)));
               ("seasonality_prior_scale", SNum (seasonality_prior_scale (self world0)));
               ("holidays_prior_scale", SNum (holidays_prior_scale (self world0)))]) /\
  (forall k, k <> "training_samples" -> k <> "feature_columns" ->
             k <> "target_column" -> k <> "training_date" -> k <> "model_params" ->
             dict_get k md = dict_get k (metadata (self world0))).
Proof.
  apply (@fit_records_metadata StandIn.lib sales "sales" "date" world0 fitted_world).
  vm_compute. reflexivity.
Defined.

(** An untrained instance, and a trained one asked for a frequency the
    engine does not know. *)
Lemma predict_fails_as_prediction_exception_witness :
  predict StandIn.lib 2 "D" false None world0 =
  (Raise (mkExn PredictionException "Model has not been trained yet"), world0) /\
  exn_class (mkExn PredictionException "Prediction failed: Invalid frequency: Q") =
  PredictionException /\
  snd (predict StandIn.lib 2 "Q" false None fitted_world) = fitted_world.
Proof.
  split.
  - apply (proj1 (predict_fails_as_prediction_exception
                    StandIn.lib 2 "D" false None world0)).
    reflexivity.
  - assert (H : predict StandIn.lib 2 "Q" false None fitted_world =
                (Raise (mkExn PredictionException
                              "Prediction failed: Invalid frequency: Q"),
                 snd (predict StandIn.lib 2 "Q" false None fitted_world)))
      by (vm_compute; reflexivity).
    destruct (proj2 (predict_fails_as_prediction_exception
                       StandIn.lib 2 "Q" false None fitted_world) _ _ H)
      as (K1 & _).
    split; [exact K1 | vm_compute; reflexivity].
Defined.

Lemma predict_rejects_repeated_feature_witness :
  exists msg w',
    predict StandIn.lib 2 "D" false (Some future_prices) refitted_world =
    (Raise (mkExn PredictionException msg), w').
Proof.
  apply (@predict_rejects_repeated_feature
           StandIn.lib 2 "D" false future_prices refitted_world "price" [] ["price"]).
  - vm_compute. reflexivity.
  - now left.
  - vm_compute. reflexivity.
Defined.

Lemma refit_breaks_predict_with_regressors_witness :
  fst (predict StandIn.lib 2 "D" false (Some future_prices) fitted_world) <>
  Raise (mkExn PredictionException "Prediction failed: 'price'") /\
  exists msg w',
    predict StandIn.lib 2 "D" false (Some future_prices) refitted_world =
    (Raise (mkExn PredictionException msg), w').
Proof.
  split; [vm_compute; discriminate|].
  apply (@refit_breaks_predict_with_regressors
           StandIn.lib sales sales "sales" "date" "sales" "date"
           world0 fitted_world refitted_world prepared_sales prepared_sales "price"
           2 "D" false future_prices).
  - vm_compute. reflexivity.
  - vm_compute. reflexivity.
  - vm_compute. reflexivity.
  - vm_compute. reflexivity.
  - vm_compute. auto.
  - vm_compute. auto.
  - vm_compute. reflexivity.
Defined.

Lemma merge_regressor_keeps_grid_witness :
  labels priced_grid = (labels grid ++ ["price"])%list /\
  (forall r, In r (rows grid) ->
             exists r', In r' (rows priced_grid) /\
                        forall k, k <> 1%nat -> cell_at k r' = cell_at k r) /\
  (forall r', In r' (rows priced_grid) ->
              exists r, In r (rows grid) /\
                        forall k, k <> 1%nat -> cell_at k r' = cell_at k r).
Proof.
  apply (@merge_regressor_keeps_grid future_prices grid priced_grid "price"
                                     world0 world0).
  - vm_compute. reflexivity.
  - vm_compute. reflexivity.
Defined.

(** The instance listed promo by hand; the frame has prices only. *)
Lemma future_regressors_columns_witness :
  labels priced_grid = ["ds"; "price"] /\
  (len grid <= len priced_grid)%nat.
Proof.
  apply (@future_regressors_columns ["promo"; "price"] (Some future_prices)
                                    grid priced_grid world0 world0).
  vm_compute. reflexivity.
Defined.

Lemma cross_validate_leaves_instance_witness :
  let w' := snd (cross_validate StandIn.lib history "30 days" "365 days" "30 days"
                                None fitted_world) in
  self w' = self fitted_world /\ disk w' = disk fitted_world /\
  clock w' = clock fitted_world /\ rng w' = rng fitted_world.
Proof.
  apply (@cross_validate_leaves_instance
           StandIn.lib history "30 days" "365 days" "30 days" None fitted_world
           (snd (cross_validate StandIn.lib history "30 days" "365 days" "30 days"
                                None fitted_world))
           (fst (cross_validate StandIn.lib history "30 days" "365 days" "30 days"
                                None fitted_world))).
  vm_compute. reflexivity.
Defined.

(** The frame the instance was fitted on cannot be cross-validated: its
    date column is called date. *)
Lemma cross_validate_needs_ds_column_witness :
  cross_validate StandIn.lib sales "30 days" "365 days" "30 days" None fitted_world =
  (Raise (mkExn ModelTrainingException
                "Cross-validation failed: Data preparation failed: 'ds'"),
   fitted_world).
Proof.
  apply (@cross_validate_needs_ds_column
           StandIn.lib sales "30 days" "365 days" "30 days" None fitted_world
           (engine_of fitted_world)).
  - vm_compute. reflexivity.
  - vm_compute. intuition discriminate.
Defined.

Lemma save_then_load_restores_witness :
  exists w3,
    load_model "model.joblib" other_world = (Return tt, w3) /\
    saved_state (self w3) = saved_state (self fitted_world) /\
    hyperparameters (self w3) = hyperparameters (self other_world) /\
    disk w3 = disk other_world.
Proof.
  apply (@save_then_load_restores StandIn.lib "model.joblib" fitted_world saved_world
                                  other_world).
  - vm_compute. reflexivity.
  - vm_compute. reflexivity.
Defined.

(** [foreign_world] holds a file with a model and nothing else: the
    load fails at the second key, after the model was replaced. *)
Lemma load_model_failure_keeps_earlier_assignments_witness :
  (exists msg,
      load_model "model.joblib" fitted_world =
      (Raise (mkExn PyException ("Failed to load model: " ++ msg)), fitted_world)) /\
  model (self foreign_world) = None /\
  let w' := snd (load_model "old.joblib" foreign_world) in
  fst (load_model "old.joblib" foreign_world) =
  Raise (mkExn PyException "Failed to load model: 'feature_columns'") /\
  model (self w') = Some (engine_of fitted_world) /\
  feature_columns (self w') = feature_columns (self foreign_world) /\
  target_column (self w') = target_column (self foreign_world) /\
  training_metrics (self w') = training_metrics (self foreign_world) /\
  metadata (self w') = metadata (self foreign_world) /\
  hyperparameters (self w') = hyperparameters (self foreign_world) /\
  log w' = log foreign_world /\ disk w' = disk foreign_world.
Proof.
  split.
  { apply (proj1 (@load_model_failure_keeps_earlier_assignments
                    "model.joblib" fitted_world)).
    left. vm_compute. reflexivity. }
  split; [vm_compute; reflexivity|].
  intros w'.
  destruct (proj2 (@load_model_failure_keeps_earlier_assignments
                     "old.joblib" foreign_world)
                  (mkMapping (Some (engine_of fitted_world)) None None None None)
                  (mkExn PyException "Failed to load model: 'feature_columns'")
                  w')
    as (Hh & Hl & Hd & Hm & He & Hf & Ht & Htm & Hmd).
  - vm_compute. reflexivity.
  - vm_compute. reflexivity.
  - repeat match goal with |- _ /\ _ => split end; try assumption.
    vm_compute. reflexivity.
Defined.

Lemma loaded_model_predicts_alike_witness :
  fst (predict StandIn.lib 2 "D" false (Some future_prices) twin_loaded) =
  fst (predict StandIn.lib 2 "D" false (Some future_prices) fitted_world).
Proof.
  apply (@loaded_model_predicts_alike
           StandIn.lib "model.joblib" fitted_world saved_world twin_world twin_loaded
           2 "D" false (Some future_prices)).
  - vm_compute. reflexivity.
  - vm_compute. reflexivity.
  - vm_compute. reflexivity.
  - vm_compute. reflexivity.
  - vm_compute. reflexivity.
  - vm_compute. reflexivity.
Defined.

(** The loaded model was built multiplicative; the summary says
    additive, the setting of the loading instance. *)
Lemma summary_after_load_witness :
  Prophet.seasonality_mode (engine_of loaded_world) = "multiplicative" /\
  exists b,
    fst (joblib_load "model.joblib" other_world) = Return (mapping_of b) /\
    get_model_summary loaded_world =
    (Return
       (Trained
          (mkSummary "weekly_sales" "Prophet Forecasting"
                     (b_training_metrics b) (b_feature_columns b) (b_target_column b)
                     [("seasonality_mode", SStr "additive");
                      ("changepoint_prior_scale", SNum (1 # 10));
                      ("seasonality_prior_scale", SNum 5);
                      ("holidays_prior_scale", SNum 5)]
                     (b_metadata b))), loaded_world).
Proof.
  split; [vm_compute; reflexivity|].
  apply (@summary_after_load "model.joblib" other_world loaded_world).
  vm_compute. reflexivity.
Defined.


Lemma feature_importance_entries_witness :
  exists importance,
    get_feature_importance price_coef fitted_world = (Return importance, fitted_world) /\
    dict_get "price" importance = Some (Fin 2) /\
    dict_get "promo" importance = None.
Proof.
  destruct (feature_importance_entries price_coef fitted_world) as (imp & E & K).
  assert (Hm : model (self fitted_world) = Some (engine_of fitted_world))
    by (vm_compute; reflexivity).
  rewrite Hm in K.
  exists imp. split; [exact E|]. split.
  - destruct (K "price") as (A & _ & _). rewrite A by (vm_compute; auto).
    vm_compute. reflexivity.
  - destruct (K "promo") as (_ & B & _). apply B.
    vm_compute. clear. intros [H|[]]. discriminate H.
Defined.

End MoreRuns.
